(** * Trainer (src/train.py): configuration, preprocessing pipeline,
      weight saving and test metrics

    A shallow embedding of the non-framework logic of [Trainer]:
    the constructor's option merging and augmentation scaling, the
    settings-string parser, the preprocessing pipeline, the step counts of
    [load_data], [save], and [test_model_additional_metrics].

    Python dictionaries are finite maps ([gmap string _]); Python
    exceptions are an explicit [result]; NumPy arrays of samples are lists.
    Floating-point values that are only reported are idealised as exact
    rationals ([Qc]) extended with the non-finite values; where a float
    decides a branch (the threshold test of the metrics loop) or an
    exception (an integer too large for a float) its binary64 rounding is
    written out. *)

From Stdlib Require Import ZArith QArith Qcanon Qround Qpower Ascii String.
From stdpp Require Import base numbers option list strings gmap fin_maps pretty.

Open Scope Z_scope.

(** ** Exceptions *)

Inductive exn :=
  | ValueError | TypeError | KeyError | ZeroDivisionError | AttributeError
  | IndexError | FileExistsError | FileNotFoundError | OSError
  | OverflowError.

Inductive result (A : Type) :=
  | Ok (a : A)
  | Raise (e : exn).
Arguments Ok {A} a.
Arguments Raise {A} e.

Definition bind {A B} (r : result A) (k : A -> result B) : result B :=
  match r with
  | Ok a => k a
  | Raise e => Raise e
  end.

Notation "'let!' x ':=' r 'in' k" := (bind r (fun x => k))
  (at level 10, x name, r at level 100, k at level 200).
Notation "'let!' ' p ':=' r 'in' k" := (bind r (fun x => let 'p := x in k))
  (at level 10, p pattern, r at level 100, k at level 200).

Definition is_ok {A} (r : result A) : bool :=
  match r with Ok _ => true | Raise _ => false end.

(** ** Floats *)

Definition Qc_of_Z (z : Z) : Qc := Q2Qc (inject_Z z).

(** A Python [float] or NumPy [float64]: a rational, or one of the
    non-finite values. *)
Inductive npfloat :=
  | Fin (q : Qc)
  | PInf
  | NInf
  | NaN.

(** [- x] *)
Definition np_neg (x : npfloat) : npfloat :=
  match x with
  | Fin q => Fin (- q)%Qc
  | PInf => NInf
  | NInf => PInf
  | NaN => NaN
  end.

(** *** binary64 rounding

    Where a float decides what the program does (the test
    [test_jacc_sum >= 0.65] of line 364, the products of line 109) the
    rounding of IEEE 754 binary64 (53 bits of precision, exponents from
    -1022 to 1023, round to nearest, ties to even) is written out on the
    rationals. *)

(** 2 to the power [e], for any integer [e]. *)
Definition pow2 (e : Z) : Qc := Q2Qc (2 ^ e)%Q.

(** The binary exponent of a positive rational [q]:
    [2^e <= q < 2^(e+1)]. *)
Definition ilog2 (q : Qc) : Z :=
  let e0 := Z.log2 (Qnum q) - Z.log2 (Zpos (Qden q)) in
  if bool_decide (pow2 e0 <= q)%Qc then e0 else e0 - 1.

(** The nearest integer, the even one of the two when they are equally
    near. *)
Definition round_half_even (q : Qc) : Z :=
  let f := Qfloor q in
  let r := (q - Qc_of_Z f)%Qc in
  if bool_decide (r < Q2Qc (1 # 2))%Qc then f
  else if bool_decide (Q2Qc (1 # 2) < r)%Qc then f + 1
  else if Z.even f then f else f + 1.

(** The binary64 nearest to a positive rational: a multiple of
    [2^(e-52)], where [e] is the exponent of the rational and at least
    -1022 (below that the numbers are subnormal), or the infinity when
    that multiple reaches [2^1024]. *)
Definition round64_pos (a : Qc) : npfloat :=
  let e := Z.max (ilog2 a) (-1022) in
  let ulp := pow2 (e - 52) in
  let v := (Qc_of_Z (round_half_even (a / ulp)) * ulp)%Qc in
  if bool_decide (pow2 1024 <= v)%Qc then PInf else Fin v.

(** The binary64 nearest to a rational (the sign of a zero is not kept). *)
Definition round64 (q : Qc) : npfloat :=
  if bool_decide (q = 0%Qc) then Fin 0%Qc
  else if bool_decide (0 < q)%Qc then round64_pos q
  else np_neg (round64_pos (- q)%Qc).

Arguments pow2 : simpl never.
Arguments round64_pos : simpl never.
Arguments round64 : simpl never.

(** [x * y] on two binary64 numbers: the exact product, rounded; an
    infinity times zero is [nan]. *)
Definition np_mul (x y : npfloat) : npfloat :=
  match x, y with
  | NaN, _ | _, NaN => NaN
  | Fin p, Fin q => round64 (p * q)%Qc
  | Fin p, i | i, Fin p =>
      if bool_decide (p = 0%Qc) then NaN
      else if bool_decide (0 < p)%Qc then i else np_neg i
  | PInf, PInf | NInf, NInf => PInf
  | PInf, NInf | NInf, PInf => NInf
  end.

(** ** Python values stored in the option dictionaries *)

(** The option dictionaries hold integers, floats, booleans and strings.
    A float is a binary64 number, an infinity or [nan] (a negative zero is
    not told from zero); a string is a string of ASCII characters. *)
Inductive pyval :=
  | VInt (z : Z)
  | VFloat (x : npfloat)
  | VBool (b : bool)
  | VStr (s : string).

Abbreviation dict := (gmap string pyval).

(** [d[key]] *)
Definition getitem {A} (d : gmap string A) (key : string) : result A :=
  match d !! key with
  | Some v => Ok v
  | None => Raise KeyError
  end.

(** Truth value of an object, as tested by [if]. *)
Definition truthy (v : pyval) : bool :=
  match v with
  | VInt z => negb (z =? 0)
  | VFloat (Fin q) => negb (bool_decide (q = 0%Qc))
  | VFloat _ => true
  | VBool b => b
  | VStr s => negb (String.eqb s "")
  end.

Definition Z_of_bool (b : bool) : Z := if b then 1 else 0.

(** [v != 1] *)
Definition py_ne_1 (v : pyval) : bool :=
  match v with
  | VInt z => negb (z =? 1)
  | VFloat (Fin q) => negb (bool_decide (q = 1%Qc))
  | VFloat _ => true
  | VBool b => negb b
  | VStr _ => true
  end.

(** *** [str], [str.replace('.', '', 1)], [str.isdigit] *)

Definition is_ascii_digit (c : ascii) : bool :=
  match Ascii.is_nat c with Some _ => true | None => false end.

Fixpoint all_digits (s : string) : bool :=
  match s with
  | EmptyString => true
  | String c s' => is_ascii_digit c && all_digits s'
  end.

(** [s.isdigit()] on an ASCII string: non-empty and only decimal digits. *)
Definition isdigit (s : string) : bool :=
  match s with
  | EmptyString => false
  | _ => all_digits s
  end.

(** [s.replace('.', '', 1)]: drop the first dot. *)
Fixpoint replace_first_dot (s : string) : string :=
  match s with
  | EmptyString => EmptyString
  | String c s' =>
      if Ascii.eqb c "."%char then s' else String c (replace_first_dot s')
  end.

(** [repr] of a float is positional ("digits.digits") exactly for
    [1e-4 <= |x| < 1e16] and for zero, and uses an exponent ("1e-05",
    "1e+16") otherwise; a negative float starts with "-".  So
    [str(x).replace('.','',1).isdigit()] holds for a float [x] iff
    [x = 0] or [1e-4 <= x < 1e16]. *)
Definition float_str_is_plain (q : Qc) : bool :=
  bool_decide (q = 0%Qc)
  || (bool_decide (Q2Qc (1 # 10000) <= q)%Qc
      && bool_decide (q < Q2Qc (inject_Z (10 ^ 16)))%Qc).

(** [str(v)].  The digits of a finite float are not built:
    [multiplicable] below decides the digit test of a finite float from its
    value, and the text given here for one is only a placeholder that fails
    the test. *)
Definition py_str (v : pyval) : string :=
  match v with
  | VInt z => pretty z
  | VBool true => "True"
  | VBool false => "False"
  | VStr s => s
  | VFloat (Fin _) => "<float>"
  | VFloat PInf => "inf"
  | VFloat NInf => "-inf"
  | VFloat NaN => "nan"
  end.

(** [str(v).replace('.','',1).isdigit()] *)
Definition multiplicable (v : pyval) : bool :=
  match v with
  | VFloat (Fin q) => float_str_is_plain q
  | _ => isdigit (replace_first_dot (py_str v))
  end.

(** *** Multiplication [v * f] *)

Fixpoint str_repeat (s : string) (n : nat) : string :=
  match n with
  | O => EmptyString
  | S n' => s +:+ str_repeat s n'
  end.

(** The least magnitude that binary64 rounds to an infinity: half-way
    between the largest float64, [2^1024 - 2^971], and [2^1024]. *)
Definition float_overflow : Z := 2 ^ 1024 - 2 ^ 970.

(** The conversion of an integer operand of a float product: the nearest
    float64, and [OverflowError] ("int too large to convert to float") when
    that would be an infinity. *)
Definition int_to_float (z : Z) : result npfloat :=
  if Z.abs z <? float_overflow then Ok (round64 (Qc_of_Z z))
  else Raise OverflowError.

(** [sys.maxsize] of a 64-bit CPython. *)
Definition ssize_max : Z := 2 ^ 63 - 1.

(** [s * n]: [OverflowError] when [n] does not fit an index or when the
    result would have more than [sys.maxsize] characters; the empty string
    when [n < 1].  The allocation of the result is taken to succeed. *)
Definition py_repeat (s : string) (n : Z) : result pyval :=
  if (n <? - 2 ^ 63) || (ssize_max <? n) then Raise OverflowError
  else if n <? 1 then Ok (VStr "")
  else if ssize_max `div` n <? Z.of_nat (String.length s)
  then Raise OverflowError
  else Ok (VStr (str_repeat s (Z.to_nat n))).

(** Numbers multiply (a [bool] is the integer 0 or 1, an integer is
    converted when the other operand is a float, a float product that is
    too large is an infinity); a string times an integer is a repetition; a
    string times a float or a string is a [TypeError]. *)
Definition py_mul (v f : pyval) : result pyval :=
  match v, f with
  | VInt a, VInt b => Ok (VInt (a * b))
  | VInt a, VBool b => Ok (VInt (a * Z_of_bool b))
  | VBool a, VInt b => Ok (VInt (Z_of_bool a * b))
  | VBool a, VBool b => Ok (VInt (Z_of_bool a * Z_of_bool b))
  | VInt a, VFloat y =>
      let! x := int_to_float a in Ok (VFloat (np_mul x y))
  | VBool a, VFloat y =>
      let! x := int_to_float (Z_of_bool a) in Ok (VFloat (np_mul x y))
  | VFloat x, VInt b =>
      let! y := int_to_float b in Ok (VFloat (np_mul x y))
  | VFloat x, VBool b =>
      let! y := int_to_float (Z_of_bool b) in Ok (VFloat (np_mul x y))
  | VFloat x, VFloat y => Ok (VFloat (np_mul x y))
  | VStr s, VInt n | VInt n, VStr s => py_repeat s n
  | VStr s, VBool b | VBool b, VStr s => py_repeat s (Z_of_bool b)
  | VStr _, VFloat _ | VFloat _, VStr _ | VStr _, VStr _ => Raise TypeError
  end.

(** ** Trainer.__init__: option dictionaries (lines 58-110) *)

(** The float written as the decimal [n / d]: the float64 nearest to it. *)
Definition dec (n : Z) (d : positive) : pyval :=
  VFloat (round64 (Q2Qc (n # d))).

(** The keys of the literal of lines 58-68, in its order. *)
Definition default_augument_keys : list string :=
  ["rotation_range"; "zoom_range"; "width_shift_range"; "height_shift_range";
   "fill_mode"; "cval"; "shear_range"; "horizontal_flip"; "vertical_flip"].

Definition default_augument : dict :=
  <["rotation_range" := VInt 30]> (
  <["zoom_range" := dec 1 10]> (
  <["width_shift_range" := dec 1 10]> (
  <["height_shift_range" := dec 1 10]> (
  <["fill_mode" := VStr "constant"]> (
  <["cval" := dec 0 1]> (
  <["shear_range" := dec 2 10]> (
  <["horizontal_flip" := VBool true]> (
  <["vertical_flip" := VBool true]> ∅)))))))).

Definition default_preprocessing_parameters : dict :=
  <["augumentation" := VBool false]> (
  <["augumentation_factor" := VInt 1]> (
  <["normalization" := VBool true]> (
  <["histogram_equalization" := VBool false]> (
  <["histogram_cutoff_percentage" := dec 2 100]> (
  <["remove_vignette_algorithm" := VBool false]> (
  <["add_border" := VBool false]> (
  <["border_width" := VInt 20]> (
  <["per_channel_normalization" := VBool false]> (
  <["gaussian_blur" := VBool false]> (
  <["gaussian_blur_radius" := VInt 2]> (
  <["zca_whitening" := VBool false]> (
  <["connected_components" := VBool false]> ∅)))))))))))).

(** The configuration part of a [Trainer] object. *)
Record Config := {
  augument : dict;
  augument_mask : dict;
  preprocessing_parameters : dict
}.

(** [for key, value in overrides.items(): d[key] = value] *)
Definition update_all (overrides : list (string * pyval)) (d : dict) : dict :=
  foldl (fun acc kv => <[kv.1 := kv.2]> acc) d overrides.

(** One iteration of the loop of lines 107-110. *)
Definition scale_step (aug_factor : pyval) (st : result (dict * dict))
    (key : string) : result (dict * dict) :=
  let! '(aug, mask) := st in
  let! v := getitem aug key in
  if multiplicable v then
    let! v' := py_mul v aug_factor in
    let aug' := <[key := v']> aug in
    let! m := getitem mask key in
    let! m' := py_mul m aug_factor in
    Ok (aug', <[key := m']> mask)
  else Ok (aug, mask).

(** The keys of a dictionary after the assignments [d[key] = value] of
    the overrides, in the order of insertion: a key that is already there
    keeps its place, a new key goes to the end. *)
Definition insert_key (keys : list string) (key : string) : list string :=
  if bool_decide (key ∈ keys) then keys else keys ++ [key].

Definition keys_after (overrides : list (string * pyval))
    (keys : list string) : list string :=
  foldl insert_key keys overrides.*1.

(** [for key in self.augument.keys()]: the keys are visited in the order of
    insertion. *)
Definition scale_all (aug_factor : pyval) (keys : list string)
    (aug mask : dict) : result (dict * dict) :=
  foldl (scale_step aug_factor) (Ok (aug, mask)) keys.

(** The constructor, restricted to the three option dictionaries.  The
    overrides are the [items()] of the caller's dictionaries. *)
Definition Trainer_init (preprocessing_params augumentation_parameters
    : list (string * pyval)) : result Config :=
  let pp := update_all preprocessing_params default_preprocessing_parameters in
  let aug := update_all augumentation_parameters default_augument in
  let mask := update_all augumentation_parameters default_augument in
  let! aug_factor := getitem pp "augumentation_factor" in
  let keys := keys_after augumentation_parameters default_augument_keys in
  let! '(aug', mask') :=
    (if py_ne_1 aug_factor then scale_all aug_factor keys aug mask
     else Ok (aug, mask)) in
  Ok {| augument := aug'; augument_mask := mask';
        preprocessing_parameters := pp |}.

(** ** load_prep_from_settings_string (lines 402-417) *)

(** [str.upper] on ASCII text. *)
Definition upper_char (c : ascii) : ascii :=
  let n := nat_of_ascii c in
  if (97 <=? n)%nat && (n <=? 122)%nat then ascii_of_nat (n - 32) else c.

Fixpoint upper (s : string) : string :=
  match s with
  | EmptyString => EmptyString
  | String c s' => String (upper_char c) (upper s')
  end.

(** [sub in s] *)
Fixpoint contains (sub s : string) : bool :=
  String.prefix sub s
  || match s with
     | EmptyString => false
     | String _ s' => contains sub s'
     end.

Definition set_if (cond : bool) (key : string) (p : dict) : dict :=
  if cond then <[key := VBool true]> p else p.

Definition load_prep_from_settings_string (settings : string) (p : dict)
    : dict :=
  let settings := upper settings in
  let p := set_if (contains "AUG" settings) "augumentation" p in
  let p := set_if (contains "HEQ" settings) "histogram_equalization" p in
  let p := set_if (contains "PCN" settings) "per_channel_normalization" p in
  let p := set_if (contains "CC" settings) "connected_components" p in
  let p := set_if (contains "ZCA" settings) "zca_whitening" p in
  let p := set_if (contains "GAUS" settings) "gaussian_blur" p in
  p.

(** The keywords and the flag each one switches on. *)
Definition keyword_flags : list (string * string) :=
  [("AUG", "augumentation"); ("HEQ", "histogram_equalization");
   ("PCN", "per_channel_normalization"); ("CC", "connected_components");
   ("ZCA", "zca_whitening"); ("GAUS", "gaussian_blur")].

(** ** test_model_additional_metrics (lines 334-400) *)

(** [a / b] on NumPy integers: a zero divisor gives [nan] or an infinity
    (with a warning), never an exception. *)
Definition np_div (a b : Z) : npfloat :=
  if b =? 0 then
    if a =? 0 then NaN else if 0 <? a then PInf else NInf
  else Fin (Qc_of_Z a / Qc_of_Z b)%Qc.

(** [x + y] on [float64]. *)
Definition np_add (x y : npfloat) : npfloat :=
  match x, y with
  | Fin p, Fin q => Fin (p + q)%Qc
  | NaN, _ | _, NaN => NaN
  | PInf, NInf | NInf, PInf => NaN
  | PInf, _ | _, PInf => PInf
  | NInf, _ | _, NInf => NInf
  end.

(** [x / n] for a [float64] [x] and an integer [n]. *)
Definition np_fdiv (x : npfloat) (n : Z) : npfloat :=
  match x with
  | Fin q =>
      if n =? 0 then
        if bool_decide (q = 0%Qc) then NaN
        else if bool_decide (0 < q)%Qc then PInf else NInf
      else Fin (q / Qc_of_Z n)%Qc
  | PInf => if 0 <=? n then PInf else NInf
  | NInf => if 0 <=? n then NInf else PInf
  | NaN => NaN
  end.

(** [a / b] on Python integers. *)
Definition py_truediv (a b : Z) : result npfloat :=
  if b =? 0 then Raise ZeroDivisionError
  else Ok (Fin (Qc_of_Z a / Qc_of_Z b)%Qc).

(** The accumulators start as the Python integer 0 and become NumPy
    scalars at the first [+=]. *)
Definition int_div (numpy : bool) (a b : Z) : result npfloat :=
  if numpy then Ok (np_div a b) else py_truediv a b.

(** [l.sum()] of a boolean vector. *)
Fixpoint np_sum (l : list bool) : Z :=
  match l with
  | [] => 0
  | b :: l' => Z_of_bool b + np_sum l'
  end.

Definition logical_and (d r : list bool) : list bool := zip_with andb d r.
Definition logical_or (d r : list bool) : list bool := zip_with orb d r.

(** Number of positions with true label [a] and predicted label [b]. *)
Fixpoint count_pairs (a b : bool) (d r : list bool) : Z :=
  match d, r with
  | x :: d', y :: r' =>
      Z_of_bool (Bool.eqb x a && Bool.eqb y b) + count_pairs a b d' r'
  | _, _ => 0
  end.

(** sklearn's [unique_labels(y_true, y_pred)]: the sorted labels that occur
    in either vector. *)
Definition unique_labels (d r : list bool) : list bool :=
  (if existsb negb (d ++ r) then [false] else [])
  ++ (if existsb id (d ++ r) then [true] else []).

(** sklearn's [confusion_matrix(y_true, y_pred)] with [labels=None]: one
    row and one column per label that occurs; entry (i, j) counts the
    positions with true label i and predicted label j. *)
Definition confusion_matrix (d r : list bool) : list (list Z) :=
  let labels := unique_labels d r in
  (fun i => (fun j => count_pairs i j d r) <$> labels) <$> labels.

Definition ravel (m : list (list Z)) : list Z := concat m.

(** sklearn's binary [jaccard_score(y_true, y_pred)]:
    tp / (tp + fp + fn), and 0 (with a warning) when that sum is 0. *)
Definition jaccard_score (d r : list bool) : Qc :=
  let tp := count_pairs true true d r in
  let den := tp + count_pairs false true d r + count_pairs true false d r in
  if den =? 0 then 0%Qc else (Qc_of_Z tp / Qc_of_Z den)%Qc.

Definition thresh : Qc := Q2Qc (65 # 100).

(** [x + y] on two binary64 numbers: the exact sum, rounded. *)
Definition f64_add (x y : npfloat) : npfloat :=
  match np_add x y with
  | Fin q => round64 q
  | v => v
  end.

(** [x >= y] *)
Definition np_ge (x y : npfloat) : bool :=
  match x, y with
  | Fin p, Fin q => bool_decide (q <= p)%Qc
  | NaN, _ | _, NaN => false
  | PInf, _ | _, NInf => true
  | _, _ => false
  end.

(** The loop variables.  [numpy] records that the counters have been
    rebound to NumPy scalars by a first iteration.  The [int64] counters are
    unbounded integers here: they count pixels of arrays held in memory.
    The variable [test_jacc_sum] is followed twice: [test_jacc_sum_f64] is
    the float64 it holds, which decides the test of line 364, and
    [test_jacc_sum] is the exact sum of the scores, which the mean reported
    at line 373 idealises. *)
Record Acc := {
  numpy : bool;
  jacc_sum : npfloat;
  tn : Z; tp : Z; fp : Z; fn : Z;
  test_jacc_sum : Qc;
  test_jacc_sum_f64 : npfloat;
  test_jacc_above_thresh : Z
}.

Definition acc0 : Acc :=
  {| numpy := false; jacc_sum := Fin 0%Qc; tn := 0; tp := 0; fp := 0; fn := 0;
     test_jacc_sum := 0%Qc; test_jacc_sum_f64 := Fin 0%Qc;
     test_jacc_above_thresh := 0 |}.

(** The loop body (lines 344-367) on the flattened binary vectors:
    [r] is the Otsu-thresholded prediction, [d] is [mask > 0.5].  Vectors of
    different lengths make NumPy or sklearn raise [ValueError].  The
    float64 returned by [jaccard_score] is the rounded quotient of the two
    pixel counts (counts below 2^53 convert to float64 without rounding),
    and the literal [0.65] is the float64 nearest to 65/100. *)
Definition sample_step (acc : Acc) (r d : list bool) : result Acc :=
  if negb (length d =? length r)%nat then Raise ValueError else
  let inter := np_sum (logical_and d r) in
  let union := np_sum (logical_or d r) in
  let jacc_sum' := np_add (jacc_sum acc) (np_div inter union) in
  match ravel (confusion_matrix d r) with
  | [tn_; fp_; fn_; tp_] =>
      let test_jaccard_score := jaccard_score d r in
      let above :=
        if np_ge (test_jacc_sum_f64 acc) (round64 thresh)
        then test_jacc_above_thresh acc + 1
        else test_jacc_above_thresh acc in
      Ok {| numpy := true; jacc_sum := jacc_sum';
            tn := tn acc + tn_; tp := tp acc + tp_;
            fp := fp acc + fp_; fn := fn acc + fn_;
            test_jacc_sum := (test_jacc_sum acc + test_jaccard_score)%Qc;
            test_jacc_sum_f64 :=
              f64_add (test_jacc_sum_f64 acc) (round64 test_jaccard_score);
            test_jacc_above_thresh := above |}
  | _ => Raise ValueError
  end.

(** [for r, mask in zip(results, test_masks)] *)
Fixpoint run_loop (acc : Acc) (samples : list (list bool * list bool))
    : result Acc :=
  match samples with
  | [] => Ok acc
  | (r, d) :: rest =>
      let! acc' := sample_step acc r d in
      run_loop acc' rest
  end.

Record Metrics := {
  jaccard_index : npfloat;
  test_sensitivity : npfloat;
  test_specifitivity : npfloat;
  test_accuracy : npfloat;
  test_precision : npfloat;
  test_jaccard_score : npfloat;
  test_dicecoef : npfloat;
  isic_eval_score : npfloat
}.

Record Report := {
  metrics : Metrics;
  logged : list (string * npfloat);
  returned : list npfloat
}.

Definition mlflow_metrics (m : Metrics) : list (string * npfloat) :=
  [("jaccard_index", jaccard_index m);
   ("test_sensitivity", test_sensitivity m);
   ("test_specifitivity", test_specifitivity m);
   ("test_accuracy", test_accuracy m);
   ("test_jaccard_score", test_jaccard_score m);
   ("test_precision", test_precision m);
   ("test_dicecoef", test_dicecoef m);
   ("isic_eval_score", isic_eval_score m)].

Definition test_model_additional_metrics (mlflow : bool)
    (results test_masks : list (list bool)) : result Report :=
  let! acc := run_loop acc0 (zip results test_masks) in
  let n := Z.of_nat (length results) in
  let np := numpy acc in
  let! sens := int_div np (tp acc) (tp acc + fn acc) in
  let! spec := int_div np (tn acc) (tn acc + fp acc) in
  let! accu := int_div np (tp acc + tn acc)
                 (tp acc + tn acc + fp acc + fn acc) in
  let! dsc := int_div np (2 * tp acc) (2 * tp acc + fp acc + fn acc) in
  let jac := np_fdiv (Fin (test_jacc_sum acc)) n in
  let! prec := int_div np (tp acc) (tp acc + fp acc) in
  let mean_jaccard_index := np_fdiv (jacc_sum acc) n in
  let! isic := py_truediv (test_jacc_above_thresh acc) n in
  let m := {| jaccard_index := mean_jaccard_index;
              test_sensitivity := sens; test_specifitivity := spec;
              test_accuracy := accu; test_precision := prec;
              test_jaccard_score := jac; test_dicecoef := dsc;
              isic_eval_score := isic |} in
  Ok {| metrics := m;
        logged := if mlflow then mlflow_metrics m else [];
        returned := [accu; jac; prec; sens; spec] |}.

(** ** Data loading and the preprocessing pipeline (lines 153-275) *)

(** The image helpers of [utils] and [preprocessing_opencv], NumPy's array
    primitives and Keras' [ImageDataGenerator] are an interface of the
    embedding.  An array of samples is the list of its samples. *)
Class Backend := {
  Img : Type;
  Mean : Type;
  Gen : Type;
  (** [arr.shape] *)
  shape : list Img -> list Z;
  (** [np.array(arr, dtype='f')] *)
  as_float32 : list Img -> list Img;
  (** [utils.apply_gaussian_blur(arr, radius)] *)
  apply_gaussian_blur : list Img -> pyval -> list Img;
  (** [utils.apply_histogram_equalization(arr, cutoff)] *)
  apply_histogram_equalization : list Img -> pyval -> list Img;
  (** [prep.connected_components_on_batch(arr, take=...)] *)
  connected_components_on_batch : list Img -> Z -> list Img;
  (** [utils.norm_per_channel(arr)] and [utils.norm_per_channel(arr, mean)] *)
  norm_per_channel : list Img -> option Mean -> list Img * Mean;
  (** [utils.normalize(images, masks)] *)
  normalize : list Img -> list Img -> list Img * list Img;
  (** [ImageDataGenerator(featurewise_center=True, zca_whitening=True)]
      after [fit(arr, seed=133)] *)
  zca_fit : list Img -> Gen;
  (** [gen.standardize(x)] *)
  standardize : Gen -> Img -> Img;
  (** [ImageDataGenerator] called with the options as keyword arguments:
      it returns, or it raises ([TypeError] for an option that it does not
      know) *)
  image_data_generator : dict -> result unit
}.

(** A batch iterator returned by [ImageDataGenerator.flow]. *)
Record Iterator := {
  it_options : dict;
  it_n : Z;
  it_batch_size : Z
}.

(** [len(iterator)]: Keras' [Iterator.__len__] is
    [(n + batch_size - 1) // batch_size], and [len] raises [ValueError]
    when [__len__] returns a negative number. *)
Definition iterator_len (it : Iterator) : result Z :=
  if it_batch_size it =? 0 then Raise ZeroDivisionError
  else
    let k := (it_n it + it_batch_size it - 1) `div` it_batch_size it in
    if k <? 0 then Raise ValueError else Ok k.

Section Pipeline.
Context {B : Backend}.

Record Trainer := {
  config : Config;
  batch_size : Z;
  image_size : Z;
  input_shape : list Z;
  data : gmap string (list Img);
  mean_per_channel : option Mean;
  train_steps : option Z;
  valid_steps : option Z
}.

Definition set_data (t : Trainer) (d : gmap string (list Img)) : Trainer :=
  {| config := config t; batch_size := batch_size t;
     image_size := image_size t; input_shape := input_shape t;
     data := d; mean_per_channel := mean_per_channel t;
     train_steps := train_steps t; valid_steps := valid_steps t |}.

Definition set_item (t : Trainer) (key : string) (a : list Img) : Trainer :=
  set_data t (<[key := a]> (data t)).

Definition set_input_shape (t : Trainer) (s : list Z) : Trainer :=
  {| config := config t; batch_size := batch_size t;
     image_size := image_size t; input_shape := s;
     data := data t; mean_per_channel := mean_per_channel t;
     train_steps := train_steps t; valid_steps := valid_steps t |}.

Definition set_image_size (t : Trainer) (n : Z) : Trainer :=
  {| config := config t; batch_size := batch_size t;
     image_size := n; input_shape := input_shape t;
     data := data t; mean_per_channel := mean_per_channel t;
     train_steps := train_steps t; valid_steps := valid_steps t |}.

Definition set_mean (t : Trainer) (m : Mean) : Trainer :=
  {| config := config t; batch_size := batch_size t;
     image_size := image_size t; input_shape := input_shape t;
     data := data t; mean_per_channel := Some m;
     train_steps := train_steps t; valid_steps := valid_steps t |}.

Definition set_config (t : Trainer) (c : Config) : Trainer :=
  {| config := c; batch_size := batch_size t;
     image_size := image_size t; input_shape := input_shape t;
     data := data t; mean_per_channel := mean_per_channel t;
     train_steps := train_steps t; valid_steps := valid_steps t |}.

Definition set_steps (t : Trainer) (tr va : Z) : Trainer :=
  {| config := config t; batch_size := batch_size t;
     image_size := image_size t; input_shape := input_shape t;
     data := data t; mean_per_channel := mean_per_channel t;
     train_steps := Some tr; valid_steps := Some va |}.

(** [self.preprocessing_parameters[key]] *)
Definition param (t : Trainer) (key : string) : result pyval :=
  getitem (preprocessing_parameters (config t)) key.

(** [for key in self.data.keys(): if 'images' in key:
       self.data[key] = f(self.data[key])] *)
Definition on_images (f : list Img -> list Img) (t : Trainer) : Trainer :=
  set_data t
    (map_imap (fun key a =>
                 Some (if contains "images" key then f a else a)) (data t)).

(** Lines 178-182. *)
Definition step_gaussian_blur (t : Trainer) : result Trainer :=
  let! flag := param t "gaussian_blur" in
  if truthy flag then
    let! radius := param t "gaussian_blur_radius" in
    Ok (on_images (fun a => apply_gaussian_blur a radius) t)
  else Ok t.

(** Lines 185-189. *)
Definition step_histogram_equalization (t : Trainer) : result Trainer :=
  let! flag := param t "histogram_equalization" in
  if truthy flag then
    let! cutoff := param t "histogram_cutoff_percentage" in
    Ok (on_images (fun a => apply_histogram_equalization a cutoff) t)
  else Ok t.

(** Lines 192-197. *)
Definition step_connected_components (t : Trainer) : result Trainer :=
  let! flag := param t "connected_components" in
  if truthy flag then
    let t :=
      on_images (fun a => connected_components_on_batch (as_float32 a) 5) t in
    let! train := getitem (data t) "train_images" in
    Ok (set_input_shape t (shape train))
  else Ok t.

(** Lines 200-205. *)
Definition step_per_channel_normalization (t : Trainer) : result Trainer :=
  let! flag := param t "per_channel_normalization" in
  if truthy flag then
    let! train := getitem (data t) "train_images" in
    let '(train', mean) := norm_per_channel train None in
    let t := set_item t "train_images" train' in
    let! val := getitem (data t) "val_images" in
    let '(val', mean) := norm_per_channel val (Some mean) in
    let t := set_item t "val_images" val' in
    let! test := getitem (data t) "test_images" in
    let '(test', mean) := norm_per_channel test (Some mean) in
    let t := set_item t "test_images" test' in
    Ok (set_mean t mean)
  else Ok t.

(** [self.data[images], self.data[masks] =
       utils.normalize(self.data[images], self.data[masks])] *)
Definition normalize_split (images masks : string) (t : Trainer)
    : result Trainer :=
  let! x := getitem (data t) images in
  let! y := getitem (data t) masks in
  let '(x', y') := normalize x y in
  Ok (set_item (set_item t images x') masks y').

(** Lines 208-212. *)
Definition step_normalization (t : Trainer) : result Trainer :=
  let! flag := param t "normalization" in
  if truthy flag then
    let! t := normalize_split "train_images" "train_masks" t in
    let! t := normalize_split "test_images" "test_masks" t in
    normalize_split "val_images" "val_masks" t
  else Ok t.

(** One iteration of the loop of lines 222-228: index [i] of the training
    array is standardized, and so is index [i] of the validation and test
    arrays when it is in range. *)
Definition zca_iter (gen : Gen) (arrs : list Img * list Img * list Img)
    (i : nat) : list Img * list Img * list Img :=
  let '(train, val, test) := arrs in
  let train := alter (standardize gen) i train in
  let val :=
    if (i <? length val)%nat then alter (standardize gen) i val else val in
  let test :=
    if (i <? length test)%nat then alter (standardize gen) i test else test in
  (train, val, test).

(** Lines 215-233. *)
Definition step_zca_whitening (t : Trainer) : result Trainer :=
  let! flag := param t "zca_whitening" in
  if truthy flag then
    let! train := getitem (data t) "train_images" in
    let gen := zca_fit (take 250 train) in
    let! val := getitem (data t) "val_images" in
    let! test := getitem (data t) "test_images" in
    let '(train', val', test') :=
      foldl (zca_iter gen) (train, val, test) (seq 0 (length train)) in
    Ok (set_item (set_item (set_item t "train_images" train')
                    "val_images" val') "test_images" test')
  else Ok t.

(** [__apply_preprocessings] *)
Definition apply_preprocessings (t : Trainer) : result Trainer :=
  let! t := step_gaussian_blur t in
  let! t := step_histogram_equalization t in
  let! t := step_connected_components t in
  let! t := step_per_channel_normalization t in
  let! t := step_normalization t in
  step_zca_whitening t.

(** [__load_data_into_dict]: [np_load] is the content of the array files
    under [data_dir]. *)
Definition load_data_into_dict (np_load : string -> result (list Img))
    (data_dir : string) (t : Trainer) : result Trainer :=
  let! a1 := np_load (data_dir +:+ "cv_train_images.npy") in
  let! a2 := np_load (data_dir +:+ "cv_train_masks.npy") in
  let! a3 := np_load (data_dir +:+ "cv_val_images.npy") in
  let! a4 := np_load (data_dir +:+ "cv_val_masks.npy") in
  let! a5 := np_load (data_dir +:+ "cv_test_images.npy") in
  let! a6 := np_load (data_dir +:+ "cv_test_masks.npy") in
  let d : gmap string (list Img) :=
    <["test_masks" := a6]> (<["test_images" := a5]> (
    <["val_masks" := a4]> (<["val_images" := a3]> (
    <["train_masks" := a2]> (<["train_images" := a1]> ∅))))) in
  match shape a5 !! 2%nat with
  | Some size => Ok (set_image_size (set_data t d) size)
  | None => Raise IndexError
  end.

(** [datagen.flow(x, batch_size=self.batch_size, ...)] *)
Definition flow (options : dict) (x : list Img) (b : Z) : Iterator :=
  {| it_options := options; it_n := Z.of_nat (length x);
     it_batch_size := b |}.

(** [load_data] (lines 235-275). *)
Definition load_data (np_load : string -> result (list Img))
    (data_dir : string) (t : Trainer) : result Trainer :=
  let! t := load_data_into_dict np_load data_dir t in
  let! t := apply_preprocessings t in
  let! flag := param t "augumentation" in
  let t :=
    if negb (truthy flag) then
      set_config t {| augument := ∅; augument_mask := ∅;
                      preprocessing_parameters :=
                        preprocessing_parameters (config t) |}
    else t in
  let! _ := image_data_generator (augument (config t)) in
  let! train_images := getitem (data t) "train_images" in
  let! _ := image_data_generator (augument_mask (config t)) in
  let! train_masks := getitem (data t) "train_masks" in
  let image_iterator :=
    flow (augument (config t)) train_images (batch_size t) in
  let mask_iterator :=
    flow (augument_mask (config t)) train_masks (batch_size t) in
  let! tr := iterator_len image_iterator in
  let! val_images := getitem (data t) "val_images" in
  let! val_masks := getitem (data t) "val_masks" in
  let valid_image_iterator := flow ∅ val_images (batch_size t) in
  let valid_mask_iterator := flow ∅ val_masks (batch_size t) in
  let! va := iterator_len valid_image_iterator in
  Ok (set_steps t tr va).

End Pipeline.

Arguments Trainer : clear implicits.

(** ** save (lines 304-320) *)

(** What the file system answers to the two calls of [save]: [None] when
    the call returns, [Some e] when it raises [e]. *)
Record World := {
  save_weights_raises : string -> option exn;
  mkdir_raises : string -> option exn
}.

Inductive event :=
  | EvSaveWeights (path : string)
  | EvMkdir (path : string)
  | EvPrint (text : string)
  | EvLogParam (key value : string).

Definition weights_path (model_dir : string) (image_size : Z)
    (timestamp : string) : string :=
  model_dir +:+ "UNet_model_" +:+ pretty image_size +:+ "x"
    +:+ pretty image_size +:+ "_" +:+ timestamp +:+ ".h5".

(** [try: self.model.save_weights(path)]: [Ok] when it returns, [Raise e]
    when it raises; an unbuilt model ([self.model is None]) raises
    [AttributeError] before any file is touched. *)
Definition try_save_weights (w : World) (model_built : bool) (path : string)
    : list event * result unit :=
  if model_built then
    ([EvSaveWeights path],
     match save_weights_raises w path with
     | None => Ok tt
     | Some e => Raise e
     end)
  else ([], Raise AttributeError).

(** [save]: the events it performs, in order, and its outcome. *)
Definition save (w : World) (model_built mlflow : bool) (model_dir : string)
    (image_size : Z) (timestamp : string) : list event * result string :=
  let path := weights_path model_dir image_size timestamp in
  let '(ev1, r) := try_save_weights w model_built path in
  let '(ev2, r2) :=
    match r with
    | Ok _ => ([], Ok tt)
    | Raise _ =>
        let dir := "./" +:+ model_dir in
        ([EvPrint "Saved models directiory created"; EvMkdir dir],
         match mkdir_raises w dir with
         | None => Ok tt
         | Some e => Raise e
         end)
    end in
  match r2 with
  | Raise e => (ev1 ++ ev2, Raise e)
  | Ok _ =>
      (ev1 ++ ev2
         ++ (if mlflow then [EvLogParam "Saved Model Name" path] else [])
         ++ [EvPrint ("Model weights saved: " +:+ path)],
       Ok path)
  end.

(** ** Reference quantities used by the statements *)

(** The samples the loop visits. *)
Definition samples_of (results test_masks : list (list bool))
    : list (list bool * list bool) :=
  zip results test_masks.

(** Pixels, over all samples, with true label [a] and predicted label [b]. *)
Definition total (a b : bool) (samples : list (list bool * list bool)) : Z :=
  foldr (fun s n => count_pairs a b s.2 s.1 + n) 0 samples.

Definition sumQc (l : list Qc) : Qc := foldr Qcplus 0%Qc l.

(** Intersection over union of one sample. *)
Definition iou (s : list bool * list bool) : Qc :=
  (Qc_of_Z (np_sum (logical_and s.2 s.1))
   / Qc_of_Z (np_sum (logical_or s.2 s.1)))%Qc.

(** The library score of one sample. *)
Definition lib_jaccard (s : list bool * list bool) : Qc :=
  jaccard_score s.2 s.1.

(** Both classes occur among the pixels of the two vectors of a sample. *)
Definition both_classes (s : list bool * list bool) : Prop :=
  (true ∈ s.2 ++ s.1) ∧ (false ∈ s.2 ++ s.1).

(** Number of indices [i < n] with [P i]. *)
Fixpoint count_upto (P : nat -> bool) (n : nat) : Z :=
  match n with
  | O => 0
  | S k => count_upto P k + Z_of_bool (P k)
  end.

(** Samples whose running sum of library scores, the sample's own score
    included, exceeds the threshold. *)
Definition above_through (samples : list (list bool * list bool)) : Z :=
  count_upto
    (fun i => bool_decide
                (thresh < sumQc (take (S i) (lib_jaccard <$> samples)))%Qc)
    (length samples).

(** Samples whose running sum of library scores, the sample's own score
    excluded, exceeds the threshold. *)
Definition above_before_strict (samples : list (list bool * list bool)) : Z :=
  count_upto
    (fun i => bool_decide
                (thresh < sumQc (take i (lib_jaccard <$> samples)))%Qc)
    (length samples).

(** The library score of one sample as the float64 it is. *)
Definition lib_jaccard_f64 (s : list bool * list bool) : npfloat :=
  round64 (lib_jaccard s).

(** The float64 sum of a list of float64 numbers, added one by one from
    the left to the integer 0. *)
Definition sum_f64 (l : list npfloat) : npfloat := foldl f64_add (Fin 0%Qc) l.

(** Samples at which the float64 sum of the library scores of the samples
    before them is at least the float64 0.65. *)
Definition above_before (samples : list (list bool * list bool)) : Z :=
  count_upto
    (fun i => np_ge (sum_f64 (take i (lib_jaccard_f64 <$> samples)))
                    (round64 thresh))
    (length samples).

(** The same count with every sum and the threshold taken exactly. *)
Definition above_before_exact (samples : list (list bool * list bool)) : Z :=
  count_upto
    (fun i => bool_decide
                (thresh <= sumQc (take i (lib_jaccard <$> samples)))%Qc)
    (length samples).

(** Three samples with the scores 3/10, 7/20 and 1: the first two add up
    to 0.65 exactly and to 0.6499999999999999 in float64. *)
Definition rounding_results : list (list bool) :=
  [replicate 3 true ++ replicate 7 false;
   replicate 7 true ++ replicate 13 false;
   [true; false]].
Definition rounding_masks : list (list bool) :=
  [replicate 10 true; replicate 20 true; [true; false]].

(** The score for [n] predictions when [k] samples are counted. *)
Definition isic_of_count (k n : Z) : npfloat :=
  Fin (Qc_of_Z k / Qc_of_Z n)%Qc.

(** ** Example inputs *)

Definition ex_results : list (list bool) :=
  [[true; true; false]; [false; true]].
Definition ex_masks : list (list bool) :=
  [[true; false; false]; [false; true]].

(** Twenty pixels, all of them foreground in the mask, thirteen of them
    foreground in the prediction: a Jaccard score of 13/20. *)
Definition boundary_result : list bool :=
  replicate 13 true ++ replicate 7 false.
Definition boundary_mask : list bool := replicate 20 true.

(** The value the scaling loop leaves under a key whose value was [v]. *)
Definition scaled (f v : pyval) : option pyval :=
  if multiplicable v then
    match py_mul v f with Ok v' => Some v' | Raise _ => None end
  else Some v.

(** A string of ASCII characters, on which [str.isdigit] and [str.upper]
    are the functions modelled here. *)
Fixpoint is_ascii (s : string) : bool :=
  match s with
  | EmptyString => true
  | String c s' => (nat_of_ascii c <? 128)%nat && is_ascii s'
  end.

Definition ascii_value (v : pyval) : bool :=
  match v with
  | VStr s => is_ascii s
  | _ => true
  end.


(** The number of characters that the product of a string and an integer
    builds; 0 for any other product. *)
Definition repeat_size (v f : pyval) : Z :=
  match v, f with
  | VStr s, VInt n | VInt n, VStr s => Z.of_nat (String.length s) * n
  | VStr s, VBool b | VBool b, VStr s =>
      Z.of_nat (String.length s) * Z_of_bool b
  | _, _ => 0
  end.

(** The limits within which the interpreter does the same on every
    machine and in every version: the string is ASCII, the integer has
    fewer than 4300 digits (a recent [str] refuses longer ones), and a
    repetition builds at most 2^20 characters (the allocation of a larger
    string can fail). *)
Definition within_limits_value (f v : pyval) : bool :=
  ascii_value v
  && match v with VInt z => Z.abs z <? 10 ^ 4300 | _ => true end
  && (negb (multiplicable v) || (repeat_size v f <=? 2 ^ 20)).

Definition within_limits (f : pyval) (d : dict) : Prop :=
  map_Forall (fun _ v => within_limits_value f v = true) d.

(** The products that are a [TypeError]: a string times a float or a
    string, and a float times a string. *)
Definition type_clash (v f : pyval) : bool :=
  match v, f with
  | VStr _, VFloat _ | VStr _, VStr _ | VFloat _, VStr _ => true
  | _, _ => false
  end.

(** Exact ceiling of [n / b]. *)
Definition ceil_div (n b : Z) : Z := Qceiling (inject_Z n / inject_Z b).

Definition is_save_weights (ev : event) : bool :=
  match ev with EvSaveWeights _ => true | _ => false end.

(** A file system on which the model directory exists and the write fails
    for another reason. *)
Definition failing_disk : World :=
  {| save_weights_raises := fun _ => Some OSError;
     mkdir_raises := fun _ => Some FileExistsError |}.

(** A file system without the model directory. *)
Definition missing_dir : World :=
  {| save_weights_raises := fun _ => Some FileNotFoundError;
     mkdir_raises := fun _ => None |}.

(** A backend on numbers: every helper keeps its input, standardizing adds
    the generator's offset. *)
Definition toy_backend : Backend :=
  {| Img := Z; Mean := Z; Gen := Z;
     shape := fun a => [Z.of_nat (length a); 2; 2; 3];
     as_float32 := fun a => a;
     apply_gaussian_blur := fun a _ => a;
     apply_histogram_equalization := fun a _ => a;
     connected_components_on_batch := fun a _ => a;
     norm_per_channel := fun a m => (a, default 0 m);
     normalize := fun a b => (a, b);
     zca_fit := fun a => 100;
     standardize := fun g x => g + x;
     image_data_generator := fun _ => Ok tt |}.

Section Examples.
Context {B : Backend}.

(** The options of a run with whitening only. *)
Definition zca_only : Config :=
  {| augument := default_augument; augument_mask := default_augument;
     preprocessing_parameters :=
       <["zca_whitening" := VBool true]> (
       <["normalization" := VBool false]>
         default_preprocessing_parameters) |}.

(** Two states with the same batch size and option dictionaries. *)
Definition same_settings (t t' : Trainer B) : Prop :=
  batch_size t' = batch_size t /\ config t' = config t.

Definition new_trainer (c : Config) (b : Z) : Trainer B :=
  {| config := c; batch_size := b; image_size := 256; input_shape := [1];
     data := ∅; mean_per_channel := None;
     train_steps := None; valid_steps := None |}.

(** One training sample, no validation sample, two test samples. *)
Definition short_training_set (a b c : Img) (m1 m2 m3 : Img)
    : gmap string (list Img) :=
  <["test_masks" := [m2; m3]]> (<["test_images" := [b; c]]> (
  <["val_masks" := []]> (<["val_images" := []]> (
  <["train_masks" := [m1]]> (<["train_images" := [a]]> ∅))))).
End Examples.

(** Array files of the toy backend: five training, three validation and
    two test samples. *)
Definition toy_files (path : string) : result (list Z) :=
  if contains "train" path then Ok [1; 2; 3; 4; 5]
  else if contains "val" path then Ok [6; 7; 8]
  else Ok [9; 10].

(** ** build_model (lines 277-290) *)

(** The network the wrapper asks for: [UNet(self.feature_channels,
    self.image_size, self.input_shape[-1])]. *)
Record UNetArgs := {
  unet_feature_channels : list Z;
  unet_image_size : Z;
  unet_input_channels : Z
}.

(** [build_model], up to the construction of the network: the arguments
    read from the trainer; an empty [input_shape] has no last entry. *)
Definition build_model {B : Backend} (feature_channels : list Z)
    (t : Trainer B) : result UNetArgs :=
  match last (input_shape t) with
  | Some channels =>
      Ok {| unet_feature_channels := feature_channels;
            unet_image_size := image_size t;
            unet_input_channels := channels |}
  | None => Raise IndexError
  end.

(** The keys of the image arrays and of the mask arrays of [self.data]. *)
Definition image_keys : list string :=
  ["train_images"; "val_images"; "test_images"].
Definition mask_keys : list string :=
  ["train_masks"; "val_masks"; "test_masks"].

(** The flags read by [__apply_preprocessings]. *)
Definition pipeline_flags : list string :=
  ["gaussian_blur"; "histogram_equalization"; "connected_components";
   "per_channel_normalization"; "normalization"; "zca_whitening"].

Section Preservation.
Context {B : Backend}.

(** What a pipeline step leaves alone: always the option dictionaries, the
    batch size, the image size and the set of keys of [self.data]; with
    [masks], every array whose key does not contain "images"; with [shape],
    the recorded input shape. *)
Definition preserved (masks shape : bool) (t t' : Trainer B) : Prop :=
  config t' = config t /\ batch_size t' = batch_size t
  /\ image_size t' = image_size t
  /\ (forall key, is_Some (data t' !! key) <-> is_Some (data t !! key))
  /\ (masks = true ->
      forall key, contains "images" key = false ->
                  data t' !! key = data t !! key)
  /\ (shape = true -> input_shape t' = input_shape t).

End Preservation.

(** * Properties *)

(** ** The result monad *)

Lemma bind_Ok {A B} (r : result A) (k : A -> result B) (b : B) :
  bind r k = Ok b -> exists a, r = Ok a /\ k a = Ok b.
Proof. destruct r as [a|e]; simpl; [eauto | discriminate]. Qed.

Lemma is_ok_true {A} (r : result A) :
  is_ok r = true -> exists a, r = Ok a.
Proof. destruct r; [eauto | discriminate]. Qed.

Lemma Ok_intro {A} (r : result A) (P : A -> Prop) :
  match r with Ok a => P a | Raise _ => False end ->
  exists a, r = Ok a /\ P a.
Proof. destruct r; [eauto | done]. Qed.

Ltac inv_bind H :=
  let a := fresh "a" in
  let Ha := fresh "Ha" in
  apply bind_Ok in H as (a & Ha & H).

(** Equalities between closed rationals. *)
Ltac Qc_closed :=
  first [ reflexivity
        | repeat f_equal; try (apply Qc_is_canon; vm_compute; reflexivity) ].

(** ** Settings string *)

Lemma set_if_lookup (cond : bool) (key k : string) (p : dict) :
  set_if cond key p !! k
  = if cond && bool_decide (k = key) then Some (VBool true) else p !! k.
Proof.
  unfold set_if. destruct cond; simpl; [|done].
  case_bool_decide as Hk.
  - subst. apply lookup_insert_eq.
  - by apply lookup_insert_ne.
Qed.

(** Each keyword switches its own flag on, whatever the other keywords
    do, and nothing is ever switched off. *)
Lemma load_prep_lookup (settings key : string) (p : dict) :
  load_prep_from_settings_string settings p !! key
  = if existsb (fun kw => contains kw.1 (upper settings)
                          && bool_decide (key = kw.2)) keyword_flags
    then Some (VBool true) else p !! key.
Proof.
  unfold load_prep_from_settings_string, keyword_flags.
  rewrite !set_if_lookup. simpl.
  repeat match goal with
         | |- context [contains ?a ?b && bool_decide ?c] =>
             destruct (contains a b && bool_decide c)
         end; done.
Qed.

(** C5. Keywords are matched as substrings of the upper-cased settings
    string, so in any letter case "aug_heq_cc" switches on exactly
    augumentation, histogram_equalization and connected_components, and
    every other preprocessing parameter keeps its prior value. *)
Theorem settings_aug_heq_cc (settings : string) (p : dict) :
  upper settings = upper "aug_heq_cc" ->
  forall key,
    load_prep_from_settings_string settings p !! key
    = if bool_decide (key ∈ ["augumentation"; "histogram_equalization";
                             "connected_components"])
      then Some (VBool true) else p !! key.
Proof.
  intros Hup key. rewrite load_prep_lookup, Hup.
  unfold keyword_flags.
  cbn [existsb fst snd].
  change (contains "AUG" (upper "aug_heq_cc")) with true.
  change (contains "HEQ" (upper "aug_heq_cc")) with true.
  change (contains "PCN" (upper "aug_heq_cc")) with false.
  change (contains "CC" (upper "aug_heq_cc")) with true.
  change (contains "ZCA" (upper "aug_heq_cc")) with false.
  change (contains "GAUS" (upper "aug_heq_cc")) with false.
  cbn [andb orb].
  rewrite !orb_false_r.
  assert (forall k : string,
            k ∈ ["augumentation"; "histogram_equalization";
                 "connected_components"]
            <-> k = "augumentation" \/ k = "histogram_equalization"
                \/ k = "connected_components") as Hmem.
  { intros k. rewrite !elem_of_cons, elem_of_nil. tauto. }
  destruct (decide (key = "augumentation")) as [->|H1].
  { rewrite (bool_decide_eq_true_2 (_ ∈ _)) by (apply Hmem; auto).
    by rewrite (bool_decide_eq_true_2 (_ = _)). }
  destruct (decide (key = "histogram_equalization")) as [->|H2].
  { rewrite (bool_decide_eq_true_2 (_ ∈ _)) by (apply Hmem; auto).
    rewrite (bool_decide_eq_false_2 (_ = _)) by done.
    by rewrite (bool_decide_eq_true_2 (_ = _)). }
  destruct (decide (key = "connected_components")) as [->|H3].
  { rewrite (bool_decide_eq_true_2 (_ ∈ _)) by (apply Hmem; auto).
    rewrite !(bool_decide_eq_false_2 (_ = _)) by done.
    by rewrite (bool_decide_eq_true_2 (_ = _)). }
  rewrite !(bool_decide_eq_false_2 (key = _)) by done.
  rewrite bool_decide_eq_false_2; [done|].
  rewrite Hmem. tauto.
Qed.

Lemma settings_aug_heq_cc_witness :
  load_prep_from_settings_string "aug_heq_cc"
    default_preprocessing_parameters !! "connected_components"
  = Some (VBool true)
  /\ load_prep_from_settings_string "Aug_HEQ_cc"
       default_preprocessing_parameters !! "zca_whitening"
     = Some (VBool false)
  /\ load_prep_from_settings_string "Aug_HEQ_cc"
       default_preprocessing_parameters !! "normalization"
     = Some (VBool true).
Proof.
  split_and!.
  - rewrite (settings_aug_heq_cc "aug_heq_cc"); reflexivity.
  - rewrite (settings_aug_heq_cc "Aug_HEQ_cc"); reflexivity.
  - rewrite (settings_aug_heq_cc "Aug_HEQ_cc"); reflexivity.
Defined.

(** ** Constructor *)

Lemma scale_step_equal (f : pyval) (st : result (dict * dict)) (key : string) :
  (forall a m, st = Ok (a, m) -> a = m) ->
  forall a' m', scale_step f st key = Ok (a', m') -> a' = m'.
Proof.
  intros Hst a' m' Hstep. unfold scale_step in Hstep.
  destruct st as [[a m]|e]; simpl in Hstep; [|done].
  specialize (Hst a m eq_refl) as ->.
  apply bind_Ok in Hstep as (v & Hv & Hstep).
  destruct (multiplicable v); [|by simplify_eq].
  apply bind_Ok in Hstep as (v' & Hv' & Hstep).
  apply bind_Ok in Hstep as (w & Hw & Hstep).
  apply bind_Ok in Hstep as (w' & Hw' & Hstep).
  rewrite Hv in Hw. simplify_eq. congruence.
Qed.

Lemma scale_fold_equal (f : pyval) (keys : list string) :
  forall st, (forall a m, st = Ok (a, m) -> a = m) ->
  forall a' m', foldl (scale_step f) st keys = Ok (a', m') -> a' = m'.
Proof.
  induction keys as [|key keys IH]; intros st Hst a' m' Hfold; simpl in Hfold.
  { by apply Hst. }
  eapply IH; [|exact Hfold].
  intros a m Hstep. by eapply scale_step_equal.
Qed.

Lemma scale_fold_Raise (f : pyval) (keys : list string) (e : exn) :
  foldl (scale_step f) (Raise e) keys = Raise e.
Proof. induction keys as [|key keys IH]; [done|]. simpl. exact IH. Qed.

Lemma scale_step_lookup (f : pyval) (a a1 m1 : dict) (k : string) :
  scale_step f (Ok (a, a)) k = Ok (a1, m1) ->
  exists v, a !! k = Some v /\ a1 !! k = scaled f v
            /\ forall key, key <> k -> a1 !! key = a !! key.
Proof.
  unfold scale_step. simpl. intros Hstep.
  apply bind_Ok in Hstep as (v & Hv & Hstep).
  unfold getitem in Hv. destruct (a !! k) as [v0|] eqn:Hk; [|done].
  injection Hv as ->.
  exists v. unfold scaled. split; [done|].
  destruct (multiplicable v).
  - apply bind_Ok in Hstep as (v' & Hv' & Hstep).
    apply bind_Ok in Hstep as (w & Hw & Hstep).
    apply bind_Ok in Hstep as (w' & Hw' & Hstep).
    simplify_eq. rewrite Hv'. split; [apply lookup_insert_eq|].
    intros key Hne. by apply lookup_insert_ne.
  - by simplify_eq.
Qed.

(** Every key is visited once: a value that passes the digit test is
    replaced by its product with the factor, any other value is kept. *)
Lemma scale_fold_lookup (f : pyval) (keys : list string) :
  NoDup keys ->
  forall a a' m', foldl (scale_step f) (Ok (a, a)) keys = Ok (a', m') ->
  forall key,
    a' !! key
    = if bool_decide (key ∈ keys) then a !! key ≫= scaled f else a !! key.
Proof.
  induction 1 as [|k keys Hk Hnd IH]; intros a a' m' Hfold key.
  { simpl in Hfold. by simplify_eq. }
  cbn [foldl] in Hfold.
  destruct (scale_step f (Ok (a, a)) k) as [[a1 m1]|e] eqn:Hstep;
    [|by rewrite scale_fold_Raise in Hfold].
  assert (a1 = m1) as <-.
  { eapply scale_step_equal; [|exact Hstep]. by intros ?? [= -> ->]. }
  apply scale_step_lookup in Hstep as (v & Hv & Hv1 & Hother).
  rewrite (IH _ _ _ Hfold key).
  destruct (decide (key = k)) as [->|Hne].
  - rewrite (bool_decide_eq_false_2 (k ∈ keys)) by done.
    rewrite (bool_decide_eq_true_2 (k ∈ k :: keys)) by left.
    by rewrite Hv1, Hv.
  - rewrite (Hother key Hne).
    destruct (decide (key ∈ keys)) as [Hin|Hin].
    + rewrite !bool_decide_eq_true_2; [done|by right|done].
    + rewrite !bool_decide_eq_false_2; [done| |done].
      rewrite elem_of_cons. tauto.
Qed.

(** What the scaling loop computes, key by key, when it visits every key
    once. *)
Lemma scale_all_lookup (f : pyval) (keys : list string) (a a' m' : dict)
    (key : string) :
  NoDup keys -> (forall k, is_Some (a !! k) -> k ∈ keys) ->
  scale_all f keys a a = Ok (a', m') ->
  a' !! key = a !! key ≫= scaled f /\ m' !! key = a !! key ≫= scaled f.
Proof.
  intros Hnd Hcover Hscale. unfold scale_all in Hscale.
  assert (a' = m') as <-.
  { eapply scale_fold_equal; [|exact Hscale]. by intros ?? [= -> ->]. }
  cut (a' !! key = a !! key ≫= scaled f); [by split|].
  rewrite (scale_fold_lookup f _ Hnd _ _ _ Hscale key).
  case_bool_decide as Hin; [done|].
  destruct (a !! key) as [v|] eqn:Hkey; [|done].
  destruct Hin. apply Hcover. by rewrite Hkey.
Qed.

(** *** The overrides and the order of the keys *)

Lemma update_all_app (o1 o2 : list (string * pyval)) (d : dict) :
  update_all (o1 ++ o2) d = update_all o2 (update_all o1 d).
Proof. unfold update_all. by rewrite foldl_app. Qed.

Lemma update_all_notin (overrides : list (string * pyval)) (d : dict)
    (key : string) :
  key ∉ overrides.*1 -> update_all overrides d !! key = d !! key.
Proof.
  revert d. induction overrides as [|[k v] overrides IH]; intros d Hk; [done|].
  rewrite fmap_cons, not_elem_of_cons in Hk. destruct Hk as [Hne Hk].
  change (update_all ((k, v) :: overrides) d)
    with (update_all overrides (<[k := v]> d)).
  rewrite IH by done. by rewrite lookup_insert_ne.
Qed.

Lemma update_all_in (overrides : list (string * pyval)) (d : dict)
    (key : string) (v : pyval) :
  NoDup overrides.*1 -> (key, v) ∈ overrides ->
  update_all overrides d !! key = Some v.
Proof.
  revert d. induction overrides as [|[k w] overrides IH]; intros d Hnd Hin.
  { by apply elem_of_nil in Hin. }
  rewrite fmap_cons in Hnd. apply NoDup_cons in Hnd as [Hk Hnd].
  change (update_all ((k, w) :: overrides) d)
    with (update_all overrides (<[k := w]> d)).
  apply elem_of_cons in Hin as [[= -> ->]|Hin].
  - rewrite update_all_notin by done. apply lookup_insert_eq.
  - by apply IH.
Qed.

Lemma update_all_is_Some (overrides : list (string * pyval)) (d : dict)
    (key : string) :
  is_Some (update_all overrides d !! key)
  <-> is_Some (d !! key) \/ key ∈ overrides.*1.
Proof.
  revert d. induction overrides as [|[k w] overrides IH]; intros d.
  { simpl. rewrite elem_of_nil. tauto. }
  change (update_all ((k, w) :: overrides) d)
    with (update_all overrides (<[k := w]> d)).
  rewrite IH, fmap_cons, elem_of_cons. simpl.
  destruct (decide (key = k)) as [->|Hne].
  - rewrite lookup_insert_eq. split; [auto|]. intros _. left. eauto.
  - rewrite lookup_insert_ne by done. tauto.
Qed.

Lemma insert_key_spec (keys : list string) (key : string) :
  NoDup keys ->
  NoDup (insert_key keys key)
  /\ forall k, k ∈ insert_key keys key <-> k ∈ keys \/ k = key.
Proof.
  intros Hnd. unfold insert_key. case_bool_decide as Hin.
  - split; [done|]. intros k. split; [auto|]. by intros [?| ->].
  - split.
    + apply NoDup_app. split_and!; [done| |apply NoDup_singleton].
      intros k Hk ->%list_elem_of_singleton. done.
    + intros k. by rewrite elem_of_app, list_elem_of_singleton.
Qed.

Lemma keys_after_spec (overrides : list (string * pyval)) :
  forall keys, NoDup keys ->
  NoDup (keys_after overrides keys)
  /\ forall k, k ∈ keys_after overrides keys <-> k ∈ keys \/ k ∈ overrides.*1.
Proof.
  unfold keys_after.
  induction overrides as [|[key v] overrides IH]; intros keys Hnd.
  { split; [done|]. intros k. simpl. rewrite elem_of_nil. tauto. }
  rewrite fmap_cons. cbn [foldl fst].
  destruct (insert_key_spec keys key Hnd) as [Hnd' Hin'].
  destruct (IH _ Hnd') as [Hnd'' Hin'']. split; [done|].
  intros k. rewrite Hin'', Hin', elem_of_cons. tauto.
Qed.

Lemma default_augument_keys_spec (k : string) :
  k ∈ default_augument_keys <-> is_Some (default_augument !! k).
Proof.
  unfold default_augument_keys, default_augument.
  rewrite !elem_of_cons, elem_of_nil.
  rewrite !lookup_insert_is_Some, lookup_empty, is_Some_alt.
  intuition congruence.
Qed.

(** The keys that the scaling loop visits are the keys of the dictionary,
    each one once. *)
Lemma augument_keys_spec (overrides : list (string * pyval)) :
  NoDup (keys_after overrides default_augument_keys)
  /\ forall k, k ∈ keys_after overrides default_augument_keys
                <-> is_Some (update_all overrides default_augument !! k).
Proof.
  assert (NoDup default_augument_keys) as Hnd by compute_done.
  destruct (keys_after_spec overrides _ Hnd) as [Hnd' Hin].
  split; [done|]. intros k.
  by rewrite Hin, update_all_is_Some, default_augument_keys_spec.
Qed.

(** *** The digit test on integers *)

Lemma all_digits_pretty_N_go (x : N) (s : string) :
  all_digits s = true -> all_digits (pretty_N_go x s) = true.
Proof.
  revert s. induction (N.lt_wf_0 x) as [x _ IH]; intros s Hs.
  destruct (decide (x = 0)%N) as [->|Hx]; [by rewrite pretty_N_go_0|].
  rewrite pretty_N_go_step by lia.
  apply IH; [apply N.div_lt; lia|].
  simpl. rewrite Hs.
  unfold pretty_N_char. by repeat case_match.
Qed.

Lemma pretty_N_go_nonempty (x : N) (s : string) :
  s <> EmptyString -> pretty_N_go x s <> EmptyString.
Proof.
  revert s. induction (N.lt_wf_0 x) as [x _ IH]; intros s Hs.
  destruct (decide (x = 0)%N) as [->|Hx]; [by rewrite pretty_N_go_0|].
  rewrite pretty_N_go_step by lia.
  apply IH; [apply N.div_lt; lia|done].
Qed.

Lemma isdigit_pretty_N (x : N) : isdigit (pretty x) = true.
Proof.
  unfold pretty, pretty_N. case_decide as Hx; [done|].
  assert (pretty_N_go x "" <> EmptyString) as Hne.
  { rewrite pretty_N_go_step by lia. by apply pretty_N_go_nonempty. }
  unfold isdigit. destruct (pretty_N_go x "") eqn:Hgo; [done|].
  rewrite <-Hgo. by apply all_digits_pretty_N_go.
Qed.

Lemma replace_first_dot_digits (s : string) :
  all_digits s = true -> replace_first_dot s = s.
Proof.
  induction s as [|c s IH]; simpl; [done|].
  intros [Hc Hs]%andb_true_iff. rewrite (IH Hs).
  destruct (Ascii.eqb_spec c "."%char) as [->|]; [done|done].
Qed.

Lemma isdigit_all_digits (s : string) : isdigit s = true -> all_digits s = true.
Proof. by destruct s. Qed.

(** An integer passes the digit test exactly when it is not negative. *)
Lemma multiplicable_int (z : Z) :
  multiplicable (VInt z) = bool_decide (0 <= z).
Proof.
  unfold multiplicable, py_str. destruct z as [|p|p].
  - done.
  - rewrite bool_decide_eq_true_2 by lia.
    change (pretty (Z.pos p)) with (pretty (N.pos p)).
    pose proof (isdigit_pretty_N (N.pos p)) as Hd.
    by rewrite replace_first_dot_digits by by apply isdigit_all_digits.
  - rewrite bool_decide_eq_false_2 by lia.
    change (pretty (Z.neg p)) with ("-" +:+ pretty (N.pos p)).
    done.
Qed.

Lemma multiplicable_bool (b : bool) : multiplicable (VBool b) = false.
Proof. by destruct b. Qed.

Lemma scaled_bool (f : pyval) (b : bool) : scaled f (VBool b) = Some (VBool b).
Proof. unfold scaled. by rewrite multiplicable_bool. Qed.

(** A non-negative integer is multiplied by an integer factor. *)
Lemma scaled_nonneg_int (k z : Z) :
  0 <= z -> scaled (VInt k) (VInt z) = Some (VInt (z * k)).
Proof.
  intros Hz. unfold scaled.
  by rewrite multiplicable_int, bool_decide_eq_true_2.
Qed.

(** A negative number is never multiplied. *)
Lemma scaled_negative_int (f : pyval) (z : Z) :
  z < 0 -> scaled f (VInt z) = Some (VInt z).
Proof.
  intros Hz. unfold scaled.
  by rewrite multiplicable_int, bool_decide_eq_false_2 by lia.
Qed.

Lemma scaled_negative_float (f : pyval) (q : Qc) :
  (q < 0)%Qc -> scaled f (VFloat (Fin q)) = Some (VFloat (Fin q)).
Proof.
  intros Hq. unfold scaled, multiplicable, float_str_is_plain.
  rewrite bool_decide_eq_false_2 by by apply Qclt_not_eq.
  rewrite (bool_decide_eq_false_2 (_ <= q)%Qc); [done|].
  intros Hle. apply (Qclt_not_eq q q); [|done].
  eapply Qclt_le_trans; [exact Hq|].
  eapply Qcle_trans; [|exact Hle]. done.
Qed.





(** C3 at a negative value: with factor 2 and the override cval = -1.0,
    the defaults 0.1 become 0.2, rotation_range 30 becomes 60 and the
    flags keep their value, but cval, a number, stays -1.0 in both
    dictionaries because its text "-1.0" fails the digit test. *)
Theorem negative_value_is_not_scaled :
  multiplicable (dec (-1) 1) = false
  /\ exists c,
       Trainer_init [("augumentation_factor", VInt 2)] [("cval", dec (-1) 1)]
       = Ok c
       /\ augument c !! "cval" = Some (dec (-1) 1)
       /\ augument_mask c !! "cval" = Some (dec (-1) 1)
       /\ augument c !! "zoom_range" = Some (dec 2 10)
       /\ augument_mask c !! "zoom_range" = Some (dec 2 10)
       /\ augument c !! "rotation_range" = Some (VInt 60)
       /\ augument c !! "horizontal_flip" = Some (VBool true)
       /\ augument c !! "fill_mode" = Some (VStr "constant").
Proof.
  split; [reflexivity|].
  apply Ok_intro. vm_compute. split_and!; Qc_closed.
Qed.

(** ** Saving the weights *)

(** C7, as stated, fails: when the write fails while the directory exists,
    [os.mkdir] raises inside the handler and [save] propagates that error
    instead of returning the path. *)
Lemma save_propagates_mkdir_error :
  (try_save_weights failing_disk true
     (weights_path "src/models/" 256 "03112026-101500")).2 = Raise OSError
  /\ (save failing_disk true false "src/models/" 256 "03112026-101500").2
     = Raise FileExistsError.
Proof. split; reflexivity. Qed.

(** C7 (amended). When writing the weights file fails and the directory
    creation that follows succeeds, [save] catches the exception, creates
    the model directory, does not call [save_weights] again and returns
    the constructed path. *)
Theorem save_swallows_write_failure (w : World) (model_built mlflow : bool)
    (model_dir : string) (image_size : Z) (timestamp : string) (e : exn) :
  let path := weights_path model_dir image_size timestamp in
  let attempt := try_save_weights w model_built path in
  attempt.2 = Raise e ->
  mkdir_raises w ("./" +:+ model_dir) = None ->
  save w model_built mlflow model_dir image_size timestamp
  = (attempt.1
       ++ [EvPrint "Saved models directiory created";
           EvMkdir ("./" +:+ model_dir)]
       ++ (if mlflow then [EvLogParam "Saved Model Name" path] else [])
       ++ [EvPrint ("Model weights saved: " +:+ path)],
     Ok path)
  /\ (length (filter (fun ev => is_save_weights ev = true)
                (save w model_built mlflow model_dir image_size timestamp).1)
      <= 1)%nat.
Proof.
  intros path attempt Hfail Hmkdir.
  assert (save w model_built mlflow model_dir image_size timestamp
          = (attempt.1
               ++ [EvPrint "Saved models directiory created";
                   EvMkdir ("./" +:+ model_dir)]
               ++ (if mlflow then [EvLogParam "Saved Model Name" path]
                   else [])
               ++ [EvPrint ("Model weights saved: " +:+ path)],
             Ok path)) as Hsave.
  { unfold save. fold path. fold attempt.
    destruct attempt as [ev1 r]. simpl in Hfail. subst r.
    by rewrite Hmkdir. }
  split; [exact Hsave|]. rewrite Hsave. simpl.
  unfold attempt, try_save_weights.
  destruct model_built, mlflow; simpl; lia.
Qed.

Lemma save_swallows_write_failure_witness :
  (save missing_dir true true "src/models/" 256 "03112026-101500").2
  = Ok "src/models/UNet_model_256x256_03112026-101500.h5".
Proof.
  destruct (save_swallows_write_failure missing_dir true true "src/models/"
              256 "03112026-101500" FileNotFoundError) as [Hsave _].
  - reflexivity.
  - reflexivity.
  - rewrite Hsave. reflexivity.
Defined.

(** ** Preprocessing pipeline and step counts *)

Section PipelineFacts.
Context {B : Backend}.

Lemma alter_prefix (f : Img -> Img) (l : list Img) :
  forall k, (k < length l)%nat ->
  alter f k ((f <$> take k l) ++ drop k l)
  = (f <$> take (S k) l) ++ drop (S k) l.
Proof.
  induction l as [|x l IH]; intros k Hk; simpl in Hk; [lia|].
  destruct k as [|k]; [done|].
  simpl. f_equal. apply IH. lia.
Qed.

Lemma prefix_past_end (f : Img -> Img) (l : list Img) (k : nat) :
  (length l <= k)%nat ->
  (f <$> take k l) ++ drop k l = (f <$> take (S k) l) ++ drop (S k) l.
Proof.
  intros Hk. rewrite !take_ge, !drop_ge by lia. done.
Qed.

Lemma prefix_length (f : Img -> Img) (l : list Img) (k : nat) :
  length ((f <$> take k l) ++ drop k l) = length l.
Proof.
  rewrite length_app, length_fmap, <-length_app. by rewrite take_drop.
Qed.

(** One more iteration extends the standardized prefix of each array by
    one sample, where there is one. *)
Lemma zca_iter_prefix (gen : Gen) (train val test : list Img) (k : nat) :
  (k < length train)%nat ->
  let f := standardize gen in
  zca_iter gen ((f <$> take k train) ++ drop k train,
                (f <$> take k val) ++ drop k val,
                (f <$> take k test) ++ drop k test) k
  = ((f <$> take (S k) train) ++ drop (S k) train,
     (f <$> take (S k) val) ++ drop (S k) val,
     (f <$> take (S k) test) ++ drop (S k) test).
Proof.
  intros Hk f. unfold zca_iter. rewrite !prefix_length.
  fold f. rewrite alter_prefix by done.
  repeat f_equal.
  - destruct (Nat.ltb_spec k (length val));
      [by apply alter_prefix | by apply prefix_past_end].
  - destruct (Nat.ltb_spec k (length test));
      [by apply alter_prefix | by apply prefix_past_end].
Qed.

Lemma zca_loop_prefix (gen : Gen) (train val test : list Img) (k : nat) :
  (k <= length train)%nat ->
  let f := standardize gen in
  foldl (zca_iter gen) (train, val, test) (seq 0 k)
  = ((f <$> take k train) ++ drop k train,
     (f <$> take k val) ++ drop k val,
     (f <$> take k test) ++ drop k test).
Proof.
  intros Hk f. induction k as [|k IH]; [done|].
  rewrite seq_S, foldl_app, IH by lia. simpl.
  by apply zca_iter_prefix.
Qed.

(** The whitening loop standardizes every training sample, and of the
    validation and test arrays the samples whose index is below the
    number of training samples. *)
Lemma zca_loop_spec (gen : Gen) (train val test : list Img) :
  let f := standardize gen in
  let n := length train in
  foldl (zca_iter gen) (train, val, test) (seq 0 n)
  = (f <$> train,
     (f <$> take n val) ++ drop n val,
     (f <$> take n test) ++ drop n test).
Proof.
  intros f n. unfold n. rewrite zca_loop_prefix by done.
  by rewrite firstn_all, drop_all, app_nil_r.
Qed.

(** With validation and test arrays no longer than the training array,
    every sample is standardized. *)
Lemma zca_loop_all (gen : Gen) (train val test : list Img) :
  (length val <= length train)%nat ->
  (length test <= length train)%nat ->
  foldl (zca_iter gen) (train, val, test) (seq 0 (length train))
  = (standardize gen <$> train, standardize gen <$> val,
     standardize gen <$> test).
Proof.
  intros Hv Ht. rewrite zca_loop_spec.
  by rewrite !take_ge, !drop_ge, !app_nil_r by lia.
Qed.

Ltac step_inv H :=
  repeat first
    [ apply bind_Ok in H as (? & ? & H)
    | match type of H with
      | (if ?b then _ else _) = _ => destruct b
      | (match ?x with (_, _) => _ end) = _ => destruct x
      end ];
  simplify_eq.

(** The whitening step, when its flag is true. *)
Lemma step_zca_whitening_on (t : Trainer B) (v : pyval)
    (train val test : list Img) :
  param t "zca_whitening" = Ok v -> truthy v = true ->
  data t !! "train_images" = Some train ->
  data t !! "val_images" = Some val ->
  data t !! "test_images" = Some test ->
  let f := standardize (zca_fit (take 250 train)) in
  let n := length train in
  step_zca_whitening t
  = Ok (set_item (set_item (set_item t "train_images" (f <$> train))
                    "val_images" ((f <$> take n val) ++ drop n val))
          "test_images" ((f <$> take n test) ++ drop n test)).
Proof.
  intros Hp Hv Htr Hva Hte f n. unfold step_zca_whitening.
  rewrite Hp. simpl. rewrite Hv. unfold getitem.
  rewrite Htr, Hva, Hte. simpl.
  by rewrite zca_loop_spec.
Qed.

(** A step whose flag is false leaves everything as it was. *)
Lemma steps_are_gated (t : Trainer B) (v : pyval) :
  truthy v = false ->
  (param t "gaussian_blur" = Ok v -> step_gaussian_blur t = Ok t)
  /\ (param t "histogram_equalization" = Ok v ->
      step_histogram_equalization t = Ok t)
  /\ (param t "connected_components" = Ok v ->
      step_connected_components t = Ok t)
  /\ (param t "per_channel_normalization" = Ok v ->
      step_per_channel_normalization t = Ok t)
  /\ (param t "normalization" = Ok v -> step_normalization t = Ok t)
  /\ (param t "zca_whitening" = Ok v -> step_zca_whitening t = Ok t).
Proof.
  intros Hv.
  unfold step_gaussian_blur, step_histogram_equalization,
    step_connected_components, step_per_channel_normalization,
    step_normalization, step_zca_whitening.
  split_and!; intros ->; simpl; by rewrite Hv.
Qed.

Lemma same_settings_trans (t1 t2 t3 : Trainer B) :
  same_settings t1 t2 -> same_settings t2 t3 -> same_settings t1 t3.
Proof. unfold same_settings. intros [] []. split; congruence. Qed.

Lemma normalize_split_settings (images masks : string) (t t' : Trainer B) :
  normalize_split images masks t = Ok t' -> same_settings t t'.
Proof. unfold normalize_split. intros H. step_inv H. done. Qed.

Lemma apply_preprocessings_settings (t t' : Trainer B) :
  apply_preprocessings t = Ok t' -> same_settings t t'.
Proof.
  unfold apply_preprocessings, same_settings. intros H.
  apply bind_Ok in H as (t1 & H1 & H). apply bind_Ok in H as (t2 & H2 & H).
  apply bind_Ok in H as (t3 & H3 & H). apply bind_Ok in H as (t4 & H4 & H).
  apply bind_Ok in H as (t5 & H5 & H).
  assert (same_settings t t1) as [E1 F1]
    by (unfold step_gaussian_blur in H1; step_inv H1; done).
  assert (same_settings t1 t2) as [E2 F2]
    by (unfold step_histogram_equalization in H2; step_inv H2; done).
  assert (same_settings t2 t3) as [E3 F3]
    by (unfold step_connected_components in H3; step_inv H3; done).
  assert (same_settings t3 t4) as [E4 F4]
    by (unfold step_per_channel_normalization in H4; step_inv H4; done).
  assert (same_settings t4 t5) as [E5 F5].
  { unfold step_normalization in H5.
    apply bind_Ok in H5 as (flag & _ & H5).
    destruct (truthy flag); [|by simplify_eq].
    apply bind_Ok in H5 as (u1 & G1 & H5).
    apply bind_Ok in H5 as (u2 & G2 & H5).
    apply normalize_split_settings in G1, G2, H5.
    eauto using same_settings_trans. }
  assert (same_settings t5 t') as [E6 F6]
    by (unfold step_zca_whitening in H; step_inv H; done).
  split; congruence.
Qed.

Lemma load_data_into_dict_settings (np_load : string -> result (list Img))
    (data_dir : string) (t t' : Trainer B) :
  load_data_into_dict np_load data_dir t = Ok t' -> same_settings t t'.
Proof.
  unfold load_data_into_dict. intros H.
  do 6 (apply bind_Ok in H as (? & _ & H)).
  destruct (shape _ !! _); by simplify_eq.
Qed.

(** With a positive batch size the length of an iterator is defined. *)
Lemma iterator_len_flow (options : dict) (x : list Img) (b : Z) :
  0 < b ->
  iterator_len (flow options x b)
  = Ok ((Z.of_nat (length x) + b - 1) `div` b).
Proof.
  intros Hb. unfold iterator_len, flow. simpl.
  destruct (Z.eqb_spec b 0); [lia|].
  destruct (Z.ltb_spec ((Z.of_nat (length x) + b - 1) `div` b) 0) as [Hneg|];
    [|done].
  pose proof (Z.div_pos (Z.of_nat (length x) + b - 1) b). lia.
Qed.

Lemma ceil_div_steps (n b : Z) :
  0 < b -> (n + b - 1) `div` b = ceil_div n b.
Proof.
  intros Hb. unfold ceil_div, Qceiling.
  assert (- (inject_Z n / inject_Z b) == inject_Z (- n) / inject_Z b)%Q
    as ->.
  { rewrite inject_Z_opp. unfold Qdiv. ring. }
  rewrite <-Zdiv_Qdiv.
  pose proof (Z.div_mod (n + b - 1) b ltac:(lia)).
  pose proof (Z.mod_pos_bound (n + b - 1) b Hb).
  pose proof (Z.div_mod (- n) b ltac:(lia)).
  pose proof (Z.mod_pos_bound (- n) b Hb).
  nia.
Qed.

(** C8. After [load_data] with a positive batch size b, the number of
    training steps is the ceiling of (number of training samples / b)
    and the number of validation steps is the ceiling of (number of
    validation samples / b), each taken from the iterator over its own
    split. *)
Theorem steps_are_ceilings (np_load : string -> result (list Img))
    (data_dir : string) (t t' : Trainer B) :
  0 < batch_size t ->
  load_data np_load data_dir t = Ok t' ->
  exists train val,
    data t' !! "train_images" = Some train
    /\ data t' !! "val_images" = Some val
    /\ train_steps t'
       = Some (ceil_div (Z.of_nat (length train)) (batch_size t))
    /\ valid_steps t'
       = Some (ceil_div (Z.of_nat (length val)) (batch_size t)).
Proof.
  intros Hb H. unfold load_data in H.
  apply bind_Ok in H as (t1 & H1 & H). apply bind_Ok in H as (t2 & H2 & H).
  apply bind_Ok in H as (flag & _ & H).
  apply load_data_into_dict_settings in H1 as [E1 _].
  apply apply_preprocessings_settings in H2 as [E2 _].
  set (t3 := if negb (truthy flag) then _ else t2) in H.
  assert (batch_size t3 = batch_size t) as Eb
    by (unfold t3; destruct (negb _); simpl; congruence).
  assert (data t3 = data t2) as Ed by (unfold t3; by destruct (negb _)).
  clearbody t3.
  apply bind_Ok in H as (? & _ & H).
  apply bind_Ok in H as (train & Htrain & H).
  apply bind_Ok in H as (? & _ & H).
  apply bind_Ok in H as (? & _ & H).
  apply bind_Ok in H as (tr & Htr & H).
  apply bind_Ok in H as (val & Hval & H).
  apply bind_Ok in H as (? & _ & H).
  apply bind_Ok in H as (va & Hva & H).
  injection H as <-. simpl.
  unfold getitem in Htrain, Hval.
  destruct (data t3 !! "train_images") as [train0|] eqn:Ht; [|done].
  destruct (data t3 !! "val_images") as [val0|] eqn:Hv; [|done].
  simplify_eq.
  rewrite Eb in Htr, Hva.
  rewrite iterator_len_flow in Htr, Hva by done. simplify_eq.
  exists train, val. split_and!; [done..| |];
    by rewrite ceil_div_steps.
Qed.

(** C6 at a test split longer than the training split: with only
    whitening switched on, one training sample and two test samples, the
    second test sample is left as it was. *)
Theorem zca_skips_samples_past_training_count (a b c m1 m2 m3 : Img) :
  let t := set_data (new_trainer zca_only 8)
             (short_training_set a b c m1 m2 m3) in
  let gen := zca_fit [a] in
  exists t',
    apply_preprocessings t = Ok t'
    /\ data t' !! "train_images" = Some [standardize gen a]
    /\ data t' !! "test_images" = Some [standardize gen b; c].
Proof.
  intros t gen. apply Ok_intro. vm_compute. done.
Qed.

End PipelineFacts.

Lemma steps_are_ceilings_witness :
  exists t',
    load_data (B := toy_backend) toy_files "npy_datasets/cv_data/"
      (new_trainer zca_only 2) = Ok t'
    /\ train_steps t' = Some 3 /\ valid_steps t' = Some 2.
Proof.
  destruct (is_ok_true
              (load_data (B := toy_backend) toy_files "npy_datasets/cv_data/"
                 (new_trainer zca_only 2))) as [t' Ht'];
    [vm_compute; reflexivity|].
  exists t'. split; [exact Ht'|].
  destruct (steps_are_ceilings (B := toy_backend) toy_files
              "npy_datasets/cv_data/" (new_trainer zca_only 2) t')
    as (train & val & Htr & Hva & -> & ->).
  - reflexivity.
  - exact Ht'.
  - assert (match load_data (B := toy_backend) toy_files
                   "npy_datasets/cv_data/" (new_trainer zca_only 2) with
            | Ok u => (data u !! "train_images", data u !! "val_images")
            | Raise _ => (None, None)
            end = (Some [101; 102; 103; 104; 105], Some [106; 107; 108]))
      as Hdata by (vm_compute; reflexivity).
    rewrite Ht' in Hdata. injection Hdata as Htr' Hva'.
    injection (eq_trans (eq_sym Htr) Htr') as ->.
    injection (eq_trans (eq_sym Hva) Hva') as ->.
    split; reflexivity.
Defined.

(** ** Test metrics *)

Lemma Z_of_bool_andb_sum (x y : bool) :
  Z_of_bool (Bool.eqb x false && Bool.eqb y false)
  + Z_of_bool (Bool.eqb x false && Bool.eqb y true)
  + Z_of_bool (Bool.eqb x true && Bool.eqb y false)
  + Z_of_bool (Bool.eqb x true && Bool.eqb y true) = 1.
Proof. by destruct x, y. Qed.

Lemma count_pairs_partition (d r : list bool) :
  length d = length r ->
  count_pairs false false d r + count_pairs false true d r
  + count_pairs true false d r + count_pairs true true d r
  = Z.of_nat (length d).
Proof.
  revert r. induction d as [|x d IH]; intros [|y r] Hlen; simplify_eq/=; [done|].
  specialize (IH r ltac:(done)).
  pose proof (Z_of_bool_andb_sum x y). lia.
Qed.

Lemma count_pairs_nonneg (a b : bool) (d r : list bool) :
  0 <= count_pairs a b d r.
Proof.
  revert r. induction d as [|x d IH]; intros [|y r]; simpl; try lia.
  specialize (IH r). destruct (Bool.eqb x a && Bool.eqb y b); simpl; lia.
Qed.

Lemma existsb_elem_of (f : bool -> bool) (l : list bool) :
  existsb f l = true <-> exists x, x ∈ l /\ f x = true.
Proof.
  rewrite existsb_exists. setoid_rewrite <-list_elem_of_In. done.
Qed.

(** The 2x2 matrix is the only one with four cells, and [ravel] lists it
    as tn, fp, fn, tp. *)
Lemma ravel_four (d r : list bool) (a b c e : Z) :
  ravel (confusion_matrix d r) = [a; b; c; e] ->
  both_classes (r, d)
  /\ a = count_pairs false false d r /\ b = count_pairs false true d r
  /\ c = count_pairs true false d r /\ e = count_pairs true true d r.
Proof.
  unfold ravel, confusion_matrix, unique_labels, both_classes. simpl.
  destruct (existsb negb (d ++ r)) eqn:Hn, (existsb id (d ++ r)) eqn:Hp;
    simpl; intros Heq; simplify_eq.
  apply existsb_elem_of in Hn as ([] & ? & ?); [done|].
  apply existsb_elem_of in Hp as ([] & ? & ?); [|done].
  done.
Qed.

Lemma ravel_both (d r : list bool) :
  both_classes (r, d) ->
  ravel (confusion_matrix d r)
  = [count_pairs false false d r; count_pairs false true d r;
     count_pairs true false d r; count_pairs true true d r].
Proof.
  intros [Ht Hf]. simpl in *.
  unfold ravel, confusion_matrix, unique_labels.
  assert (existsb negb (d ++ r) = true) as ->
    by (apply existsb_elem_of; by exists false).
  assert (existsb id (d ++ r) = true) as ->
    by (apply existsb_elem_of; by exists true).
  done.
Qed.

(** What one iteration does when it does not raise. *)
Lemma sample_step_Ok (acc acc' : Acc) (r d : list bool) :
  sample_step acc r d = Ok acc' ->
  length d = length r /\ both_classes (r, d)
  /\ acc' =
     {| numpy := true;
        jacc_sum :=
          np_add (jacc_sum acc)
            (np_div (np_sum (logical_and d r)) (np_sum (logical_or d r)));
        tn := tn acc + count_pairs false false d r;
        tp := tp acc + count_pairs true true d r;
        fp := fp acc + count_pairs false true d r;
        fn := fn acc + count_pairs true false d r;
        test_jacc_sum := (test_jacc_sum acc + jaccard_score d r)%Qc;
        test_jacc_sum_f64 :=
          f64_add (test_jacc_sum_f64 acc) (round64 (jaccard_score d r));
        test_jacc_above_thresh :=
          test_jacc_above_thresh acc
          + Z_of_bool (np_ge (test_jacc_sum_f64 acc) (round64 thresh)) |}.
Proof.
  unfold sample_step.
  destruct (length d =? length r)%nat eqn:Hlen; simpl; [|done].
  apply Nat.eqb_eq in Hlen.
  destruct (ravel (confusion_matrix d r)) as [|a [|b [|c [|e [|]]]]] eqn:Hr;
    try done.
  apply ravel_four in Hr as (Hb & -> & -> & -> & ->).
  intros [= <-]. split_and!; [done..|].
  f_equal. destruct (np_ge _ _); simpl; lia.
Qed.

Lemma total_nonneg (a b : bool) (samples : list (list bool * list bool)) :
  0 <= total a b samples.
Proof.
  induction samples as [|s samples IH]; simpl; [done|].
  pose proof (count_pairs_nonneg a b s.2 s.1). lia.
Qed.

(** The integer accumulators after the loop. *)
Lemma run_loop_counts (samples : list (list bool * list bool)) :
  forall acc acc', run_loop acc samples = Ok acc' ->
  tn acc' = tn acc + total false false samples
  /\ fp acc' = fp acc + total false true samples
  /\ fn acc' = fn acc + total true false samples
  /\ tp acc' = tp acc + total true true samples.
Proof.
  induction samples as [|[r d] samples IH]; intros acc acc' Hrun; simpl in *.
  { simplify_eq. lia. }
  inv_bind Hrun. apply sample_step_Ok in Ha as (_ & _ & ->).
  apply IH in Hrun as (-> & -> & -> & ->). simpl. lia.
Qed.

(** Every visited sample has vectors of one length that hold both classes. *)
Lemma run_loop_samples (samples : list (list bool * list bool)) :
  forall acc acc', run_loop acc samples = Ok acc' ->
  Forall (fun s => length s.2 = length s.1 /\ both_classes s) samples.
Proof.
  induction samples as [|[r d] samples IH]; intros acc acc' Hrun; simpl in *.
  { constructor. }
  inv_bind Hrun. apply sample_step_Ok in Ha as (? & ? & _).
  constructor; [done|]. by eapply IH.
Qed.

Lemma run_loop_numpy (samples : list (list bool * list bool)) :
  forall acc acc', run_loop acc samples = Ok acc' ->
  numpy acc' = numpy acc || bool_decide (samples <> []).
Proof.
  induction samples as [|[r d] samples IH]; intros acc acc' Hrun; simpl in *.
  { simplify_eq. by rewrite orb_false_r. }
  inv_bind Hrun. apply sample_step_Ok in Ha as (_ & _ & ->).
  apply IH in Hrun as ->. simpl. by rewrite orb_true_r.
Qed.

(** The running sum of library scores after the loop. *)
Lemma run_loop_test_jacc_sum (samples : list (list bool * list bool)) :
  forall acc acc', run_loop acc samples = Ok acc' ->
  test_jacc_sum acc'
  = (test_jacc_sum acc + sumQc (lib_jaccard <$> samples))%Qc.
Proof.
  induction samples as [|[r d] samples IH]; intros acc acc' Hrun;
    simpl in Hrun.
  { simplify_eq. rewrite fmap_nil. simpl. ring. }
  inv_bind Hrun. apply sample_step_Ok in Ha as (_ & _ & ->).
  apply IH in Hrun as ->. rewrite fmap_cons. simpl.
  change (lib_jaccard (r, d)) with (jaccard_score d r). ring.
Qed.

(** The sum of the per-sample ratios after the loop, when no union is
    empty. *)
Lemma run_loop_jacc_sum (samples : list (list bool * list bool)) :
  forall acc acc' q, run_loop acc samples = Ok acc' ->
  Forall (fun s => np_sum (logical_or s.2 s.1) <> 0) samples ->
  jacc_sum acc = Fin q ->
  jacc_sum acc' = Fin (q + sumQc (iou <$> samples))%Qc.
Proof.
  induction samples as [|[r d] samples IH]; intros acc acc' q Hrun Hu Hq;
    simpl in Hrun.
  { simplify_eq. rewrite Hq, fmap_nil. simpl. f_equal. ring. }
  inv_bind Hrun. apply sample_step_Ok in Ha as (_ & _ & ->).
  apply Forall_cons in Hu as [Hu0 Hu]. simpl in Hu0.
  erewrite (IH _ _ _ Hrun Hu); last first.
  { simpl. rewrite Hq. unfold np_div.
    destruct (Z.eqb_spec (np_sum (logical_or d r)) 0); [done|]. simpl. done. }
  rewrite fmap_cons. simpl. f_equal. unfold iou at 2. simpl. ring.
Qed.

(** *** binary64 rounding *)

Lemma pow2_this (e : Z) : (this (pow2 e) == 2 ^ e)%Q.
Proof. unfold pow2. simpl. apply Qred_correct. Qed.

Lemma pow2_pos (e : Z) : (0 < pow2 e)%Qc.
Proof. unfold Qclt. rewrite pow2_this. simpl. by apply Qpower_0_lt. Qed.

Lemma pow2_add (a b : Z) : pow2 (a + b) = (pow2 a * pow2 b)%Qc.
Proof.
  apply Qc_is_canon. simpl. rewrite !Qred_correct. by apply Qpower_plus.
Qed.

Lemma pow2_mono (a b : Z) : a <= b -> (pow2 a <= pow2 b)%Qc.
Proof.
  intros Hab. unfold Qcle. rewrite !pow2_this. by apply Qpower_le_compat_l.
Qed.

Lemma pow2_Z (e : Z) : 0 <= e -> pow2 e = Qc_of_Z (2 ^ e).
Proof.
  intros He. apply Qc_is_canon. simpl. rewrite !Qred_correct.
  symmetry. by apply Zpower_Qpower.
Qed.

Lemma Qc_of_Z_le (a b : Z) : a <= b -> (Qc_of_Z a <= Qc_of_Z b)%Qc.
Proof.
  intros Hab. unfold Qcle, Qc_of_Z. simpl. rewrite !Qred_correct.
  by rewrite <-Zle_Qle.
Qed.

(** A rational that is at least 1 lies at or above the power of two of its
    binary exponent, which is not negative. *)
Lemma ilog2_ge_one (q : Qc) :
  (1 <= q)%Qc -> 0 <= ilog2 q /\ (pow2 (ilog2 q) <= q)%Qc.
Proof.
  intros Hq. unfold ilog2.
  destruct q as [[p d] Hcanon]. cbn [Qnum Qden this].
  assert (Z.pos d <= p) as Hpd.
  { unfold Qcle, Qle in Hq. simpl in Hq. lia. }
  assert (0 <= Z.log2 p - Z.log2 (Z.pos d)) as He0.
  { pose proof (Z.log2_le_mono _ _ Hpd). lia. }
  set (e0 := Z.log2 p - Z.log2 (Z.pos d)) in *.
  case_bool_decide as Hle; [done|].
  assert (e0 <> 0) as Hne.
  { intros H0. apply Hle. rewrite H0. exact Hq. }
  split; [lia|].
  rewrite pow2_Z by lia.
  unfold Qcle, Qc_of_Z, Q2Qc. cbn [this]. rewrite Qred_correct.
  unfold Qle. cbn [Qnum Qden inject_Z]. rewrite Z.mul_1_r.
  pose proof (Z.log2_spec p ltac:(lia)) as [Hp1 _].
  pose proof (Z.log2_spec (Z.pos d) ltac:(lia)) as [_ Hd2].
  pose proof (Z.log2_nonneg (Z.pos d)) as Hld.
  assert (2 ^ Z.log2 p = 2 ^ (e0 - 1) * 2 ^ Z.succ (Z.log2 (Z.pos d))) as Hpow.
  { rewrite <-Z.pow_add_r by lia. f_equal. lia. }
  assert (0 < 2 ^ (e0 - 1)) by (apply Z.pow_pos_nonneg; lia).
  nia.
Qed.

Lemma round_half_even_floor (x : Qc) : Qfloor x <= round_half_even x.
Proof. unfold round_half_even. repeat case_match; lia. Qed.

(** Rounding does not take a number that is at least 1 below 1. *)
Lemma round64_ge_one (q : Qc) :
  (1 <= q)%Qc -> np_ge (round64 q) (Fin 1%Qc) = true.
Proof.
  intros Hq.
  assert (0 < q)%Qc as Hpos by (eapply Qclt_le_trans; [|exact Hq]; done).
  unfold round64.
  rewrite bool_decide_eq_false_2 by (apply not_eq_sym; by apply Qclt_not_eq).
  rewrite bool_decide_eq_true_2 by done.
  unfold round64_pos.
  destruct (ilog2_ge_one q Hq) as [He Hlow].
  rewrite Z.max_l by lia.
  set (e := ilog2 q) in *. set (ulp := pow2 (e - 52)).
  set (n := round_half_even (q / ulp)).
  assert (0 < ulp)%Qc as Hulp by apply pow2_pos.
  assert (2 ^ 52 <= n) as Hn.
  { etrans; [|apply round_half_even_floor].
    rewrite <-(Qfloor_Z (2 ^ 52)). apply Qfloor_resp_le.
    change (Qc_of_Z (2 ^ 52) <= q / ulp)%Qc. rewrite <-pow2_Z by lia.
    assert (pow2 52 = pow2 e * / ulp)%Qc as ->.
    { replace e with (52 + (e - 52)) at 1 by lia. rewrite pow2_add.
      fold ulp. rewrite <-Qcmult_assoc, Qcmult_inv_r, Qcmult_1_r; [done|].
      apply not_eq_sym. by apply Qclt_not_eq. }
    unfold Qcdiv. apply Qcmult_le_compat_r; [done|].
    apply Qclt_le_weak. by apply Qcinv_pos. }
  assert (1 <= Qc_of_Z n * ulp)%Qc as Hv.
  { apply Qcle_trans with (pow2 e).
    - change 1%Qc with (pow2 0). apply pow2_mono. lia.
    - replace e with (52 + (e - 52)) at 1 by lia.
      rewrite pow2_add. fold ulp. rewrite pow2_Z by lia.
      apply Qcmult_le_compat_r; [|by apply Qclt_le_weak].
      by apply Qc_of_Z_le. }
  case_bool_decide; [done|]. cbn [np_ge]. by apply bool_decide_eq_true_2.
Qed.

Lemma round64_one : round64 1%Qc = Fin 1%Qc.
Proof. vm_compute. f_equal. apply Qc_is_canon. reflexivity. Qed.

(** The integer 0, the start of the sum, is below the threshold. *)
Lemma zero_below_thresh : np_ge (Fin 0%Qc) (round64 thresh) = false.
Proof. vm_compute; reflexivity. Qed.

(** The float64 nearest to 0.65 is 5854679515581645 / 2^53. *)
Lemma round64_thresh :
  round64 thresh = Fin (Q2Qc (5854679515581645 # 9007199254740992)).
Proof. vm_compute. reflexivity. Qed.

Lemma above_one_above_thresh (x : npfloat) :
  np_ge x (Fin 1%Qc) = true -> np_ge x (round64 thresh) = true.
Proof.
  rewrite round64_thresh.
  assert (Q2Qc (5854679515581645 # 9007199254740992) <= 1)%Qc as Ht
    by (vm_compute; discriminate).
  destruct x as [q| | |]; cbn [np_ge]; try done.
  intros Hq%bool_decide_eq_true_1. apply bool_decide_eq_true_2.
  by apply Qcle_trans with 1%Qc.
Qed.

(** Adding 1 to a float64 that is not negative gives at least 1. *)
Lemma f64_add_one (x : npfloat) :
  np_ge x (Fin 0%Qc) = true -> np_ge (f64_add x (Fin 1%Qc)) (Fin 1%Qc) = true.
Proof.
  destruct x as [q| | |]; cbn [np_ge]; try done.
  intros Hq%bool_decide_eq_true_1. unfold f64_add. cbn [np_add].
  apply round64_ge_one.
  rewrite <-(Qcplus_0_l 1) at 1. by apply Qcplus_le_compat.
Qed.

Lemma np_ge_one_zero (x : npfloat) :
  np_ge x (Fin 1%Qc) = true -> np_ge x (Fin 0%Qc) = true.
Proof.
  destruct x as [q| | |]; cbn [np_ge]; try done.
  intros Hq%bool_decide_eq_true_1. apply bool_decide_eq_true_2.
  by apply Qcle_trans with 1%Qc.
Qed.

(** A float64 sum of ones that starts at 1 or above stays there. *)
Lemma sum_f64_ones (l : list npfloat) :
  forall x, np_ge x (Fin 1%Qc) = true -> Forall (eq (Fin 1%Qc)) l ->
  np_ge (foldl f64_add x l) (Fin 1%Qc) = true.
Proof.
  induction l as [|y l IH]; intros x Hx Hall; [done|].
  apply Forall_cons in Hall as [<- Hall]. simpl.
  apply IH; [|done]. by apply f64_add_one, np_ge_one_zero.
Qed.

Lemma count_upto_shift (P : nat -> bool) (n : nat) :
  count_upto P (S n) = Z_of_bool (P O) + count_upto (fun i => P (S i)) n.
Proof. induction n as [|n IH]; [simpl; lia|]. simpl in *. lia. Qed.

Lemma count_upto_ext (P Q : nat -> bool) (n : nat) :
  (forall i, (i < n)%nat -> P i = Q i) -> count_upto P n = count_upto Q n.
Proof.
  induction n as [|n IH]; intros Hext; simpl; [done|].
  rewrite IH by (intros; apply Hext; lia). rewrite Hext by lia. done.
Qed.

(** The above-threshold counter after the loop: one for every sample at
    which the float64 sum accumulated before it had reached the float64
    threshold. *)
Lemma run_loop_above (samples : list (list bool * list bool)) :
  forall acc acc', run_loop acc samples = Ok acc' ->
  test_jacc_above_thresh acc'
  = test_jacc_above_thresh acc
    + count_upto
        (fun i => np_ge
           (foldl f64_add (test_jacc_sum_f64 acc)
              (take i (lib_jaccard_f64 <$> samples)))
           (round64 thresh))
        (length samples).
Proof.
  induction samples as [|[r d] samples IH]; intros acc acc' Hrun.
  { simpl in *. simplify_eq. lia. }
  simpl in Hrun. inv_bind Hrun. apply sample_step_Ok in Ha as (_ & _ & ->).
  apply IH in Hrun as ->. cbn [length]. rewrite count_upto_shift.
  cbn [test_jacc_above_thresh test_jacc_sum_f64 take foldl].
  rewrite Z.add_assoc. f_equal.
Qed.

Lemma np_div_nonzero (a b : Z) :
  b <> 0 -> np_div a b = Fin (Qc_of_Z a / Qc_of_Z b)%Qc.
Proof. intros Hb. unfold np_div. by destruct (Z.eqb_spec b 0). Qed.

(** The pass ends without an exception exactly when every visited sample
    is well formed and there is at least one. *)
Lemma run_loop_complete (samples : list (list bool * list bool)) :
  forall acc,
  Forall (fun s => length s.2 = length s.1 /\ both_classes s) samples ->
  exists acc', run_loop acc samples = Ok acc'.
Proof.
  induction samples as [|[r d] samples IH]; intros acc Hall; simpl.
  { eauto. }
  apply Forall_cons in Hall as [[Hlen Hb] Hall]. simpl in Hlen.
  unfold sample_step. rewrite Hlen, Nat.eqb_refl. simpl.
  rewrite (ravel_both _ _ Hb). simpl. apply IH, Hall.
Qed.

Lemma metrics_complete (mlflow : bool) (results test_masks : list (list bool)) :
  samples_of results test_masks <> [] ->
  Forall (fun s => length s.2 = length s.1 /\ both_classes s)
    (samples_of results test_masks) ->
  exists rep, test_model_additional_metrics mlflow results test_masks = Ok rep.
Proof.
  intros Hne Hall. unfold test_model_additional_metrics.
  destruct (run_loop_complete _ acc0 Hall) as [acc Hrun].
  fold (samples_of results test_masks). rewrite Hrun. simpl.
  rewrite (run_loop_numpy _ _ _ Hrun). simpl.
  rewrite bool_decide_eq_true_2 by done. simpl.
  unfold py_truediv.
  destruct (Z.eqb_spec (Z.of_nat (length results)) 0) as [Hz|Hz]; [|eauto].
  destruct results; [|done]. by destruct Hne.
Qed.

(** C1. When an evaluation pass over N test samples ends, no visited
    sample has an empty union and the accumulated denominators tp+fn,
    tn+fp and tp+fp are not zero, then sensitivity = tp/(tp+fn),
    specificity = tn/(tn+fp), accuracy = (tp+tn)/(tp+tn+fp+fn),
    Dice = 2tp/(2tp+fp+fn), precision = tp/(tp+fp), the mean Jaccard index
    is the sum of the per-sample intersection/union ratios divided by N,
    the library Jaccard score is the sum of the per-sample library scores
    divided by N, and the returned vector is
    [accuracy, library Jaccard, precision, sensitivity, specificity]. *)
Theorem metrics_formulas (mlflow : bool)
    (results test_masks : list (list bool)) (rep : Report) :
  let samples := samples_of results test_masks in
  let N := Z.of_nat (length samples) in
  let TP := total true true samples in
  let TN := total false false samples in
  let FP := total false true samples in
  let FN := total true false samples in
  length results = length test_masks ->
  test_model_additional_metrics mlflow results test_masks = Ok rep ->
  Forall (fun s => np_sum (logical_or s.2 s.1) <> 0) samples ->
  TP + FN <> 0 -> TN + FP <> 0 -> TP + FP <> 0 ->
  let m := metrics rep in
  1 <= N
  /\ test_sensitivity m = Fin (Qc_of_Z TP / Qc_of_Z (TP + FN))%Qc
  /\ test_specifitivity m = Fin (Qc_of_Z TN / Qc_of_Z (TN + FP))%Qc
  /\ test_accuracy m
     = Fin (Qc_of_Z (TP + TN) / Qc_of_Z (TP + TN + FP + FN))%Qc
  /\ test_dicecoef m
     = Fin (Qc_of_Z (2 * TP) / Qc_of_Z (2 * TP + FP + FN))%Qc
  /\ test_precision m = Fin (Qc_of_Z TP / Qc_of_Z (TP + FP))%Qc
  /\ jaccard_index m = Fin (sumQc (iou <$> samples) / Qc_of_Z N)%Qc
  /\ test_jaccard_score m
     = Fin (sumQc (lib_jaccard <$> samples) / Qc_of_Z N)%Qc
  /\ returned rep
     = [test_accuracy m; test_jaccard_score m; test_precision m;
        test_sensitivity m; test_specifitivity m].
Proof.
  intros samples N TP TN FP FN Hlen Hrun Hunion Hsens Hspec Hprec m.
  unfold test_model_additional_metrics in Hrun.
  fold (samples_of results test_masks) in Hrun. fold samples in Hrun.
  apply bind_Ok in Hrun as (acc & Hloop & Hrun).
  pose proof (run_loop_counts _ _ _ Hloop) as (Htn & Hfp & Hfn & Htp).
  pose proof (run_loop_numpy _ _ _ Hloop) as Hnp.
  pose proof (run_loop_test_jacc_sum _ _ _ Hloop) as Hsum.
  pose proof (run_loop_jacc_sum _ _ _ 0%Qc Hloop Hunion eq_refl) as Hjac.
  simpl in Htn, Hfp, Hfn, Htp, Hnp, Hsum.
  fold TN in Htn. fold FP in Hfp. fold FN in Hfn. fold TP in Htp.
  rewrite Htn, Hfp, Hfn, Htp, Hsum, Hjac in Hrun.
  assert (length results = length samples) as HN.
  { unfold samples, samples_of. rewrite length_zip. lia. }
  rewrite HN in Hrun. fold N in Hrun.
  assert (samples <> []) as Hne.
  { intros Hnil. apply Hsens. unfold TP, FN. by rewrite Hnil. }
  rewrite Hnp, bool_decide_eq_true_2 in Hrun by done. simpl in Hrun.
  assert (1 <= N) as HN1.
  { unfold N. destruct samples; [done|]. simpl. lia. }
  assert (0 <= TP) by apply total_nonneg.
  assert (0 <= TN) by apply total_nonneg.
  assert (0 <= FP) by apply total_nonneg.
  assert (0 <= FN) by apply total_nonneg.
  unfold py_truediv in Hrun.
  destruct (Z.eqb_spec N 0) as [|HN0]; [lia|]. simpl in Hrun.
  injection Hrun as <-. subst m. simpl.
  rewrite !np_div_nonzero by lia. rewrite !Qcplus_0_l.
  split_and!; done.
Qed.

Lemma metrics_formulas_witness :
  exists rep,
    test_model_additional_metrics true ex_results ex_masks = Ok rep
    /\ test_sensitivity (metrics rep) = Fin (Qc_of_Z 2 / Qc_of_Z (2 + 0))%Qc
    /\ jaccard_index (metrics rep)
       = Fin (sumQc (iou <$> samples_of ex_results ex_masks) / Qc_of_Z 2)%Qc.
Proof.
  eexists. split; [vm_compute; reflexivity|].
  lazymatch goal with
  | |- context [metrics ?rep] =>
      destruct (metrics_formulas true ex_results ex_masks rep)
        as (_ & Hs & _ & _ & _ & _ & Hj & _)
  end.
  - reflexivity.
  - vm_compute; reflexivity.
  - repeat constructor; vm_compute; discriminate.
  - vm_compute; discriminate.
  - vm_compute; discriminate.
  - vm_compute; discriminate.
  - split; [exact Hs | exact Hj].
Defined.

Lemma total_partition (samples : list (list bool * list bool)) (P : nat) :
  Forall (fun s => length s.2 = length s.1) samples ->
  Forall (fun s => length s.2 = P) samples ->
  total true true samples + total false true samples
  + total true false samples + total false false samples
  = Z.of_nat P * Z.of_nat (length samples).
Proof.
  induction 1 as [|s samples Hlen _ IH]; intros HP; simpl; [lia|].
  apply Forall_cons in HP as [HP0 HP]. specialize (IH HP).
  pose proof (count_pairs_partition _ _ Hlen). lia.
Qed.

(** C4. When a pass over N test samples ends and every visited mask has P
    pixels, the accumulated counts satisfy tp + fp + fn + tn = P * N. *)
Theorem confusion_counts_total (results test_masks : list (list bool))
    (P : nat) (acc : Acc) :
  let samples := samples_of results test_masks in
  run_loop acc0 samples = Ok acc ->
  Forall (fun s => length s.2 = P) samples ->
  tp acc + fp acc + fn acc + tn acc = Z.of_nat P * Z.of_nat (length samples).
Proof.
  intros samples Hrun HP.
  pose proof (run_loop_counts _ _ _ Hrun) as (-> & -> & -> & ->).
  pose proof (run_loop_samples _ _ _ Hrun) as Hall.
  rewrite <-(total_partition samples P); [simpl; lia| |done].
  eapply Forall_impl; [exact Hall|]. by intros ? [? _].
Qed.

Lemma confusion_counts_total_witness :
  exists acc,
    run_loop acc0 (samples_of [[true; false; true]; [false; false; true]]
                              [[true; true; false]; [false; false; true]])
    = Ok acc
    /\ tp acc + fp acc + fn acc + tn acc = 3 * 2.
Proof.
  eexists. split; [vm_compute; reflexivity|].
  apply (confusion_counts_total
           [[true; false; true]; [false; false; true]]
           [[true; true; false]; [false; false; true]] 3).
  - vm_compute; reflexivity.
  - repeat constructor.
Defined.

Lemma run_loop_Raise (samples : list (list bool * list bool)) :
  forall acc e, run_loop acc samples = Raise e -> e = ValueError.
Proof.
  induction samples as [|[r d] samples IH]; intros acc e Hrun; simpl in Hrun.
  { done. }
  destruct (sample_step acc r d) as [acc'|e'] eqn:Hstep; simpl in Hrun.
  { by eapply IH. }
  simplify_eq. unfold sample_step in Hstep.
  repeat case_match; by simplify_eq.
Qed.

Lemma one_class_labels (c : bool) (d r : list bool) :
  d <> [] -> Forall (eq c) d -> Forall (eq c) r ->
  unique_labels d r = [c].
Proof.
  intros Hne Hd Hr. unfold unique_labels.
  assert (Forall (eq c) (d ++ r)) as Hall by by apply Forall_app.
  assert (c ∈ d ++ r) as Hin.
  { destruct d as [|x d]; [done|]. apply Forall_cons in Hd as [-> _]. left. }
  rewrite Forall_forall in Hall.
  destruct c.
  - assert (existsb negb (d ++ r) = false) as ->.
    { apply not_true_iff_false. rewrite existsb_elem_of.
      intros (x & Hx & Hnx). apply Hall in Hx as <-. done. }
    assert (existsb id (d ++ r) = true) as ->; [|done].
    apply existsb_elem_of. by exists true.
  - assert (existsb id (d ++ r) = false) as ->.
    { apply not_true_iff_false. rewrite existsb_elem_of.
      intros (x & Hx & Hnx). apply Hall in Hx as <-. done. }
    assert (existsb negb (d ++ r) = true) as ->; [|done].
    apply existsb_elem_of. by exists false.
Qed.

Lemma count_pairs_one_class (c : bool) (d r : list bool) :
  length r = length d -> Forall (eq c) d -> Forall (eq c) r ->
  count_pairs c c d r = Z.of_nat (length d).
Proof.
  revert r. induction d as [|x d IH]; intros [|y r] Hlen Hd Hr;
    simplify_eq/=; [done|].
  apply Forall_cons in Hd as [<- Hd]. apply Forall_cons in Hr as [<- Hr].
  rewrite (IH r) by done. rewrite !eqb_reflx. simpl. lia.
Qed.

(** C10. The pass ends without an exception only if every visited sample
    has both a foreground and a background pixel among its two binary
    vectors.  When the two vectors of a sample (of one non-zero length)
    are entirely one class, the confusion matrix is a single cell, the
    unpacking into four counts raises, and so does the pass. *)
Theorem metrics_need_both_classes (mlflow : bool)
    (results test_masks : list (list bool)) :
  (forall rep,
     test_model_additional_metrics mlflow results test_masks = Ok rep ->
     Forall both_classes (samples_of results test_masks))
  /\ (forall r d c,
        (r, d) ∈ samples_of results test_masks ->
        d <> [] -> length r = length d ->
        Forall (eq c) d -> Forall (eq c) r ->
        ravel (confusion_matrix d r) = [Z.of_nat (length d)]
        /\ (forall acc, sample_step acc r d = Raise ValueError)
        /\ test_model_additional_metrics mlflow results test_masks
           = Raise ValueError).
Proof.
  assert (forall rep,
     test_model_additional_metrics mlflow results test_masks = Ok rep ->
     Forall both_classes (samples_of results test_masks)) as Hok.
  { intros rep Hrun. unfold test_model_additional_metrics in Hrun.
    apply bind_Ok in Hrun as (acc & Hloop & _).
    apply run_loop_samples in Hloop.
    eapply Forall_impl; [exact Hloop|]. by intros ? [_ ?]. }
  split; [exact Hok|].
  intros r d c Hin Hne Hlen Hd Hr.
  assert (ravel (confusion_matrix d r) = [Z.of_nat (length d)]) as Hcell.
  { unfold ravel, confusion_matrix.
    rewrite (one_class_labels c) by done. simpl.
    by rewrite (count_pairs_one_class c). }
  split_and!; [done| |].
  - intros acc. unfold sample_step. rewrite Hlen, Nat.eqb_refl. simpl.
    by rewrite Hcell.
  - destruct (test_model_additional_metrics mlflow results test_masks)
      as [rep|e] eqn:Hrun.
    + specialize (Hok rep eq_refl). rewrite Forall_forall in Hok.
      destruct (Hok _ Hin) as [Ht Hf]. simpl in Ht, Hf.
      assert (Forall (eq c) (d ++ r)) as Hall by by apply Forall_app.
      rewrite Forall_forall in Hall.
      apply Hall in Ht. apply Hall in Hf. congruence.
    + f_equal. unfold test_model_additional_metrics in Hrun.
      destruct (run_loop acc0 (zip results test_masks)) as [acc|e'] eqn:Hloop.
      * apply run_loop_samples in Hloop. rewrite Forall_forall in Hloop.
        destruct (Hloop _ Hin) as [_ [Ht Hf]]. simpl in Ht, Hf.
        assert (Forall (eq c) (d ++ r)) as Hall by by apply Forall_app.
        rewrite Forall_forall in Hall.
        apply Hall in Ht. apply Hall in Hf. congruence.
      * simpl in Hrun. simplify_eq. by eapply run_loop_Raise.
Qed.

Lemma metrics_need_both_classes_witness :
  (exists rep, test_model_additional_metrics false ex_results ex_masks = Ok rep
     /\ Forall both_classes (samples_of ex_results ex_masks))
  /\ ravel (confusion_matrix [true; true] [true; true]) = [2]
  /\ test_model_additional_metrics false
       [[true; false]; [true; true]] [[true; false]; [true; true]]
     = Raise ValueError.
Proof.
  split.
  - eexists. split; [vm_compute; reflexivity|].
    eapply (proj1 (metrics_need_both_classes false ex_results ex_masks)).
    vm_compute; reflexivity.
  - destruct (proj2 (metrics_need_both_classes false
                      [[true; false]; [true; true]]
                      [[true; false]; [true; true]])
                [true; true] [true; true] true) as (Hc & _ & Hr).
    + right. left.
    + discriminate.
    + reflexivity.
    + repeat constructor.
    + repeat constructor.
    + split; [exact Hc | exact Hr].
Defined.

(** C2, as stated, fails.  The first sample scores 13/20 = 0.65 and the
    second 0, so the running sum never exceeds 0.65, whether or not it
    includes the sample at which it is read: the stated score is 0/2.  But
    the comparison is [>=] against the sum of the earlier samples, which
    is 0.65 at the second sample, and the reported score is 1/2. *)
Lemma isic_running_sum_claim_fails :
  let results := [boundary_result; [true; false]] in
  let masks := [boundary_mask; [false; true]] in
  exists rep,
    test_model_additional_metrics false results masks = Ok rep
    /\ lib_jaccard <$> samples_of results masks = [thresh; 0%Qc]
    /\ isic_eval_score (metrics rep) = Fin (Q2Qc (1 # 2))
    /\ isic_of_count (above_through (samples_of results masks)) 2 = Fin 0%Qc
    /\ isic_of_count (above_before_strict (samples_of results masks)) 2
       = Fin 0%Qc
    /\ isic_eval_score (metrics rep)
       <> isic_of_count (above_through (samples_of results masks)) 2
    /\ isic_eval_score (metrics rep)
       <> isic_of_count (above_before_strict (samples_of results masks)) 2.
Proof.
  intros results masks.
  assert (isic_of_count (above_through (samples_of results masks)) 2
          = Fin 0%Qc) as H1 by (unfold isic_of_count; Qc_closed).
  assert (isic_of_count (above_before_strict (samples_of results masks)) 2
          = Fin 0%Qc) as H2 by (unfold isic_of_count; Qc_closed).
  eexists. split; [vm_compute; reflexivity|].
  rewrite H1, H2. simpl isic_eval_score.
  split_and!; [|Qc_closed|done|done|by intros [=]|by intros [=]].
  cbn. unfold thresh. repeat f_equal; Qc_closed.
Qed.

(** The first sample is never counted, whatever its score: a single
    sample whose prediction equals its mask gives 0, not 1. *)
Lemma isic_first_sample_is_not_counted :
  exists rep,
    test_model_additional_metrics false [[true; false]] [[true; false]]
    = Ok rep
    /\ lib_jaccard <$> samples_of [[true; false]] [[true; false]] = [1%Qc]
    /\ isic_eval_score (metrics rep) = Fin 0%Qc.
Proof.
  eexists. split; [vm_compute; reflexivity|].
  split; [cbn; repeat f_equal; Qc_closed | simpl; Qc_closed].
Qed.

(** C2 (amended). When a pass ends, isic_eval_score is the number of
    samples at which the sum of the library Jaccard scores of the samples
    before it is at least 0.65, divided by the number of predictions; the
    sample's own score is not part of the sum it is compared with.  The
    sum and the comparison are those of float64: the scores are added one
    by one with the rounding of binary64, and the sum is compared with the
    float64 nearest to 0.65. *)
Theorem isic_score_counts_earlier_sums (mlflow : bool)
    (results test_masks : list (list bool)) (rep : Report) :
  test_model_additional_metrics mlflow results test_masks = Ok rep ->
  isic_eval_score (metrics rep)
  = Fin (Qc_of_Z (above_before (samples_of results test_masks))
         / Qc_of_Z (Z.of_nat (length results)))%Qc.
Proof.
  intros Hrun. unfold test_model_additional_metrics in Hrun.
  fold (samples_of results test_masks) in Hrun.
  apply bind_Ok in Hrun as (acc & Hloop & Hrun).
  pose proof (run_loop_above _ _ _ Hloop) as Habove. simpl in Habove.
  do 5 (apply bind_Ok in Hrun as (? & _ & Hrun)).
  apply bind_Ok in Hrun as (isic & Hisic & Hrun).
  injection Hrun as <-. simpl.
  unfold py_truediv in Hisic. case_match; [done|].
  injection Hisic as <-. by rewrite Habove.
Qed.

Lemma isic_score_counts_earlier_sums_witness :
  exists rep,
    test_model_additional_metrics false
      [boundary_result; [true; false]] [boundary_mask; [false; true]]
    = Ok rep
    /\ isic_eval_score (metrics rep)
       = Fin (Qc_of_Z
                (above_before
                   (samples_of [boundary_result; [true; false]]
                               [boundary_mask; [false; true]]))
              / Qc_of_Z (Z.of_nat 2))%Qc.
Proof.
  eexists. split; [vm_compute; reflexivity|].
  apply (isic_score_counts_earlier_sums false
           [boundary_result; [true; false]] [boundary_mask; [false; true]]).
  vm_compute; reflexivity.
Defined.

(** ** Further properties of the test metrics *)

Lemma np_sum_nonneg (l : list bool) : 0 <= np_sum l.
Proof. induction l as [|[] l IH]; simpl; lia. Qed.

Lemma np_sum_logical_and (d r : list bool) :
  np_sum (logical_and d r) = count_pairs true true d r.
Proof.
  revert r. induction d as [|x d IH]; intros [|y r]; simpl; try done.
  rewrite <-IH. by destruct x, y.
Qed.

Lemma np_sum_logical_or (d r : list bool) :
  np_sum (logical_or d r)
  = count_pairs true true d r + count_pairs false true d r
    + count_pairs true false d r.
Proof.
  revert r. induction d as [|x d IH]; intros [|y r]; simpl; try done.
  unfold logical_or in IH. rewrite IH. destruct x, y; simpl; lia.
Qed.

(** A sample that holds a foreground pixel has a non-empty union. *)
Lemma union_positive (d r : list bool) :
  length d = length r -> true ∈ d ++ r -> 0 < np_sum (logical_or d r).
Proof.
  revert r. induction d as [|x d IH]; intros [|y r] Hlen Hin;
    simplify_eq/=.
  { by apply elem_of_nil in Hin. }
  pose proof (np_sum_nonneg (logical_or d r)) as Hnn.
  change (logical_or (x :: d) (y :: r)) with (orb x y :: logical_or d r).
  destruct x; [simpl; lia|]. destruct y; [simpl; lia|]. simpl.
  apply (IH r); [done|].
  rewrite elem_of_cons, elem_of_app, elem_of_cons in Hin.
  rewrite elem_of_app. destruct Hin as [|[|[|]]]; auto; done.
Qed.

(** On such a sample the ratio computed by hand and the library score are
    the same number. *)
Lemma iou_is_lib_jaccard (s : list bool * list bool) :
  length s.2 = length s.1 -> both_classes s -> iou s = lib_jaccard s.
Proof.
  destruct s as [r d]. simpl. intros Hlen [Ht _]. simpl in Ht.
  pose proof (union_positive d r Hlen Ht) as Hpos.
  unfold iou, lib_jaccard, jaccard_score. simpl.
  rewrite np_sum_logical_and. rewrite np_sum_logical_or in Hpos |- *.
  destruct (Z.eqb_spec (count_pairs true true d r + count_pairs false true d r
                        + count_pairs true false d r) 0); [lia|done].
Qed.

Lemma Qc_of_Z_stdpp (z : Z) : Qc_of_Z z = stdpp.numbers.Qc_of_Z z.
Proof. apply Qc_is_canon. simpl. apply Qred_correct. Qed.

(** Every metric of a pass that ends, in terms of the pixel totals. *)
Lemma metrics_values (mlflow : bool)
    (results test_masks : list (list bool)) (rep : Report) :
  let samples := samples_of results test_masks in
  let n := Z.of_nat (length results) in
  let TP := total true true samples in
  let TN := total false false samples in
  let FP := total false true samples in
  let FN := total true false samples in
  test_model_additional_metrics mlflow results test_masks = Ok rep ->
  let m := metrics rep in
  samples <> []
  /\ Forall (fun s => length s.2 = length s.1 /\ both_classes s) samples
  /\ test_sensitivity m = np_div TP (TP + FN)
  /\ test_specifitivity m = np_div TN (TN + FP)
  /\ test_accuracy m = np_div (TP + TN) (TP + TN + FP + FN)
  /\ test_dicecoef m = np_div (2 * TP) (2 * TP + FP + FN)
  /\ test_precision m = np_div TP (TP + FP)
  /\ jaccard_index m = Fin (sumQc (lib_jaccard <$> samples) / Qc_of_Z n)%Qc
  /\ test_jaccard_score m
     = Fin (sumQc (lib_jaccard <$> samples) / Qc_of_Z n)%Qc
  /\ returned rep
     = [test_accuracy m; test_jaccard_score m; test_precision m;
        test_sensitivity m; test_specifitivity m]
  /\ logged rep = (if mlflow then mlflow_metrics m else []).
Proof.
  intros samples n TP TN FP FN Hrun m.
  unfold test_model_additional_metrics in Hrun.
  fold (samples_of results test_masks) in Hrun. fold samples in Hrun.
  apply bind_Ok in Hrun as (acc & Hloop & Hrun).
  pose proof (run_loop_counts _ _ _ Hloop) as (Htn & Hfp & Hfn & Htp).
  pose proof (run_loop_numpy _ _ _ Hloop) as Hnp.
  pose proof (run_loop_test_jacc_sum _ _ _ Hloop) as Hsum.
  pose proof (run_loop_samples _ _ _ Hloop) as Hwf.
  assert (sumQc (iou <$> samples) = sumQc (lib_jaccard <$> samples)) as Hiou.
  { f_equal. apply Forall_fmap_ext_1.
    eapply Forall_impl; [exact Hwf|].
    intros s [? ?]. by apply iou_is_lib_jaccard. }
  assert (Forall (fun s => np_sum (logical_or s.2 s.1) <> 0) samples) as Hun.
  { eapply Forall_impl; [exact Hwf|]. intros [r d] [Hl [Ht _]]. simpl in *.
    pose proof (union_positive d r Hl Ht). lia. }
  pose proof (run_loop_jacc_sum _ _ _ 0%Qc Hloop Hun eq_refl) as Hjac.
  simpl in Htn, Hfp, Hfn, Htp, Hnp, Hsum.
  fold TN in Htn. fold FP in Hfp. fold FN in Hfn. fold TP in Htp.
  rewrite Htn, Hfp, Hfn, Htp, Hsum, Hjac, Hiou in Hrun. fold n in Hrun.
  destruct (decide (samples = [])) as [Hnil|Hne].
  { rewrite Hnp, bool_decide_eq_false_2 in Hrun by (intros H; by apply H).
    unfold TP, FN in Hrun. rewrite Hnil in Hrun. done. }
  rewrite Hnp, bool_decide_eq_true_2 in Hrun by done. simpl in Hrun.
  assert (n <> 0) as Hn.
  { unfold n. destruct results; [|done]. by destruct Hne. }
  unfold py_truediv in Hrun.
  destruct (Z.eqb_spec n 0) as [|_]; [done|]. simpl in Hrun.
  injection Hrun as <-. subst m. simpl. rewrite !Qcplus_0_l.
  split_and!; done.
Qed.

(** X1. In every pass that ends, the hand-computed mean Jaccard index and
    the library Jaccard score are the same finite number: a sample that
    passes the confusion-matrix unpacking has a non-empty union. *)
Theorem jaccard_index_equals_library_score (mlflow : bool)
    (results test_masks : list (list bool)) (rep : Report) :
  test_model_additional_metrics mlflow results test_masks = Ok rep ->
  jaccard_index (metrics rep) = test_jaccard_score (metrics rep)
  /\ exists q, jaccard_index (metrics rep) = Fin q.
Proof.
  intros Hrun.
  destruct (metrics_values _ _ _ _ Hrun)
    as (_ & _ & _ & _ & _ & _ & _ & Hj & Hl & _).
  rewrite Hj, Hl. eauto.
Qed.

Lemma jaccard_index_equals_library_score_witness :
  exists rep,
    test_model_additional_metrics false ex_results ex_masks = Ok rep
    /\ jaccard_index (metrics rep) = test_jaccard_score (metrics rep).
Proof.
  eexists. split; [vm_compute; reflexivity|].
  eapply proj1.
  apply (jaccard_index_equals_library_score false ex_results ex_masks).
  vm_compute; reflexivity.
Defined.

(** X2. The pass ends exactly when there is at least one sample and every
    sample has two vectors of one length holding both classes; with no
    sample it raises ZeroDivisionError, and every other failure is a
    ValueError. *)
Theorem pass_ends_iff_samples_well_formed (mlflow : bool)
    (results test_masks : list (list bool)) :
  let samples := samples_of results test_masks in
  let run := test_model_additional_metrics mlflow results test_masks in
  ((exists rep, run = Ok rep)
   <-> samples <> []
       /\ Forall (fun s => length s.2 = length s.1 /\ both_classes s) samples)
  /\ (samples = [] -> run = Raise ZeroDivisionError)
  /\ (samples <> [] -> forall e, run = Raise e -> e = ValueError).
Proof.
  intros samples run. split_and!.
  - split.
    + intros [rep Hrun].
      destruct (metrics_values _ _ _ _ Hrun) as (? & ? & _). done.
    + intros [Hne Hwf]. by apply metrics_complete.
  - intros Hnil. unfold run, test_model_additional_metrics.
    fold (samples_of results test_masks). fold samples. by rewrite Hnil.
  - intros Hne e Hrun. unfold run, test_model_additional_metrics in Hrun.
    fold (samples_of results test_masks) in Hrun. fold samples in Hrun.
    destruct (run_loop acc0 samples) as [acc|e'] eqn:Hloop; simpl in Hrun.
    + exfalso.
      pose proof (run_loop_samples _ _ _ Hloop) as Hwf.
      destruct (metrics_complete mlflow results test_masks Hne Hwf)
        as [rep Hrep].
      unfold test_model_additional_metrics in Hrep.
      fold (samples_of results test_masks) in Hrep. fold samples in Hrep.
      rewrite Hloop in Hrep. simpl in Hrep. congruence.
    + simplify_eq. by eapply run_loop_Raise.
Qed.

Lemma pass_ends_iff_samples_well_formed_witness :
  test_model_additional_metrics true [] [] = Raise ZeroDivisionError
  /\ test_model_additional_metrics true [[true; false]] [[true]]
     = Raise ValueError.
Proof.
  split.
  - apply (proj1 (proj2 (pass_ends_iff_samples_well_formed true [] []))).
    reflexivity.
  - destruct (test_model_additional_metrics true [[true; false]] [[true]])
      as [rep|e] eqn:Hrun; [vm_compute in Hrun; discriminate|].
    f_equal.
    apply (proj2 (proj2 (pass_ends_iff_samples_well_formed true
                           [[true; false]] [[true]]))); [discriminate|].
    exact Hrun.
Defined.

(** X3. A zero denominator does not raise: when the pass ends and no
    ground-truth pixel is foreground, the sensitivity is NaN; likewise the
    specificity without a background ground-truth pixel and the precision
    without a predicted foreground pixel. *)
Theorem zero_denominator_gives_nan (mlflow : bool)
    (results test_masks : list (list bool)) (rep : Report) :
  let samples := samples_of results test_masks in
  test_model_additional_metrics mlflow results test_masks = Ok rep ->
  (total true true samples + total true false samples = 0 ->
   test_sensitivity (metrics rep) = NaN)
  /\ (total false false samples + total false true samples = 0 ->
      test_specifitivity (metrics rep) = NaN)
  /\ (total true true samples + total false true samples = 0 ->
      test_precision (metrics rep) = NaN).
Proof.
  intros samples Hrun.
  destruct (metrics_values _ _ _ _ Hrun)
    as (_ & _ & Hs & Hsp & _ & _ & Hp & _).
  fold samples in Hs, Hsp, Hp.
  pose proof (total_nonneg true true samples).
  pose proof (total_nonneg false false samples).
  pose proof (total_nonneg false true samples).
  pose proof (total_nonneg true false samples).
  split_and!; intros Hz.
  - rewrite Hs, Hz.
    by replace (total true true samples) with 0 by lia.
  - rewrite Hsp, Hz.
    by replace (total false false samples) with 0 by lia.
  - rewrite Hp, Hz.
    by replace (total true true samples) with 0 by lia.
Qed.

Lemma zero_denominator_gives_nan_witness :
  exists rep,
    test_model_additional_metrics false [[true; false]] [[false; false]]
    = Ok rep
    /\ test_sensitivity (metrics rep) = NaN.
Proof.
  eexists. split; [vm_compute; reflexivity|].
  apply (proj1 (zero_denominator_gives_nan false
                  [[true; false]] [[false; false]] _ eq_refl)).
  reflexivity.
Defined.

Lemma total_pixels_positive (samples : list (list bool * list bool)) :
  samples <> [] ->
  Forall (fun s => length s.2 = length s.1 /\ both_classes s) samples ->
  0 < total true true samples + total false true samples
      + total true false samples + total false false samples.
Proof.
  intros Hne Hwf. destruct samples as [|[r d] samples]; [done|].
  apply Forall_cons in Hwf as [[Hlen [Ht _]] _]. simpl in *.
  pose proof (count_pairs_partition d r Hlen) as Hpart.
  pose proof (total_nonneg true true samples).
  pose proof (total_nonneg false false samples).
  pose proof (total_nonneg false true samples).
  pose proof (total_nonneg true false samples).
  assert (0 < length d)%nat; [|lia].
  destruct d as [|x d]; [|simpl; lia].
  destruct r; [|done]. by apply elem_of_nil in Ht.
Qed.

Lemma Qc_ratio_bounds (a b : Z) :
  0 <= a <= b -> 0 < b ->
  (0 <= Qc_of_Z a / Qc_of_Z b)%Qc /\ (Qc_of_Z a / Qc_of_Z b <= 1)%Qc.
Proof.
  intros [Ha Hab] Hb. rewrite !Qc_of_Z_stdpp.
  assert (0 < stdpp.numbers.Qc_of_Z b)%Qc as Hbq.
  { apply (Z2Qc_inj_lt 0 b) in Hb. by rewrite Z2Qc_inj_0 in Hb. }
  assert (0 <= stdpp.numbers.Qc_of_Z a)%Qc as Haq.
  { apply (Z2Qc_inj_le 0 a) in Ha. by rewrite Z2Qc_inj_0 in Ha. }
  pose proof (Qcinv_pos _ Hbq) as Hinv.
  unfold Qcdiv. split.
  - apply Qcmult_nonneg_nonneg; [done|]. by apply Qclt_le_weak.
  - rewrite <-(Qcmult_inv_r (stdpp.numbers.Qc_of_Z b))
      by (apply not_eq_sym; by apply Qclt_not_eq).
    apply Qcmult_le_mono_nonneg_r; [by apply Qclt_le_weak|].
    by apply (proj1 (Z2Qc_inj_le a b)).
Qed.

(** X4. In every pass that ends the accuracy is a finite number between 0
    and 1: the visited samples hold at least one pixel. *)
Theorem accuracy_is_a_proportion (mlflow : bool)
    (results test_masks : list (list bool)) (rep : Report) :
  test_model_additional_metrics mlflow results test_masks = Ok rep ->
  exists q, test_accuracy (metrics rep) = Fin q /\ (0 <= q)%Qc /\ (q <= 1)%Qc.
Proof.
  intros Hrun.
  destruct (metrics_values _ _ _ _ Hrun)
    as (Hne & Hwf & _ & _ & Ha & _).
  pose proof (total_pixels_positive _ Hne Hwf) as Hpos.
  set (samples := samples_of results test_masks) in *.
  pose proof (total_nonneg true true samples).
  pose proof (total_nonneg false false samples).
  pose proof (total_nonneg false true samples).
  pose proof (total_nonneg true false samples).
  rewrite np_div_nonzero in Ha by lia.
  eexists. split; [exact Ha|]. apply Qc_ratio_bounds; lia.
Qed.

Lemma accuracy_is_a_proportion_witness :
  exists rep q,
    test_model_additional_metrics false ex_results ex_masks = Ok rep
    /\ test_accuracy (metrics rep) = Fin q /\ (q <= 1)%Qc.
Proof.
  eexists.
  destruct (accuracy_is_a_proportion false ex_results ex_masks _ eq_refl)
    as (q & Hq & _ & Hle).
  exists q. split; [vm_compute; reflexivity|]. split; [exact Hq | exact Hle].
Defined.

Lemma count_upto_bounds (P : nat -> bool) (n : nat) :
  0 <= count_upto P n <= Z.of_nat n.
Proof. induction n as [|n IH]; simpl; [lia|]. destruct (P n); simpl; lia. Qed.

Lemma thresh_positive : (0 < thresh)%Qc.
Proof. done. Qed.

(** X5. The first sample is never counted by the above-threshold counter,
    so in every pass that ends isic_eval_score is k / len(results) for some
    0 <= k <= (number of samples) - 1: it never reaches 1. *)
Theorem isic_score_below_one (mlflow : bool)
    (results test_masks : list (list bool)) (rep : Report) :
  test_model_additional_metrics mlflow results test_masks = Ok rep ->
  exists k,
    isic_eval_score (metrics rep)
    = isic_of_count k (Z.of_nat (length results))
    /\ 0 <= k <= Z.of_nat (length (samples_of results test_masks)) - 1
    /\ k < Z.of_nat (length results).
Proof.
  intros Hrun.
  pose proof (metrics_values _ _ _ _ Hrun) as (Hne & _).
  unfold test_model_additional_metrics in Hrun.
  fold (samples_of results test_masks) in Hrun.
  set (samples := samples_of results test_masks) in *.
  apply bind_Ok in Hrun as (acc & Hloop & Hrun).
  pose proof (run_loop_above _ _ _ Hloop) as Habove. simpl in Habove.
  do 5 (apply bind_Ok in Hrun as (? & _ & Hrun)).
  apply bind_Ok in Hrun as (isic & Hisic & Hrun).
  injection Hrun as <-. simpl.
  unfold py_truediv in Hisic. case_match; [done|].
  injection Hisic as <-.
  exists (test_jacc_above_thresh acc). split; [done|].
  assert (length samples <= length results)%nat as Hlen.
  { unfold samples, samples_of. rewrite length_zip. lia. }
  rewrite Habove.
  destruct samples as [|s samples'] eqn:Hs; [done|].
  cbn [length] in *. rewrite count_upto_shift, fmap_cons.
  cbn [take foldl]. rewrite zero_below_thresh.
  match goal with
  | |- context [count_upto ?P ?n] => pose proof (count_upto_bounds P n)
  end.
  cbn [Z_of_bool]. lia.
Qed.

Lemma isic_score_below_one_witness :
  exists rep k,
    test_model_additional_metrics false [[true; false]] [[true; false]]
    = Ok rep
    /\ isic_eval_score (metrics rep) = isic_of_count k 1 /\ k <= 0.
Proof.
  eexists.
  destruct (isic_score_below_one false [[true; false]] [[true; false]]
              _ eq_refl) as (k & Hk & [_ Hle] & _).
  exists k. split; [vm_compute; reflexivity|]. split; [exact Hk|].
  simpl in Hle. lia.
Defined.

Lemma total_Permutation (a b : bool)
    (s1 s2 : list (list bool * list bool)) :
  s1 ≡ₚ s2 -> total a b s1 = total a b s2.
Proof. induction 1; simpl; lia. Qed.

(** X6. The metrics computed from the accumulated confusion counts
    (accuracy, precision, sensitivity, specificity, Dice) do not depend on
    the order of the samples: a pass over the same samples in another order
    ends as well and reports the same five values. *)
Theorem count_metrics_ignore_sample_order (mlflow : bool)
    (results1 masks1 results2 masks2 : list (list bool)) (rep1 : Report) :
  test_model_additional_metrics mlflow results1 masks1 = Ok rep1 ->
  samples_of results1 masks1 ≡ₚ samples_of results2 masks2 ->
  exists rep2,
    test_model_additional_metrics mlflow results2 masks2 = Ok rep2
    /\ test_accuracy (metrics rep2) = test_accuracy (metrics rep1)
    /\ test_precision (metrics rep2) = test_precision (metrics rep1)
    /\ test_sensitivity (metrics rep2) = test_sensitivity (metrics rep1)
    /\ test_specifitivity (metrics rep2) = test_specifitivity (metrics rep1)
    /\ test_dicecoef (metrics rep2) = test_dicecoef (metrics rep1).
Proof.
  intros Hrun Hperm.
  destruct (metrics_values _ _ _ _ Hrun)
    as (Hne & Hwf & Hs & Hsp & Ha & Hd & Hp & _).
  destruct (metrics_complete mlflow results2 masks2) as [rep2 Hrun2].
  { intros Hnil. rewrite Hnil in Hperm. by apply Permutation_nil_r in Hperm. }
  { by rewrite <-Hperm. }
  exists rep2. split; [done|].
  destruct (metrics_values _ _ _ _ Hrun2)
    as (_ & _ & Hs2 & Hsp2 & Ha2 & Hd2 & Hp2 & _).
  rewrite Hs, Hsp, Ha, Hd, Hp, Hs2, Hsp2, Ha2, Hd2, Hp2.
  rewrite !(total_Permutation _ _ _ _ Hperm). done.
Qed.

Lemma count_metrics_ignore_sample_order_witness :
  exists rep1 rep2,
    test_model_additional_metrics false ex_results ex_masks = Ok rep1
    /\ test_model_additional_metrics false (reverse ex_results)
         (reverse ex_masks) = Ok rep2
    /\ test_accuracy (metrics rep2) = test_accuracy (metrics rep1).
Proof.
  eexists.
  destruct (count_metrics_ignore_sample_order false ex_results ex_masks
              (reverse ex_results) (reverse ex_masks) _ eq_refl)
    as (rep2 & Hrun2 & Hacc & _).
  { apply Permutation_swap. }
  exists rep2. split; [vm_compute; reflexivity|].
  split; [exact Hrun2 | exact Hacc].
Defined.

Lemma samples_of_diag (masks : list (list bool)) :
  samples_of masks masks = (fun d => (d, d)) <$> masks.
Proof.
  unfold samples_of. induction masks as [|d masks IH]; [done|].
  cbn. by rewrite <-IH.
Qed.

Lemma count_pairs_diag (d : list bool) :
  count_pairs false true d d = 0 /\ count_pairs true false d d = 0
  /\ (true ∈ d -> 0 < count_pairs true true d d)
  /\ (false ∈ d -> 0 < count_pairs false false d d).
Proof.
  induction d as [|x d (IH1 & IH2 & IH3 & IH4)]; simpl.
  { split_and!; try done; by intros ?%elem_of_nil. }
  pose proof (count_pairs_nonneg true true d d).
  pose proof (count_pairs_nonneg false false d d).
  split_and!.
  - destruct x; simpl; lia.
  - destruct x; simpl; lia.
  - intros [<-|Hin]%elem_of_cons; [simpl; lia|].
    specialize (IH3 Hin). destruct x; simpl; lia.
  - intros [<-|Hin]%elem_of_cons; [simpl; lia|].
    specialize (IH4 Hin). destruct x; simpl; lia.
Qed.

Lemma total_diag (masks : list (list bool)) :
  masks <> [] -> Forall (fun d => true ∈ d /\ false ∈ d) masks ->
  let samples := (fun d => (d, d)) <$> masks in
  total false true samples = 0 /\ total true false samples = 0
  /\ 0 < total true true samples /\ 0 < total false false samples.
Proof.
  intros Hne Hall samples. subst samples.
  induction Hall as [|d masks [Ht Hf] Hall IH]; [done|].
  destruct (count_pairs_diag d) as (E1 & E2 & E3 & E4).
  specialize (E3 Ht). specialize (E4 Hf).
  rewrite fmap_cons. simpl.
  destruct masks as [|d' masks'].
  { simpl. lia. }
  destruct IH as (I1 & I2 & I3 & I4); [done|]. lia.
Qed.

Lemma Qc_of_Z_nonzero (z : Z) : z <> 0 -> Qc_of_Z z <> 0%Qc.
Proof.
  intros Hz. rewrite Qc_of_Z_stdpp, <-Z2Qc_inj_0. by intros ?%Z2Qc_inj.
Qed.

Lemma np_div_same (z : Z) : z <> 0 -> np_div z z = Fin 1%Qc.
Proof.
  intros Hz. rewrite np_div_nonzero by done. f_equal.
  apply Qcmult_inv_r. by apply Qc_of_Z_nonzero.
Qed.

Lemma lib_jaccard_diag (d : list bool) :
  true ∈ d -> lib_jaccard (d, d) = 1%Qc.
Proof.
  intros Ht. unfold lib_jaccard, jaccard_score. simpl.
  destruct (count_pairs_diag d) as (-> & -> & Hpos & _).
  specialize (Hpos Ht). rewrite !Z.add_0_r.
  destruct (Z.eqb_spec (count_pairs true true d d) 0); [lia|].
  apply Qcmult_inv_r. by apply Qc_of_Z_nonzero.
Qed.

Lemma sumQc_ones (l : list Qc) :
  Forall (eq 1%Qc) l -> sumQc l = Qc_of_Z (Z.of_nat (length l)).
Proof.
  induction 1 as [|x l <- _ IH]; [by apply Qc_is_canon|].
  simpl sumQc. rewrite IH. cbn [length]. rewrite Nat2Z.inj_succ.
  rewrite !Qc_of_Z_stdpp. unfold Z.succ. rewrite Z2Qc_inj_add, Z2Qc_inj_1.
  ring.
Qed.

Lemma count_upto_true (n : nat) : count_upto (fun _ => true) n = Z.of_nat n.
Proof. induction n as [|n IH]; [done|]. simpl count_upto. rewrite IH. simpl. lia. Qed.

(** The score reported for the above-threshold counter. *)
Lemma isic_value (mlflow : bool)
    (results test_masks : list (list bool)) (rep : Report) :
  test_model_additional_metrics mlflow results test_masks = Ok rep ->
  isic_eval_score (metrics rep)
  = isic_of_count (above_before (samples_of results test_masks))
      (Z.of_nat (length results)).
Proof.
  intros Hrun. unfold test_model_additional_metrics in Hrun.
  fold (samples_of results test_masks) in Hrun.
  apply bind_Ok in Hrun as (acc & Hloop & Hrun).
  pose proof (run_loop_above _ _ _ Hloop) as Habove. simpl in Habove.
  do 5 (apply bind_Ok in Hrun as (? & _ & Hrun)).
  apply bind_Ok in Hrun as (isic & Hisic & Hrun).
  injection Hrun as <-. simpl.
  unfold py_truediv in Hisic. case_match; [done|].
  injection Hisic as <-. by rewrite Habove.
Qed.

(** The rounding of float64 decides the count.  The scores 3/10, 7/20 and
    1 add up to 0.65 after two samples when the sum is exact, and the third
    sample would be counted; in float64 0.3 + 0.35 is 0.6499999999999999,
    no sample is counted and the score is 0. *)
Lemma isic_rounding_decides :
  let samples := samples_of rounding_results rounding_masks in
  exists rep,
    test_model_additional_metrics false rounding_results rounding_masks
    = Ok rep
    /\ lib_jaccard <$> samples = [Q2Qc (3 # 10); Q2Qc (7 # 20); 1%Qc]
    /\ above_before_exact samples = 1
    /\ above_before samples = 0
    /\ isic_eval_score (metrics rep) = Fin 0%Qc.
Proof.
  intros samples.
  assert (lib_jaccard <$> samples = [Q2Qc (3 # 10); Q2Qc (7 # 20); 1%Qc])
    as Hscores.
  { cbn. repeat f_equal; apply Qc_is_canon; vm_compute; reflexivity. }
  assert (above_before_exact samples = 1) as Hexact
    by (vm_compute; reflexivity).
  assert (above_before samples = 0) as Hf64 by (vm_compute; reflexivity).
  destruct (is_ok_true
              (test_model_additional_metrics false rounding_results
                 rounding_masks)) as [rep Hrep]; [vm_compute; reflexivity|].
  exists rep. split_and!; [done..|].
  rewrite (isic_value _ _ _ _ Hrep). fold samples. rewrite Hf64.
  unfold isic_of_count. f_equal. apply Qc_is_canon. vm_compute. reflexivity.
Qed.

Lemma above_before_ones (samples : list (list bool * list bool)) :
  samples <> [] -> Forall (fun s => lib_jaccard s = 1%Qc) samples ->
  above_before samples = Z.of_nat (length samples) - 1.
Proof.
  intros Hne Hall. unfold above_before.
  destruct samples as [|s samples]; [done|].
  cbn [length]. rewrite count_upto_shift, fmap_cons.
  unfold sum_f64. cbn [take foldl]. rewrite zero_below_thresh.
  rewrite (count_upto_ext _ (fun _ => true)).
  { rewrite count_upto_true. cbn [Z_of_bool]. lia. }
  intros i Hi. apply above_one_above_thresh.
  apply Forall_cons in Hall as [Hs Hall].
  unfold lib_jaccard_f64 at 1. rewrite Hs, round64_one.
  apply sum_f64_ones.
  - apply f64_add_one. reflexivity.
  - apply Forall_take, Forall_fmap.
    eapply Forall_impl; [exact Hall|]. intros s' Hs'. simpl.
    unfold lib_jaccard_f64. by rewrite Hs', round64_one.
Qed.

(** X7. When every prediction equals its mask and every mask holds both
    classes, the pass ends with sensitivity, specificity, accuracy, Dice,
    precision and both Jaccard values equal to 1, but isic_eval_score is
    (N - 1) / N: the first sample is not counted. *)
Theorem perfect_predictions (mlflow : bool) (masks : list (list bool)) :
  masks <> [] ->
  Forall (fun d => true ∈ d /\ false ∈ d) masks ->
  exists rep,
    test_model_additional_metrics mlflow masks masks = Ok rep
    /\ test_sensitivity (metrics rep) = Fin 1%Qc
    /\ test_specifitivity (metrics rep) = Fin 1%Qc
    /\ test_accuracy (metrics rep) = Fin 1%Qc
    /\ test_dicecoef (metrics rep) = Fin 1%Qc
    /\ test_precision (metrics rep) = Fin 1%Qc
    /\ jaccard_index (metrics rep) = Fin 1%Qc
    /\ test_jaccard_score (metrics rep) = Fin 1%Qc
    /\ isic_eval_score (metrics rep)
       = isic_of_count (Z.of_nat (length masks) - 1)
           (Z.of_nat (length masks)).
Proof.
  intros Hne Hall.
  assert (samples_of masks masks <> []) as Hne'.
  { rewrite samples_of_diag. by destruct masks. }
  assert (Forall (fun s => length s.2 = length s.1 /\ both_classes s)
            (samples_of masks masks)) as Hwf.
  { rewrite samples_of_diag. apply Forall_fmap.
    eapply Forall_impl; [exact Hall|]. intros d [Ht Hf]. simpl.
    split; [done|]. split; simpl; apply elem_of_app; by left. }
  destruct (metrics_complete mlflow masks masks Hne' Hwf) as [rep Hrun].
  exists rep. split; [done|].
  destruct (metrics_values _ _ _ _ Hrun)
    as (_ & _ & Hs & Hsp & Ha & Hd & Hp & Hj & Hl & _).
  pose proof (isic_value _ _ _ _ Hrun) as Hisic.
  rewrite samples_of_diag in Hs, Hsp, Ha, Hd, Hp, Hj, Hl, Hisic.
  destruct (total_diag masks Hne Hall) as (E1 & E2 & E3 & E4).
  simpl in E1, E2, E3, E4.
  assert (Forall (fun s => lib_jaccard s = 1%Qc)
            ((fun d => (d, d)) <$> masks)) as Hones.
  { apply Forall_fmap. eapply Forall_impl; [exact Hall|].
    intros d [Ht _]. by apply lib_jaccard_diag. }
  assert (sumQc (lib_jaccard <$> ((fun d => (d, d)) <$> masks))
          = Qc_of_Z (Z.of_nat (length masks))) as Hsum.
  { rewrite sumQc_ones, !length_fmap; [done|].
    apply Forall_fmap. eapply Forall_impl; [exact Hones|].
    intros s Hs'. simpl. by rewrite Hs'. }
  rewrite Hsum in Hj, Hl.
  assert (Qc_of_Z (Z.of_nat (length masks)) / Qc_of_Z (Z.of_nat (length masks))
          = 1)%Qc as Hone.
  { apply Qcmult_inv_r, Qc_of_Z_nonzero. destruct masks; [done|]. simpl. lia. }
  rewrite Hone in Hj, Hl.
  rewrite above_before_ones, length_fmap in Hisic;
    [|by destruct masks|done].
  rewrite Hs, Hsp, Ha, Hd, Hp, Hj, Hl, Hisic.
  rewrite E1, E2, !Z.add_0_r.
  rewrite !np_div_same by lia. done.
Qed.

Lemma perfect_predictions_witness :
  exists rep,
    test_model_additional_metrics false
      [[true; false]; [false; true; true]] [[true; false]; [false; true; true]]
    = Ok rep
    /\ test_accuracy (metrics rep) = Fin 1%Qc
    /\ isic_eval_score (metrics rep) = isic_of_count 1 2.
Proof.
  destruct (perfect_predictions false [[true; false]; [false; true; true]])
    as (rep & Hrun & _ & _ & Ha & _ & _ & _ & _ & Hi).
  - discriminate.
  - repeat constructor.
  - exists rep. split; [exact Hrun|]. split; [exact Ha | exact Hi].
Defined.

(** ** Further properties of save *)

(** X8. What [save] does, case by case: it calls [os.mkdir] exactly when
    the write fails; it returns the path exactly when the write or the
    directory creation succeeds; when it raises, the exception is the one of
    [os.mkdir], never the one of the write; and the path is logged exactly
    when tracking is on and [save] returns. *)
Theorem save_outcome (w : World) (model_built mlflow : bool)
    (model_dir : string) (image_size : Z) (timestamp : string) :
  let path := weights_path model_dir image_size timestamp in
  let dir := "./" +:+ model_dir in
  let attempt := try_save_weights w model_built path in
  let run := save w model_built mlflow model_dir image_size timestamp in
  (EvMkdir dir ∈ run.1 <-> attempt.2 <> Ok tt)
  /\ (run.2 = Ok path <-> attempt.2 = Ok tt \/ mkdir_raises w dir = None)
  /\ (forall e, run.2 = Raise e
                <-> attempt.2 <> Ok tt /\ mkdir_raises w dir = Some e)
  /\ (EvLogParam "Saved Model Name" path ∈ run.1
      <-> mlflow = true /\ run.2 = Ok path).
Proof.
  intros path dir attempt run. unfold run, save. fold path. fold dir.
  fold attempt. unfold attempt, try_save_weights.
  destruct model_built; [destruct (save_weights_raises w path)|];
    destruct (mkdir_raises w dir), mlflow; simpl;
    rewrite ?elem_of_cons, ?elem_of_nil;
    split_and!; try (intros e0);
    intuition (try discriminate); simplify_eq; auto.
Qed.

Lemma save_outcome_witness :
  (save failing_disk false true "src/models/" 256 "03112026-101500").2
  = Raise FileExistsError.
Proof.
  apply (proj1 (proj2 (proj2 (save_outcome failing_disk false true
                                "src/models/" 256 "03112026-101500")))
           FileExistsError).
  split; [discriminate | reflexivity].
Defined.

Lemma string_length_app (s1 s2 : string) :
  String.length (s1 +:+ s2) = (String.length s1 + String.length s2)%nat.
Proof.
  induction s1 as [|c s1 IH]; [done|].
  change (String c s1 +:+ s2) with (String c (s1 +:+ s2)).
  simpl. by rewrite IH.
Qed.

Lemma string_app_inj_r (s1 s2 suffix : string) :
  s1 +:+ suffix = s2 +:+ suffix -> s1 = s2.
Proof.
  revert s2. induction s1 as [|c s1 IH]; intros [|c' s2] Heq.
  - done.
  - apply (f_equal String.length) in Heq.
    rewrite string_length_app in Heq.
    change (String.length (String c' s2 +:+ suffix))
      with (S (String.length (s2 +:+ suffix))) in Heq.
    rewrite string_length_app in Heq. simpl in Heq. lia.
  - apply (f_equal String.length) in Heq.
    rewrite string_length_app in Heq.
    change (String.length (String c s1 +:+ suffix))
      with (S (String.length (s1 +:+ suffix))) in Heq.
    rewrite string_length_app in Heq. simpl in Heq. lia.
  - change (String c (s1 +:+ suffix) = String c' (s2 +:+ suffix)) in Heq.
    injection Heq as -> Heq. f_equal. by apply IH.
Qed.

(** X9. For one model directory and image size, two different timestamps
    give two different weight files: a later save does not overwrite an
    earlier one unless it happens within the same second. *)
Theorem weights_path_timestamp_inj (model_dir : string) (image_size : Z)
    (t1 t2 : string) :
  weights_path model_dir image_size t1 = weights_path model_dir image_size t2
  -> t1 = t2.
Proof.
  unfold weights_path. intros Heq.
  repeat apply String.app_inj in Heq.
  by apply string_app_inj_r in Heq.
Qed.

Lemma weights_path_timestamp_inj_witness :
  "03112026-101500" = "03112026-101500".
Proof.
  apply (weights_path_timestamp_inj "src/models/" 256). reflexivity.
Defined.

(** ** Further properties of the pipeline and of load_data *)

Section PipelineExtras.
Context {B : Backend}.

Lemma preserved_refl (masks shape : bool) (t : Trainer B) :
  preserved masks shape t t.
Proof. unfold preserved. split_and!; done. Qed.

Lemma preserved_trans (masks shape : bool) (t1 t2 t3 : Trainer B) :
  preserved masks shape t1 t2 -> preserved masks shape t2 t3 ->
  preserved masks shape t1 t3.
Proof.
  intros (C1 & B1 & I1 & D1 & M1 & S1) (C2 & B2 & I2 & D2 & M2 & S2).
  unfold preserved. split_and!; try congruence.
  - intros key. by rewrite D2, D1.
  - intros Hm key Hk. by rewrite M2, M1.
  - intros Hs. by rewrite S2, S1.
Qed.

Lemma preserved_mono (m s m' s' : bool) (t t' : Trainer B) :
  (m' = true -> m = true) -> (s' = true -> s = true) ->
  preserved m s t t' -> preserved m' s' t t'.
Proof.
  intros Hm Hs (C1 & B1 & I1 & D1 & M1 & S1). unfold preserved.
  split_and!; auto.
Qed.

Lemma preserved_on_images (f : list Img -> list Img) (t : Trainer B) :
  preserved true true t (on_images f t).
Proof.
  unfold preserved, on_images. simpl. split_and!; try done.
  - intros key. rewrite map_lookup_imap.
    destruct (data t !! key); simpl; split; intros [? ?]; eauto; done.
  - intros _ key Hk. rewrite map_lookup_imap.
    destruct (data t !! key); simpl; [by rewrite Hk|done].
Qed.

Lemma preserved_set_item (masks : bool) (t : Trainer B) (key : string)
    (a : list Img) :
  is_Some (data t !! key) ->
  (masks = true -> contains "images" key = true) ->
  preserved masks true t (set_item t key a).
Proof.
  intros Hk Him. unfold preserved, set_item. simpl. split_and!; try done.
  - intros k. destruct (decide (key = k)) as [<-|Hne].
    + rewrite lookup_insert_eq. split; eauto.
    + by rewrite lookup_insert_ne.
  - intros Hm k Hkc. destruct (decide (key = k)) as [<-|Hne].
    + rewrite Him in Hkc by done. done.
    + by rewrite lookup_insert_ne.
Qed.

Lemma preserved_set_input_shape (t : Trainer B) (s : list Z) :
  preserved true false t (set_input_shape t s).
Proof. unfold preserved. simpl. split_and!; done. Qed.

Lemma preserved_set_mean (t : Trainer B) (m : Mean) :
  preserved true true t (set_mean t m).
Proof. unfold preserved. simpl. split_and!; done. Qed.

Lemma getitem_Ok {A} (d : gmap string A) (key : string) (a : A) :
  getitem d key = Ok a -> d !! key = Some a.
Proof. unfold getitem. destruct (d !! key); by intros [= ->]. Qed.

Lemma step_gaussian_blur_preserved (t t' : Trainer B) :
  step_gaussian_blur t = Ok t' -> preserved true true t t'.
Proof.
  unfold step_gaussian_blur. intros H.
  apply bind_Ok in H as (flag & _ & H).
  destruct (truthy flag); [|injection H as <-; apply preserved_refl].
  apply bind_Ok in H as (radius & _ & H). injection H as <-.
  apply preserved_on_images.
Qed.

Lemma step_histogram_equalization_preserved (t t' : Trainer B) :
  step_histogram_equalization t = Ok t' -> preserved true true t t'.
Proof.
  unfold step_histogram_equalization. intros H.
  apply bind_Ok in H as (flag & _ & H).
  destruct (truthy flag); [|injection H as <-; apply preserved_refl].
  apply bind_Ok in H as (cutoff & _ & H). injection H as <-.
  apply preserved_on_images.
Qed.

Lemma step_connected_components_preserved (t t' : Trainer B) (v : pyval) :
  param t "connected_components" = Ok v ->
  step_connected_components t = Ok t' ->
  preserved true (negb (truthy v)) t t'.
Proof.
  unfold step_connected_components. intros Hv H. rewrite Hv in H.
  simpl in H.
  destruct (truthy v); [|injection H as <-; apply preserved_refl].
  apply bind_Ok in H as (train & _ & H). injection H as <-.
  eapply preserved_trans; [|apply preserved_set_input_shape].
  eapply preserved_mono; [| |apply preserved_on_images]; done.
Qed.

Lemma step_per_channel_normalization_preserved (t t' : Trainer B) :
  step_per_channel_normalization t = Ok t' -> preserved true true t t'.
Proof.
  unfold step_per_channel_normalization. intros H.
  apply bind_Ok in H as (flag & _ & H).
  destruct (truthy flag); [|injection H as <-; apply preserved_refl].
  apply bind_Ok in H as (train & Htr & H).
  destruct (norm_per_channel train None) as [train' mean1].
  apply bind_Ok in H as (val & Hva & H).
  destruct (norm_per_channel val (Some mean1)) as [val' mean2].
  apply bind_Ok in H as (test & Hte & H).
  destruct (norm_per_channel test (Some mean2)) as [test' mean3].
  injection H as <-.
  apply getitem_Ok in Htr, Hva, Hte.
  eapply preserved_trans; [|apply preserved_set_mean].
  eapply preserved_trans; [|by apply preserved_set_item; eauto].
  eapply preserved_trans; [|by apply preserved_set_item; eauto].
  by apply preserved_set_item; eauto.
Qed.

Lemma normalize_split_preserved (images masks : string) (t t' : Trainer B) :
  normalize_split images masks t = Ok t' -> preserved false true t t'.
Proof.
  unfold normalize_split. intros H.
  apply bind_Ok in H as (x & Hx & H). apply bind_Ok in H as (y & Hy & H).
  destruct (normalize x y) as [x' y']. injection H as <-.
  apply getitem_Ok in Hx, Hy.
  apply preserved_trans with (set_item t images x');
    [by apply preserved_set_item; eauto|].
  apply preserved_set_item; [|done]. simpl.
  destruct (decide (images = masks)) as [<-|Hne].
  - rewrite lookup_insert_eq. eauto.
  - rewrite lookup_insert_ne by done. eauto.
Qed.

Lemma step_normalization_preserved (t t' : Trainer B) (v : pyval) :
  param t "normalization" = Ok v ->
  step_normalization t = Ok t' ->
  preserved (negb (truthy v)) true t t'.
Proof.
  unfold step_normalization. intros Hv H. rewrite Hv in H. simpl in H.
  destruct (truthy v); [|injection H as <-; apply preserved_refl].
  apply bind_Ok in H as (t1 & H1 & H). apply bind_Ok in H as (t2 & H2 & H).
  apply normalize_split_preserved in H1, H2, H.
  eauto using preserved_trans.
Qed.

Lemma step_zca_whitening_preserved (t t' : Trainer B) :
  step_zca_whitening t = Ok t' -> preserved true true t t'.
Proof.
  unfold step_zca_whitening. intros H.
  apply bind_Ok in H as (flag & _ & H).
  destruct (truthy flag); [|injection H as <-; apply preserved_refl].
  apply bind_Ok in H as (train & Htr & H).
  apply bind_Ok in H as (val & Hva & H).
  apply bind_Ok in H as (test & Hte & H).
  destruct (foldl _ _ _) as [[train' val'] test']. injection H as <-.
  apply getitem_Ok in Htr, Hva, Hte.
  assert (preserved true true t (set_item t "train_images" train')) as P1
    by (apply preserved_set_item; eauto).
  assert (preserved true true (set_item t "train_images" train')
            (set_item (set_item t "train_images" train') "val_images" val'))
    as P2.
  { apply preserved_set_item; [|done]. simpl.
    rewrite lookup_insert_ne by done. eauto. }
  eapply preserved_trans; [exact P1|].
  eapply preserved_trans; [exact P2|].
  apply preserved_set_item; [|done]. simpl.
  rewrite !lookup_insert_ne by done. eauto.
Qed.

Lemma preserved_param (masks shape : bool) (t t' : Trainer B) (key : string) :
  preserved masks shape t t' -> param t' key = param t key.
Proof. intros (C & _). unfold param. by rewrite C. Qed.

(** The whole pipeline, given the values of the two flags that matter. *)
Lemma apply_preprocessings_preserved (t t' : Trainer B) (vn vc : pyval) :
  param t "normalization" = Ok vn ->
  param t "connected_components" = Ok vc ->
  apply_preprocessings t = Ok t' ->
  preserved (negb (truthy vn)) (negb (truthy vc)) t t'.
Proof.
  intros Hn Hc H. unfold apply_preprocessings in H.
  apply bind_Ok in H as (t1 & H1 & H). apply bind_Ok in H as (t2 & H2 & H).
  apply bind_Ok in H as (t3 & H3 & H). apply bind_Ok in H as (t4 & H4 & H).
  apply bind_Ok in H as (t5 & H5 & H).
  apply step_gaussian_blur_preserved in H1.
  apply step_histogram_equalization_preserved in H2.
  pose proof (preserved_trans _ _ _ _ _ H1 H2) as P2.
  apply (step_connected_components_preserved _ _ vc) in H3;
    [|by rewrite (preserved_param _ _ _ _ _ P2)].
  apply step_per_channel_normalization_preserved in H4.
  assert (preserved true (negb (truthy vc)) t t4) as P4.
  { eapply preserved_trans;
      [|eapply preserved_mono; [| |exact H4]; done].
    eapply preserved_trans;
      [eapply preserved_mono; [| |exact P2]; done|]. exact H3. }
  apply (step_normalization_preserved _ _ vn) in H5;
    [|by rewrite (preserved_param _ _ _ _ _ P4)].
  apply step_zca_whitening_preserved in H.
  eapply preserved_trans; [|eapply preserved_mono; [| |exact H]; done].
  eapply preserved_trans; [eapply preserved_mono; [| |exact P4]|
                           eapply preserved_mono; [| |exact H5]];
    (done || by destruct (truthy vn)).
Qed.

Lemma apply_preprocessings_params (t t' : Trainer B) :
  apply_preprocessings t = Ok t' ->
  exists vn vc, param t "normalization" = Ok vn
                /\ param t "connected_components" = Ok vc.
Proof.
  intros H. unfold apply_preprocessings in H.
  apply bind_Ok in H as (t1 & H1 & H). apply bind_Ok in H as (t2 & H2 & H).
  apply bind_Ok in H as (t3 & H3 & H). apply bind_Ok in H as (t4 & H4 & H).
  apply bind_Ok in H as (t5 & H5 & _).
  apply step_gaussian_blur_preserved in H1.
  apply step_histogram_equalization_preserved in H2.
  pose proof (preserved_trans _ _ _ _ _ H1 H2) as P2.
  assert (exists vc, param t "connected_components" = Ok vc) as [vc Hc].
  { unfold step_connected_components in H3.
    apply bind_Ok in H3 as (vc & Hc & _). exists vc.
    by rewrite <-(preserved_param _ _ _ _ _ P2). }
  apply (step_connected_components_preserved _ _ vc) in H3;
    [|by rewrite (preserved_param _ _ _ _ _ P2)].
  apply step_per_channel_normalization_preserved in H4.
  unfold step_normalization in H5. apply bind_Ok in H5 as (vn & Hn & _).
  exists vn, vc. split; [|done].
  rewrite <-(preserved_param _ _ _ _ _ P2).
  rewrite <-(preserved_param _ _ _ _ _ H3).
  by rewrite <-(preserved_param _ _ _ _ _ H4).
Qed.

(** X10. Unless normalization is switched on, the pipeline changes no
    array of [self.data] whose key does not contain "images": the masks
    come out as they went in, whatever the other flags are. *)
Theorem masks_untouched_without_normalization (t t' : Trainer B)
    (v : pyval) (key : string) :
  param t "normalization" = Ok v -> truthy v = false ->
  apply_preprocessings t = Ok t' ->
  contains "images" key = false ->
  data t' !! key = data t !! key.
Proof.
  intros Hv Hf H Hkey.
  destruct (apply_preprocessings_params _ _ H) as (vn & vc & Hn & Hc).
  rewrite Hv in Hn. injection Hn as <-.
  destruct (apply_preprocessings_preserved _ _ _ _ Hv Hc H)
    as (_ & _ & _ & _ & Hm & _).
  apply Hm; [by rewrite Hf|done].
Qed.

(** X11. The pipeline never adds or removes a key of [self.data]. *)
Theorem pipeline_keeps_the_keys (t t' : Trainer B) (key : string) :
  apply_preprocessings t = Ok t' ->
  is_Some (data t' !! key) <-> is_Some (data t !! key).
Proof.
  intros H.
  destruct (apply_preprocessings_params _ _ H) as (vn & vc & Hn & Hc).
  destruct (apply_preprocessings_preserved _ _ _ _ Hn Hc H)
    as (_ & _ & _ & Hd & _).
  apply Hd.
Qed.

(** X12. With every flag false the pipeline returns the trainer it was
    given. *)
Theorem pipeline_all_off (t : Trainer B) :
  (forall key, key ∈ pipeline_flags ->
               exists v, param t key = Ok v /\ truthy v = false) ->
  apply_preprocessings t = Ok t.
Proof.
  intros Hoff. unfold apply_preprocessings, pipeline_flags in *.
  destruct (Hoff "gaussian_blur") as (v1 & P1 & T1);
    [rewrite !elem_of_cons; tauto|].
  destruct (Hoff "histogram_equalization") as (v2 & P2 & T2);
    [rewrite !elem_of_cons; tauto|].
  destruct (Hoff "connected_components") as (v3 & P3 & T3);
    [rewrite !elem_of_cons; tauto|].
  destruct (Hoff "per_channel_normalization") as (v4 & P4 & T4);
    [rewrite !elem_of_cons; tauto|].
  destruct (Hoff "normalization") as (v5 & P5 & T5);
    [rewrite !elem_of_cons; tauto|].
  destruct (Hoff "zca_whitening") as (v6 & P6 & T6);
    [rewrite !elem_of_cons; tauto|].
  rewrite (proj1 (steps_are_gated t v1 T1) P1). simpl.
  rewrite (proj1 (proj2 (steps_are_gated t v2 T2)) P2). simpl.
  rewrite (proj1 (proj2 (proj2 (steps_are_gated t v3 T3))) P3). simpl.
  rewrite (proj1 (proj2 (proj2 (proj2 (steps_are_gated t v4 T4)))) P4).
  simpl.
  rewrite (proj1 (proj2 (proj2 (proj2 (proj2
             (steps_are_gated t v5 T5))))) P5). simpl.
  exact (proj2 (proj2 (proj2 (proj2 (proj2
           (steps_are_gated t v6 T6))))) P6).
Qed.

Lemma load_data_into_dict_Ok (np_load : string -> result (list Img))
    (data_dir : string) (t t' : Trainer B) :
  load_data_into_dict np_load data_dir t = Ok t' ->
  exists a1 a2 a3 a4 a5 a6 size,
    np_load (data_dir +:+ "cv_test_images.npy") = Ok a5
    /\ shape a5 !! 2%nat = Some size
    /\ t' = set_image_size
              (set_data t
                 (<["test_masks" := a6]> (<["test_images" := a5]> (
                  <["val_masks" := a4]> (<["val_images" := a3]> (
                  <["train_masks" := a2]> (<["train_images" := a1]> ∅)))))))
              size.
Proof.
  unfold load_data_into_dict. intros H.
  apply bind_Ok in H as (a1 & _ & H). apply bind_Ok in H as (a2 & _ & H).
  apply bind_Ok in H as (a3 & _ & H). apply bind_Ok in H as (a4 & _ & H).
  apply bind_Ok in H as (a5 & H5 & H). apply bind_Ok in H as (a6 & _ & H).
  destruct (shape a5 !! 2%nat) as [size|] eqn:Hs; [|done].
  injection H as <-. by exists a1, a2, a3, a4, a5, a6, size.
Qed.

(** The state handed to the generators by [load_data]. *)
Lemma load_data_Ok (np_load : string -> result (list Img))
    (data_dir : string) (t t' : Trainer B) :
  load_data np_load data_dir t = Ok t' ->
  exists t1 t2 v,
    load_data_into_dict np_load data_dir t = Ok t1
    /\ apply_preprocessings t1 = Ok t2
    /\ param t "augumentation" = Ok v
    /\ data t' = data t2 /\ input_shape t' = input_shape t2
    /\ image_size t' = image_size t2
    /\ preprocessing_parameters (config t')
       = preprocessing_parameters (config t)
    /\ (if truthy v
        then augument (config t') = augument (config t)
             /\ augument_mask (config t') = augument_mask (config t)
        else augument (config t') = ∅ /\ augument_mask (config t') = ∅).
Proof.
  intros H. unfold load_data in H.
  apply bind_Ok in H as (t1 & H1 & H). apply bind_Ok in H as (t2 & H2 & H).
  apply bind_Ok in H as (v & Hv & H).
  pose proof (load_data_into_dict_settings _ _ _ _ H1) as [_ C1].
  pose proof (apply_preprocessings_settings _ _ H2) as [_ C2].
  assert (param t "augumentation" = Ok v) as Hv'.
  { unfold param in *. by rewrite <-C1, <-C2. }
  exists t1, t2, v. split_and!; [done..| | | | |];
    do 8 (apply bind_Ok in H as (? & _ & H)); injection H as <-; simpl.
  - by destruct (truthy v).
  - by destruct (truthy v).
  - by destruct (truthy v).
  - destruct (truthy v); simpl; congruence.
  - destruct (truthy v); simpl; [|done]. split; congruence.
Qed.

(** X13. After [load_data], [self.data] holds exactly the six arrays:
    whatever it held before is gone and no step drops one. *)
Theorem load_data_holds_six_arrays (np_load : string -> result (list Img))
    (data_dir : string) (t t' : Trainer B) (key : string) :
  load_data np_load data_dir t = Ok t' ->
  is_Some (data t' !! key) <-> key ∈ image_keys ++ mask_keys.
Proof.
  intros H.
  destruct (load_data_Ok _ _ _ _ H) as (t1 & t2 & v & H1 & H2 & _ & -> & _).
  destruct (apply_preprocessings_params _ _ H2) as (vn & vc & Hn & Hc).
  destruct (apply_preprocessings_preserved _ _ _ _ Hn Hc H2)
    as (_ & _ & _ & Hd & _).
  rewrite (Hd key).
  destruct (load_data_into_dict_Ok _ _ _ _ H1)
    as (a1 & a2 & a3 & a4 & a5 & a6 & size & _ & _ & ->).
  simpl. unfold image_keys, mask_keys. simpl.
  rewrite !elem_of_cons, elem_of_nil.
  rewrite !lookup_insert. repeat case_decide; subst;
    rewrite ?lookup_empty; split; eauto 8; try (intros [? ?]; done);
    intuition congruence.
Qed.

(** X14. Switching augmentation off is done by emptying both augmentation
    dictionaries of the trainer: after [load_data] with a false
    'augumentation' flag they are empty, with a true flag they are what they
    were, and the preprocessing parameters are never changed. *)
Theorem load_data_augmentation_switch
    (np_load : string -> result (list Img))
    (data_dir : string) (t t' : Trainer B) :
  load_data np_load data_dir t = Ok t' ->
  preprocessing_parameters (config t') = preprocessing_parameters (config t)
  /\ exists v,
       param t "augumentation" = Ok v
       /\ (truthy v = true ->
           augument (config t') = augument (config t)
           /\ augument_mask (config t') = augument_mask (config t))
       /\ (truthy v = false ->
           augument (config t') = ∅ /\ augument_mask (config t') = ∅).
Proof.
  intros H.
  destruct (load_data_Ok _ _ _ _ H)
    as (t1 & t2 & v & _ & _ & Hv & _ & _ & _ & Hp & Ha).
  split; [done|]. exists v. split; [done|].
  destruct (truthy v); split; intros; done.
Qed.

(** X15. Unless connected components are switched on, [load_data] leaves
    the recorded input shape as it was, so [build_model] asks for a network
    with the channel count recorded before loading (1 after the
    constructor), whatever the loaded arrays hold; the image size it asks
    for is the third dimension of the test images as loaded. *)
Theorem build_model_after_load_data (np_load : string -> result (list Img))
    (data_dir : string) (t t' : Trainer B) (v : pyval)
    (feature_channels : list Z) :
  param t "connected_components" = Ok v -> truthy v = false ->
  load_data np_load data_dir t = Ok t' ->
  input_shape t' = input_shape t
  /\ exists test size,
       np_load (data_dir +:+ "cv_test_images.npy") = Ok test
       /\ shape test !! 2%nat = Some size
       /\ build_model feature_channels t'
          = match last (input_shape t) with
            | Some channels =>
                Ok {| unet_feature_channels := feature_channels;
                      unet_image_size := size;
                      unet_input_channels := channels |}
            | None => Raise IndexError
            end.
Proof.
  intros Hv Hf H.
  destruct (load_data_Ok _ _ _ _ H)
    as (t1 & t2 & va & H1 & H2 & _ & _ & Hs & Hi & _).
  destruct (load_data_into_dict_Ok _ _ _ _ H1)
    as (a1 & a2 & a3 & a4 & a5 & a6 & size & Hload & Hsize & Ht1).
  destruct (apply_preprocessings_params _ _ H2) as (vn & vc & Hn & Hc).
  assert (vc = v) as ->.
  { subst t1. unfold param in *. simpl in Hc. congruence. }
  destruct (apply_preprocessings_preserved _ _ _ _ Hn Hc H2)
    as (_ & _ & Him & _ & _ & Hsh).
  rewrite Hf in Hsh. specialize (Hsh eq_refl).
  assert (input_shape t' = input_shape t) as Hshape.
  { rewrite Hs, Hsh. by subst t1. }
  split; [done|]. exists a5, size. split_and!; [done..|].
  unfold build_model. rewrite Hshape, Hi, Him. by subst t1.
Qed.

End PipelineExtras.

Lemma masks_untouched_without_normalization_witness :
  exists t',
    apply_preprocessings (B := toy_backend)
      (set_data (new_trainer zca_only 2) (short_training_set (B := toy_backend) 1 2 3 4 5 6))
    = Ok t'
    /\ data t' !! "test_masks" = Some [5; 6]
    /\ data t' !! "test_images" = Some [102; 3].
Proof.
  destruct (is_ok_true
              (apply_preprocessings (B := toy_backend)
                 (set_data (new_trainer zca_only 2)
                    (short_training_set (B := toy_backend) 1 2 3 4 5 6))))
    as [t' Ht']; [vm_compute; reflexivity|].
  exists t'. split; [exact Ht'|]. split.
  - etrans.
    + apply (masks_untouched_without_normalization (B := toy_backend)
               (set_data (new_trainer zca_only 2)
                  (short_training_set (B := toy_backend) 1 2 3 4 5 6))
               t' (VBool false) "test_masks");
        [vm_compute; reflexivity | reflexivity | exact Ht'
        | vm_compute; reflexivity].
    + vm_compute; reflexivity.
  - assert (match apply_preprocessings (B := toy_backend)
                    (set_data (new_trainer zca_only 2)
                       (short_training_set (B := toy_backend) 1 2 3 4 5 6)) with
            | Ok u => data u !! "test_images"
            | Raise _ => None
            end = Some [102; 3]) as Hd by (vm_compute; reflexivity).
    rewrite Ht' in Hd. exact Hd.
Defined.

Lemma pipeline_keeps_the_keys_witness :
  exists t',
    apply_preprocessings (B := toy_backend)
      (set_data (new_trainer zca_only 2) (short_training_set (B := toy_backend) 1 2 3 4 5 6))
    = Ok t'
    /\ is_Some (data t' !! "val_images")
    /\ ~ is_Some (data t' !! "extra").
Proof.
  destruct (is_ok_true
              (apply_preprocessings (B := toy_backend)
                 (set_data (new_trainer zca_only 2)
                    (short_training_set (B := toy_backend) 1 2 3 4 5 6))))
    as [t' Ht']; [vm_compute; reflexivity|].
  exists t'. split; [exact Ht'|]. split.
  - apply (proj2 (pipeline_keeps_the_keys (B := toy_backend) _ t'
                    "val_images" Ht')).
    eexists. reflexivity.
  - intros Hsome.
    apply (proj1 (pipeline_keeps_the_keys (B := toy_backend) _ t'
                    "extra" Ht')) in Hsome.
    destruct Hsome as [a Ha]. vm_compute in Ha. discriminate.
Defined.

Lemma pipeline_all_off_witness :
  let t := set_data
             (new_trainer (B := toy_backend)
                {| augument := default_augument;
                   augument_mask := default_augument;
                   preprocessing_parameters :=
                     <["normalization" := VBool false]>
                       default_preprocessing_parameters |} 8)
             (short_training_set (B := toy_backend) 1 2 3 4 5 6) in
  apply_preprocessings t = Ok t.
Proof.
  intros t. apply (pipeline_all_off (B := toy_backend)).
  intros key Hk. unfold pipeline_flags in Hk.
  rewrite !elem_of_cons, elem_of_nil in Hk.
  destruct Hk as [->|[->|[->|[->|[->|[->|[]]]]]]];
    exists (VBool false); split; reflexivity.
Defined.

Lemma load_data_holds_six_arrays_witness :
  exists t',
    load_data (B := toy_backend) toy_files "npy_datasets/cv_data/"
      (new_trainer zca_only 2) = Ok t'
    /\ is_Some (data t' !! "train_masks").
Proof.
  destruct (is_ok_true
              (load_data (B := toy_backend) toy_files "npy_datasets/cv_data/"
                 (new_trainer zca_only 2))) as [t' Ht'];
    [vm_compute; reflexivity|].
  exists t'. split; [exact Ht'|].
  apply (proj2 (load_data_holds_six_arrays (B := toy_backend) _ _ _ t'
                  "train_masks" Ht')).
  apply list_elem_of_In. simpl. auto 10.
Defined.

Lemma load_data_augmentation_switch_witness :
  exists t',
    load_data (B := toy_backend) toy_files "npy_datasets/cv_data/"
      (new_trainer zca_only 2) = Ok t'
    /\ augument (config t') = ∅ /\ augument_mask (config t') = ∅.
Proof.
  destruct (is_ok_true
              (load_data (B := toy_backend) toy_files "npy_datasets/cv_data/"
                 (new_trainer zca_only 2))) as [t' Ht'];
    [vm_compute; reflexivity|].
  exists t'. split; [exact Ht'|].
  destruct (load_data_augmentation_switch (B := toy_backend) _ _ _ t' Ht')
    as (_ & v & Hv & _ & Hoff).
  apply Hoff.
  assert (param (B := toy_backend) (new_trainer zca_only 2) "augumentation"
          = Ok (VBool false)) as Hp by reflexivity.
  rewrite Hp in Hv. by injection Hv as <-.
Defined.

Lemma build_model_after_load_data_witness :
  exists t',
    load_data (B := toy_backend) toy_files "npy_datasets/cv_data/"
      (new_trainer zca_only 2) = Ok t'
    /\ build_model [32; 64] t'
       = Ok {| unet_feature_channels := [32; 64]; unet_image_size := 2;
               unet_input_channels := 1 |}.
Proof.
  destruct (is_ok_true
              (load_data (B := toy_backend) toy_files "npy_datasets/cv_data/"
                 (new_trainer zca_only 2))) as [t' Ht'];
    [vm_compute; reflexivity|].
  exists t'. split; [exact Ht'|].
  destruct (build_model_after_load_data (B := toy_backend) toy_files
              "npy_datasets/cv_data/" (new_trainer zca_only 2) t'
              (VBool false) [32; 64] eq_refl eq_refl Ht')
    as (_ & test & size & Hload & Hsize & ->).
  vm_compute in Hload. injection Hload as <-.
  vm_compute in Hsize. injection Hsize as <-.
  reflexivity.
Defined.

(** X16. The number of steps of an iterator with a positive batch size is
    the least number of batches that covers its samples: no sample is left
    out of an epoch, the last batch is not empty, and an empty split gives
    zero steps. *)
Theorem iterator_len_covers_the_samples (it : Iterator) (k : Z) :
  0 < it_batch_size it -> 0 <= it_n it ->
  iterator_len it = Ok k ->
  it_n it <= k * it_batch_size it
  /\ k * it_batch_size it < it_n it + it_batch_size it
  /\ (k = 0 <-> it_n it = 0).
Proof.
  intros Hb Hn. unfold iterator_len.
  destruct (Z.eqb_spec (it_batch_size it) 0); [lia|].
  cbv zeta. case_match; [done|]. intros [= <-].
  pose proof (Z.div_mod (it_n it + it_batch_size it - 1) (it_batch_size it)
                ltac:(lia)).
  pose proof (Z.mod_pos_bound (it_n it + it_batch_size it - 1)
                (it_batch_size it) Hb).
  split_and!; [nia|nia|]. split; intros Hk.
  - rewrite Hk in *. lia.
  - rewrite Hk. apply Z.div_small. lia.
Qed.

Lemma iterator_len_covers_the_samples_witness :
  5 <= 3 * 2 /\ 3 * 2 < 5 + 2.
Proof.
  destruct (iterator_len_covers_the_samples
              {| it_options := ∅; it_n := 5; it_batch_size := 2 |} 3)
    as (H1 & H2 & _); [simpl; lia | simpl; lia | reflexivity|].
  simpl in H1, H2. split; [exact H1 | exact H2].
Defined.

(** ** Further properties of the constructor *)

Lemma int_to_float_Raise (z : Z) (e : exn) :
  int_to_float z = Raise e -> e = OverflowError.
Proof. unfold int_to_float. case_match; by intros [=]. Qed.

Lemma py_repeat_Raise (s : string) (n : Z) (e : exn) :
  py_repeat s n = Raise e -> e = OverflowError.
Proof. unfold py_repeat. repeat case_match; by intros [=]. Qed.

(** A product raises [TypeError] when the two types do not multiply, and
    [OverflowError] otherwise. *)
Lemma py_mul_Raise (v f : pyval) (e : exn) :
  py_mul v f = Raise e ->
  (e = TypeError /\ type_clash v f = true)
  \/ (e = OverflowError /\ type_clash v f = false).
Proof.
  destruct v, f; cbn [py_mul type_clash]; intros H;
    first [ discriminate
          | left; by injection H
          | right; split; [|done];
            first [ by eapply py_repeat_Raise
                  | destruct (int_to_float _) eqn:Hc; [discriminate|];
                    simpl in H; injection H as <-;
                    by eapply int_to_float_Raise ] ].
Qed.


Lemma scaled_is_Some (f v : pyval) :
  is_Some (scaled f v)
  <-> (multiplicable v = true -> exists v', py_mul v f = Ok v').
Proof.
  unfold scaled. destruct (multiplicable v).
  - destruct (py_mul v f) as [v'|e]; split.
    + eauto.
    + eauto.
    + by intros [? ?].
    + intros H. by destruct (H eq_refl).
  - split; [done|eauto].
Qed.

(** The loop ends without an exception when every product it needs
    exists. *)
Lemma scale_fold_total (f : pyval) (keys : list string) :
  NoDup keys ->
  forall a,
  (forall k, k ∈ keys -> exists v, a !! k = Some v /\ is_Some (scaled f v)) ->
  exists a', foldl (scale_step f) (Ok (a, a)) keys = Ok (a', a').
Proof.
  induction 1 as [|k keys Hk Hnd IH]; intros a Hall; [by exists a|].
  destruct (Hall k) as (v & Hv & Hs); [left|].
  cbn [foldl].
  assert (exists a1, scale_step f (Ok (a, a)) k = Ok (a1, a1)
                     /\ forall k', k' <> k -> a1 !! k' = a !! k')
    as (a1 & -> & Hother).
  { unfold scale_step, getitem. simpl. rewrite Hv. simpl.
    unfold scaled in Hs. destruct (multiplicable v); [|by exists a].
    destruct (py_mul v f) as [v'|]; [|by destruct Hs]. simpl.
    exists (<[k := v']> a). split; [done|].
    intros k' Hne. by rewrite lookup_insert_ne. }
  apply IH. intros k' Hk'.
  rewrite Hother by (intros ->; done).
  apply Hall. by right.
Qed.

(** When the loop raises, the exception is the one of the product of the
    factor and some value that passes the digit test. *)
Lemma scale_fold_Raise_inv (f : pyval) (keys : list string) :
  NoDup keys ->
  forall a e,
  (forall k, k ∈ keys -> is_Some (a !! k)) ->
  foldl (scale_step f) (Ok (a, a)) keys = Raise e ->
  exists k v, k ∈ keys /\ a !! k = Some v
              /\ multiplicable v = true /\ py_mul v f = Raise e.
Proof.
  induction 1 as [|k keys Hk Hnd IH]; intros a e Hdom Hfold; [done|].
  cbn [foldl] in Hfold.
  destruct (Hdom k) as [v Hv]; [left|].
  destruct (scaled f v) as [w|] eqn:Hs.
  - assert (exists a1, scale_step f (Ok (a, a)) k = Ok (a1, a1)
                       /\ forall k', k' <> k -> a1 !! k' = a !! k')
      as (a1 & Hstep & Hother).
    { unfold scale_step, getitem. simpl. rewrite Hv. simpl.
      unfold scaled in Hs. destruct (multiplicable v); [|by exists a].
      destruct (py_mul v f) as [v'|]; [|done]. simpl.
      exists (<[k := v']> a). split; [done|].
      intros k' Hne. by rewrite lookup_insert_ne. }
    rewrite Hstep in Hfold.
    destruct (IH a1 e) as (k' & v' & Hk' & Hv' & Hm' & Hmul'); [|done|].
    { intros k' Hk'. rewrite Hother by (intros ->; done).
      apply Hdom. by right. }
    exists k', v'. split_and!; [by right| |done..].
    rewrite <-Hother; [done|]. intros ->. done.
  - unfold scaled in Hs. destruct (multiplicable v) eqn:Hm; [|done].
    destruct (py_mul v f) as [|e'] eqn:Hmul; [done|].
    assert (scale_step f (Ok (a, a)) k = Raise e') as Hstep.
    { unfold scale_step, getitem. simpl. rewrite Hv. simpl.
      by rewrite Hm, Hmul. }
    rewrite Hstep, scale_fold_Raise in Hfold. injection Hfold as <-.
    exists k, v. split_and!; [left|done..].
Qed.

Lemma within_limits_intro (f : pyval) (d : dict) :
  forallb (fun kv => within_limits_value f kv.2) (map_to_list d) = true ->
  within_limits f d.
Proof.
  intros H. apply map_Forall_to_list, Forall_forall.
  intros [k v] Hin. rewrite forallb_forall in H.
  apply (H (k, v)). by apply list_elem_of_In.
Qed.

Lemma scale_fold_dom (f : pyval) (key : string) (keys : list string) :
  forall a0 m0 a1 m1,
  foldl (scale_step f) (Ok (a0, m0)) keys = Ok (a1, m1) ->
  is_Some (a0 !! key) -> is_Some (a1 !! key).
Proof.
  induction keys as [|k keys IH]; intros a0 m0 a1 m1 Hfold Hs;
    cbn [foldl] in Hfold; [by simplify_eq|].
  destruct (scale_step f (Ok (a0, m0)) k) as [[a2 m2]|e] eqn:Hstep;
    [|by rewrite scale_fold_Raise in Hfold].
  eapply (IH _ _ _ _ Hfold).
  unfold scale_step in Hstep. simpl in Hstep.
  apply bind_Ok in Hstep as (v & _ & Hstep).
  destruct (multiplicable v); [|by simplify_eq].
  apply bind_Ok in Hstep as (v' & _ & Hstep).
  apply bind_Ok in Hstep as (w & _ & Hstep).
  apply bind_Ok in Hstep as (w' & _ & Hstep). simplify_eq.
  destruct (decide (k = key)) as [->|Hne].
  - rewrite lookup_insert_eq. eauto.
  - by rewrite lookup_insert_ne.
Qed.



(** The defaults alone raise OverflowError under an integer factor that is
    too large for a float, 0.1 * 10**400, and a digit string raises
    TypeError under a float factor. *)
Lemma huge_factor_overflows :
  Trainer_init [("augumentation_factor", VInt (10 ^ 400))] []
  = Raise OverflowError.
Proof. vm_compute; reflexivity. Qed.

Lemma digit_string_times_float_raises :
  Trainer_init [("augumentation_factor", dec 3 2)] [("fill_mode", VStr "7")]
  = Raise TypeError.
Proof. vm_compute; reflexivity. Qed.

Lemma small_int_fits_float (z : Z) :
  Z.abs z < 2 ^ 63 -> exists x, int_to_float z = Ok x.
Proof.
  intros Hz. unfold int_to_float.
  assert (2 ^ 63 < float_overflow) by (vm_compute; reflexivity).
  destruct (Z.ltb_spec (Z.abs z) float_overflow); [eauto|lia].
Qed.

Lemma py_repeat_short (s : string) (n : Z) :
  Z.abs n < 2 ^ 63 -> Z.of_nat (String.length s) * n <= 2 ^ 20 ->
  exists v, py_repeat s n = Ok v.
Proof.
  intros Hn Hlen. unfold py_repeat, ssize_max.
  destruct (Z.ltb_spec n (- 2 ^ 63)); [lia|].
  destruct (Z.ltb_spec (2 ^ 63 - 1) n); [lia|]. simpl.
  destruct (Z.ltb_spec n 1); [eauto|].
  destruct (Z.ltb_spec ((2 ^ 63 - 1) `div` n)
              (Z.of_nat (String.length s))) as [Hlt|]; [|eauto].
  assert (Z.of_nat (String.length s) <= (2 ^ 63 - 1) `div` n); [|lia].
  apply Z.div_le_lower_bound; lia.
Qed.

(** Within the limits, a product with an integer of at most 63 bits or a
    boolean exists for every value that passes the digit test. *)
Lemma py_mul_small_int_total (v f : pyval) :
  (exists z, f = VInt z /\ Z.abs z < 2 ^ 63) \/ (exists b, f = VBool b) ->
  within_limits_value f v = true -> multiplicable v = true ->
  exists v', py_mul v f = Ok v'.
Proof.
  intros Hf Hlim Hm.
  assert (exists z, Z.abs z < 2 ^ 63
                    /\ py_mul v f = py_mul v (VInt z)
                    /\ repeat_size v f = repeat_size v (VInt z))
    as (z & Hz & -> & Hsize).
  { destruct Hf as [(z & -> & Hz)|[b ->]]; [by exists z|].
    exists (Z_of_bool b). split; [by destruct b|].
    by destruct v. }
  unfold within_limits_value in Hlim.
  rewrite Hm, Hsize in Hlim. simpl in Hlim.
  apply andb_true_iff in Hlim as [_ Hlen%Z.leb_le].
  destruct v as [a|x|b|s]; cbn [py_mul].
  - eauto.
  - destruct (small_int_fits_float z Hz) as [y ->]. simpl. eauto.
  - by rewrite multiplicable_bool in Hm.
  - by apply py_repeat_short.
Qed.

(** X18. With an integer or boolean augmentation factor the constructor
    never raises TypeError: the only exception is OverflowError.  Within
    the limits (ASCII strings, integers that [str] accepts, short
    repetitions) it returns whenever the factor is a boolean or an integer
    of at most 63 bits. *)
Theorem integer_factor_never_raises
    (preprocessing_params augumentation_parameters : list (string * pyval))
    (f : pyval) :
  let base := update_all augumentation_parameters default_augument in
  let run := Trainer_init preprocessing_params augumentation_parameters in
  update_all preprocessing_params default_preprocessing_parameters
    !! "augumentation_factor" = Some f ->
  (exists z, f = VInt z) \/ (exists b, f = VBool b) ->
  within_limits f base ->
  (forall e, run = Raise e -> e = OverflowError)
  /\ ((exists z, f = VInt z /\ Z.abs z < 2 ^ 63) \/ (exists b, f = VBool b) ->
      exists c, run = Ok c).
Proof.
  intros base run Hf Hint Hlim.
  destruct (augument_keys_spec augumentation_parameters) as [Hnd Hkeys].
  fold base in Hkeys.
  unfold run, Trainer_init, getitem. rewrite Hf. simpl. fold base.
  destruct (py_ne_1 f); [|simpl; split; [done|eauto]].
  unfold scale_all. split.
  - intros e He.
    destruct (foldl (scale_step f) (Ok (base, base))
                (keys_after augumentation_parameters default_augument_keys))
      as [[a' m']|e'] eqn:Hfold; simpl in He; [done|].
    injection He as ->.
    destruct (scale_fold_Raise_inv f _ Hnd base e)
      as (k & v & Hk & Hv & Hm & Hmul);
      [by intros k Hk; apply Hkeys|done|].
    destruct (py_mul_Raise _ _ _ Hmul) as [[_ Hclash]|[-> _]]; [|done].
    destruct Hint as [[z ->]|[b ->]]; by destruct v.
  - intros Hsmall.
    destruct (scale_fold_total f _ Hnd base) as [a' ->]; [|simpl; eauto].
    intros k [v Hv]%Hkeys. exists v. split; [done|].
    apply scaled_is_Some. intros Hm.
    apply py_mul_small_int_total; [done| |done].
    by apply (Hlim k v).
Qed.

Lemma integer_factor_never_raises_witness :
  exists c,
    Trainer_init [("augumentation_factor", VInt 3)]
      [("fill_mode", VStr "7"); ("cval", dec (-1) 2)] = Ok c.
Proof.
  destruct (integer_factor_never_raises
              [("augumentation_factor", VInt 3)]
              [("fill_mode", VStr "7"); ("cval", dec (-1) 2)] (VInt 3))
    as [_ Hok].
  - vm_compute; reflexivity.
  - left. by exists 3.
  - apply within_limits_intro. vm_compute; reflexivity.
  - apply Hok. left. exists 3. split; [reflexivity|]. vm_compute; reflexivity.
Defined.

(** X19. The constructor keeps every override and every default: an
    override of a preprocessing parameter is stored as given, a parameter
    that is not overridden has its default, and the keys of the augmentation
    dictionary are the default keys and the overridden ones (scaling drops
    none and unknown keys are accepted). *)
Theorem overrides_are_kept
    (preprocessing_params augumentation_parameters : list (string * pyval))
    (c : Config) :
  Trainer_init preprocessing_params augumentation_parameters = Ok c ->
  NoDup preprocessing_params.*1 ->
  (forall key v, (key, v) ∈ preprocessing_params ->
                 preprocessing_parameters c !! key = Some v)
  /\ (forall key, key ∉ preprocessing_params.*1 ->
                  preprocessing_parameters c !! key
                  = default_preprocessing_parameters !! key)
  /\ (forall key, is_Some (augument c !! key)
                  <-> is_Some (default_augument !! key)
                      \/ key ∈ augumentation_parameters.*1).
Proof.
  unfold Trainer_init. intros Hinit Hnd.
  apply bind_Ok in Hinit as (f & Hf & Hinit).
  apply bind_Ok in Hinit as ([aug' mask'] & Hscale & Hinit).
  injection Hinit as <-. simpl. split_and!.
  - intros key v Hin. by apply update_all_in.
  - intros key Hk. by apply update_all_notin.
  - intros key. rewrite <-update_all_is_Some.
    destruct (py_ne_1 f); [|by simplify_eq].
    split.
    + destruct (augument_keys_spec augumentation_parameters) as [Hnd' Hkeys].
      destruct (scale_all_lookup _ _ _ _ _ key Hnd'
                  ltac:(intros k; apply Hkeys) Hscale) as [-> _].
      destruct (update_all augumentation_parameters default_augument !! key);
        [eauto|by intros [? ?]].
    + unfold scale_all in Hscale. by eapply scale_fold_dom.
Qed.

Lemma overrides_are_kept_witness :
  exists c,
    Trainer_init [("gaussian_blur", VBool true); ("my_option", VInt 7)] []
    = Ok c
    /\ preprocessing_parameters c !! "my_option" = Some (VInt 7).
Proof.
  destruct (is_ok_true
              (Trainer_init
                 [("gaussian_blur", VBool true); ("my_option", VInt 7)] []))
    as [c Hc]; [vm_compute; reflexivity|].
  exists c. split; [exact Hc|].
  destruct (overrides_are_kept _ _ c Hc) as (Hin & _).
  - repeat constructor; rewrite ?elem_of_cons, ?elem_of_nil;
      intros H; intuition discriminate.
  - apply Hin. right. left.
Defined.

(** X20. How an integer factor k other than 1 acts on an integer or boolean
    option: a non-negative integer z becomes z * k, a negative integer and a
    boolean are kept, in both augmentation dictionaries. *)
Theorem integer_options_scaling
    (preprocessing_params augumentation_parameters : list (string * pyval))
    (c : Config) (k : Z) (key : string) (v : pyval) :
  Trainer_init preprocessing_params augumentation_parameters = Ok c ->
  update_all preprocessing_params default_preprocessing_parameters
    !! "augumentation_factor" = Some (VInt k) ->
  k <> 1 ->
  update_all augumentation_parameters default_augument !! key = Some v ->
  (forall z, v = VInt z ->
     let v' := VInt (if bool_decide (0 <= z) then z * k else z) in
     augument c !! key = Some v' /\ augument_mask c !! key = Some v')
  /\ (forall b, v = VBool b ->
        augument c !! key = Some v /\ augument_mask c !! key = Some v).
Proof.
  unfold Trainer_init. intros Hinit Hf Hk Hv.
  unfold getitem in Hinit. rewrite Hf in Hinit. simpl in Hinit.
  destruct (Z.eqb_spec k 1) as [|_]; [done|]. simpl in Hinit.
  apply bind_Ok in Hinit as ([aug' mask'] & Hscale & Hinit).
  injection Hinit as <-. simpl.
  destruct (augument_keys_spec augumentation_parameters) as [Hnd Hkeys].
  destruct (scale_all_lookup _ _ _ _ _ key Hnd
              ltac:(intros k'; apply Hkeys) Hscale) as [-> ->].
  rewrite Hv. simpl. split.
  - intros z ->. case_bool_decide.
    + by rewrite scaled_nonneg_int.
    + by rewrite scaled_negative_int by lia.
  - intros b ->. by rewrite scaled_bool.
Qed.

Lemma integer_options_scaling_witness :
  exists c,
    Trainer_init [("augumentation_factor", VInt 2)]
      [("rotation_range", VInt (-30))] = Ok c
    /\ augument c !! "rotation_range" = Some (VInt (-30))
    /\ augument_mask c !! "rotation_range" = Some (VInt (-30)).
Proof.
  destruct (is_ok_true
              (Trainer_init [("augumentation_factor", VInt 2)]
                 [("rotation_range", VInt (-30))]))
    as [c Hc]; [vm_compute; reflexivity|].
  exists c. split; [exact Hc|].
  apply (proj1 (integer_options_scaling
                  [("augumentation_factor", VInt 2)]
                  [("rotation_range", VInt (-30))] c 2 "rotation_range"
                  (VInt (-30)) Hc eq_refl ltac:(lia) eq_refl) (-30) eq_refl).
Defined.

(** ** Further properties of the settings string *)

(** X21. Reading settings strings is idempotent and the order of two
    readings does not matter: flags are only switched on. *)
Theorem load_prep_idempotent_commutative (s1 s2 : string) (p : dict) :
  load_prep_from_settings_string s1 (load_prep_from_settings_string s1 p)
  = load_prep_from_settings_string s1 p
  /\ load_prep_from_settings_string s1 (load_prep_from_settings_string s2 p)
     = load_prep_from_settings_string s2
         (load_prep_from_settings_string s1 p).
Proof.
  split; apply map_eq; intros key; rewrite !load_prep_lookup;
    repeat case_match; done.
Qed.

Lemma upper_char_idempotent (c : ascii) :
  upper_char (upper_char c) = upper_char c.
Proof.
  destruct c as [[] [] [] [] [] [] [] []]; reflexivity.
Qed.

Lemma upper_idempotent (s : string) : upper (upper s) = upper s.
Proof.
  induction s as [|c s IH]; [done|]. simpl.
  by rewrite upper_char_idempotent, IH.
Qed.

Lemma upper_app (s1 s2 : string) : upper (s1 +:+ s2) = upper s1 +:+ upper s2.
Proof.
  induction s1 as [|c s1 IH]; [done|].
  change (String c s1 +:+ s2) with (String c (s1 +:+ s2)). simpl.
  rewrite IH. done.
Qed.

Lemma prefix_app (sub s t : string) :
  String.prefix sub s = true -> String.prefix sub (s +:+ t) = true.
Proof.
  revert s. induction sub as [|c sub IH]; intros s Hp.
  { by destruct (s +:+ t). }
  destruct s as [|c' s]; [done|].
  change (String c' s +:+ t) with (String c' (s +:+ t)).
  simpl in *. destruct (ascii_dec c c'); [|done]. by apply IH.
Qed.

Lemma contains_app_l (sub s t : string) :
  contains sub s = true -> contains sub (s +:+ t) = true.
Proof.
  induction s as [|c s IH]; intros Hc.
  - simpl in Hc. rewrite orb_false_r in Hc.
    destruct sub; [|done]. by destruct ("" +:+ t).
  - change (String c s +:+ t) with (String c (s +:+ t)).
    simpl in Hc. apply orb_true_iff in Hc as [Hp|Hc].
    + pose proof (prefix_app _ (String c s) t Hp) as Hp'.
      change (String c s +:+ t) with (String c (s +:+ t)) in Hp'.
      cbn [contains]. by rewrite Hp'.
    + cbn [contains]. rewrite (IH Hc). apply orb_true_r.
Qed.

Lemma contains_app_r (sub s t : string) :
  contains sub t = true -> contains sub (s +:+ t) = true.
Proof.
  intros Hc. induction s as [|c s IH]; [done|].
  change (String c s +:+ t) with (String c (s +:+ t)).
  cbn [contains]. rewrite IH. apply orb_true_r.
Qed.

Lemma load_prep_true_iff (settings key : string) (p : dict) :
  load_prep_from_settings_string settings p !! key = Some (VBool true)
  <-> existsb (fun kw => contains kw.1 (upper settings)
                         && bool_decide (key = kw.2)) keyword_flags = true
      \/ p !! key = Some (VBool true).
Proof.
  rewrite load_prep_lookup.
  destruct (existsb _ _); split; auto. intros [|]; done.
Qed.

Lemma existsb_keyword_mono (s s' key : string) :
  (forall kw, contains kw (upper s) = true -> contains kw (upper s') = true) ->
  existsb (fun kw => contains kw.1 (upper s) && bool_decide (key = kw.2))
    keyword_flags = true ->
  existsb (fun kw => contains kw.1 (upper s') && bool_decide (key = kw.2))
    keyword_flags = true.
Proof.
  intros Hmono. rewrite !existsb_exists.
  intros (kw & Hin & [Hc Hk]%andb_true_iff).
  exists kw. split; [done|]. by rewrite (Hmono _ Hc), Hk.
Qed.

(** X22. A flag switched on by a settings string is switched on by every
    string that contains it, in front or at the end, in any letter case. *)
Theorem load_prep_monotone_in_the_string (s before after key : string)
    (p : dict) :
  load_prep_from_settings_string s p !! key = Some (VBool true) ->
  load_prep_from_settings_string (before +:+ s +:+ after) p !! key
  = Some (VBool true)
  /\ load_prep_from_settings_string (before +:+ upper s +:+ after) p !! key
     = Some (VBool true).
Proof.
  rewrite !load_prep_true_iff. intros [Hex|Hp]; [|by split; right].
  split; left; (eapply existsb_keyword_mono; [|exact Hex]);
    intros kw Hc; rewrite !upper_app, ?upper_idempotent;
    by apply contains_app_r, contains_app_l.
Qed.

Lemma load_prep_monotone_in_the_string_witness :
  load_prep_from_settings_string ("run1_" +:+ upper "zca" +:+ "_bs8")
    default_preprocessing_parameters !! "zca_whitening"
  = Some (VBool true).
Proof.
  apply (proj2 (load_prep_monotone_in_the_string "zca" "run1_" "_bs8"
                  "zca_whitening" default_preprocessing_parameters
                  ltac:(vm_compute; reflexivity))).
Defined.

(** X23. A settings string only switches the six flags on: an ASCII string
    without any keyword in any letter case (the empty string, for one)
    changes nothing, a parameter that is not one of the six flags is never
    changed, and a flag that is true stays true.  (Outside ASCII,
    [str.upper] can produce a keyword from other letters.) *)
Theorem load_prep_only_switches_on (settings : string) (p : dict) :
  (is_ascii settings = true ->
   (forall kw, kw ∈ keyword_flags.*1 ->
               contains kw (upper settings) = false) ->
   load_prep_from_settings_string settings p = p)
  /\ (forall key, key ∉ keyword_flags.*2 ->
                  load_prep_from_settings_string settings p !! key = p !! key)
  /\ (forall key, p !! key = Some (VBool true) ->
                  load_prep_from_settings_string settings p !! key
                  = Some (VBool true)).
Proof.
  split_and!.
  - intros _ Hnone. unfold load_prep_from_settings_string.
    rewrite !Hnone; [done|..]; apply list_elem_of_In; simpl; auto 10.
  - intros key Hk. rewrite load_prep_lookup.
    destruct (existsb _ _) eqn:Hex; [|done].
    apply existsb_exists in Hex as (kw & Hin & [_ Heq]%andb_true_iff).
    apply bool_decide_eq_true_1 in Heq. subst key. destruct Hk.
    apply list_elem_of_fmap. exists kw. split; [done|].
    by apply list_elem_of_In.
  - intros key Hp. apply load_prep_true_iff. by right.
Qed.

Lemma load_prep_only_switches_on_witness :
  load_prep_from_settings_string "run1_bs8" default_preprocessing_parameters
  = default_preprocessing_parameters
  /\ load_prep_from_settings_string "heq"
       default_preprocessing_parameters !! "normalization"
     = Some (VBool true).
Proof.
  split.
  - apply (proj1 (load_prep_only_switches_on "run1_bs8" _)); [reflexivity|].
    intros kw Hkw. unfold keyword_flags in Hkw. simpl in Hkw.
    rewrite !elem_of_cons, elem_of_nil in Hkw.
    destruct Hkw as [->|[->|[->|[->|[->|[->|[]]]]]]]; reflexivity.
  - apply (proj2 (proj2 (load_prep_only_switches_on "heq" _))).
    reflexivity.
Defined.

(** ** The constructor and the pipeline together *)

(** X24. Every preprocessing parameter that has a default is present after
    the constructor, whatever the overrides are: reading a flag or a
    setting of the pipeline from a constructed trainer cannot raise
    KeyError. *)
Theorem constructed_parameters_are_complete
    (preprocessing_params augumentation_parameters : list (string * pyval))
    (c : Config) (key : string) :
  Trainer_init preprocessing_params augumentation_parameters = Ok c ->
  is_Some (default_preprocessing_parameters !! key) ->
  exists v, getitem (preprocessing_parameters c) key = Ok v.
Proof.
  unfold Trainer_init. intros Hinit Hdef.
  apply bind_Ok in Hinit as (f & _ & Hinit).
  apply bind_Ok in Hinit as ([aug' mask'] & _ & Hinit).
  injection Hinit as <-. simpl.
  assert (is_Some (update_all preprocessing_params
                     default_preprocessing_parameters !! key)) as [v Hv]
    by (apply update_all_is_Some; by left).
  exists v. unfold getitem. by rewrite Hv.
Qed.

Lemma constructed_parameters_are_complete_witness :
  exists c v,
    Trainer_init [("zca_whitening", VInt 1)] [] = Ok c
    /\ getitem (preprocessing_parameters c) "gaussian_blur_radius" = Ok v.
Proof.
  destruct (is_ok_true (Trainer_init [("zca_whitening", VInt 1)] []))
    as [c Hc]; [vm_compute; reflexivity|].
  destruct (constructed_parameters_are_complete _ _ c "gaussian_blur_radius"
              Hc) as [v Hv]; [by eexists|].
  exists c, v. split; [exact Hc | exact Hv].
Defined.

Section WhiteningResult.
Context {B : Backend}.

(** X25. With the whitening flag on, the step fits the generator on the
    first 250 training samples, standardizes every training sample and, of
    the validation and test arrays, the samples whose index is below the
    number of training samples; later samples and every other array are
    left as they were. *)
Theorem whitening_step_result (t t' : Trainer B) (v : pyval)
    (train val test : list Img) :
  param t "zca_whitening" = Ok v -> truthy v = true ->
  data t !! "train_images" = Some train ->
  data t !! "val_images" = Some val ->
  data t !! "test_images" = Some test ->
  step_zca_whitening t = Ok t' ->
  let f := standardize (zca_fit (take 250 train)) in
  let n := length train in
  data t' !! "train_images" = Some (f <$> train)
  /\ data t' !! "val_images" = Some ((f <$> take n val) ++ drop n val)
  /\ data t' !! "test_images" = Some ((f <$> take n test) ++ drop n test)
  /\ (forall key, key ∉ image_keys -> data t' !! key = data t !! key).
Proof.
  intros Hp Hv Htr Hva Hte Hstep f n.
  rewrite (step_zca_whitening_on t v train val test Hp Hv Htr Hva Hte)
    in Hstep.
  injection Hstep as <-. simpl. fold f. fold n.
  split_and!.
  - rewrite !lookup_insert_ne by done. apply lookup_insert_eq.
  - rewrite lookup_insert_ne by done. apply lookup_insert_eq.
  - apply lookup_insert_eq.
  - intros key Hk. unfold image_keys in Hk.
    rewrite !not_elem_of_cons in Hk. destruct Hk as (? & ? & ? & _).
    by rewrite !lookup_insert_ne.
Qed.

End WhiteningResult.

Lemma whitening_step_result_witness :
  exists t',
    step_zca_whitening (B := toy_backend)
      (set_data (new_trainer zca_only 2)
         (short_training_set (B := toy_backend) 1 2 3 4 5 6)) = Ok t'
    /\ data t' !! "test_images" = Some [102; 3].
Proof.
  pose (t := set_data (B := toy_backend) (new_trainer zca_only 2)
               (short_training_set (B := toy_backend) 1 2 3 4 5 6)).
  destruct (is_ok_true (step_zca_whitening t)) as [t' Ht'];
    [vm_compute; reflexivity|].
  exists t'. split; [exact Ht'|].
  assert (param t "zca_whitening" = Ok (VBool true)) as Hp
    by (vm_compute; reflexivity).
  assert (data t !! "train_images" = Some [1]) as Htr
    by (vm_compute; reflexivity).
  assert (data t !! "val_images" = Some []) as Hva
    by (vm_compute; reflexivity).
  assert (data t !! "test_images" = Some [2; 3]) as Hte
    by (vm_compute; reflexivity).
  destruct (whitening_step_result (B := toy_backend) t t' (VBool true)
              [1] [] [2; 3] Hp eq_refl Htr Hva Hte Ht')
    as (_ & _ & Hres & _).
  exact Hres.
Defined.
